(** * go-edgar: the EDGAR client (pkg/edgar/client.go)

    A shallow embedding of the filing selector, the fact extractor and the
    metric calculator of [client.go], and the properties of the
    specification that concern them.

    Conventions of the embedding.
    - A Go [interface{}] holding decoded JSON is the inductive type [Value];
      a type assertion [v.(T)] is a [match] on its constructor, and a map
      index followed by an assertion is a [match] on the [option] returned by
      the lookup (a missing key yields the nil interface, on which every
      assertion fails).
    - [float64] is Rocq's primitive binary64 [float]; [int] is [Z] (no
      score ever leaves the range 0..175).
    - Go strings are byte strings and are compared bytewise, which is what
      [String.compare] does.
    - A pointer argument such as [result *float64] or [metrics *T] becomes an
      argument holding the pointee on entry and a returned component holding
      it on exit.
    - [log.Printf] appends to a log that is returned with the result.
    - A run-time panic (index out of range, nil pointer dereference) is the
      outcome [Panic]. *)

From Stdlib Require Import ZArith Bool String Ascii List PrimFloat.
From Stdlib Require Import DecimalString.
From stdpp Require Import gmap strings list fin_maps sorting.

Open Scope string_scope.
Open Scope Z_scope.

(** ** Decoded JSON values *)

#[local] Set Warnings "-register-all".

Inductive Value : Type :=
| VNil
| VString (s : string)
| VInt (n : Z)
| VFloat64 (f : float)
| VBool (b : bool)
| VSlice (l : list Value)
| VMap (m : gmap string Value).

(** ** Errors and outcomes *)

Inductive error : Type :=
| ErrTransport (msg : string)
| ErrMetricNotFound (tagNames : list string)
| ErrFactsNil
| ErrUsGaapNotFound
| ErrNoTenQ (cik : string)
| ErrNoQuarters
| ErrWrap (context : string) (e : error).

Inductive outcome (A : Type) : Type :=
| Ok (a : A)
| Err (e : error)
| Panic.

Arguments Ok {A} a.
Arguments Err {A} e.
Arguments Panic {A}.

Definition bind {A B : Type} (x : outcome A) (k : A -> outcome B) : outcome B :=
  match x with
  | Ok a => k a
  | Err e => Err e
  | Panic => Panic
  end.

#[global] Instance outcome_ret : MRet outcome := fun A a => Ok a.
#[global] Instance outcome_bind : MBind outcome := fun A B k x => bind x k.

(** A line written by [log.Printf("Warning: <what>: %v", err)]. *)
Record LogLine : Type := Warning { what : string; cause : option error }.

(** ** Strings *)

Definition gtb (s1 s2 : string) : bool := String.ltb s2 s1.

(** [strings.ToLower] on the ASCII letters.  On a multi-byte rune Go's
    function may differ, but no such rune lowers to one of the letters
    u, s, d, so the test made by [extractMetric] is not affected. *)
Definition lowerAscii (c : ascii) : ascii :=
  let n := N_of_ascii c in
  if ((65 <=? n) && (n <=? 90))%N then ascii_of_N (n + 32) else c.

Fixpoint ToLower (s : string) : string :=
  match s with
  | EmptyString => EmptyString
  | String c s' => String (lowerAscii c) (ToLower s')
  end.

(** [strings.Contains]. *)
Fixpoint Contains (s substr : string) : bool :=
  String.prefix substr s ||
  match s with
  | EmptyString => false
  | String _ s' => Contains s' substr
  end.

(** [strconv.Itoa]. *)
Definition Itoa (n : Z) : string := NilZero.string_of_int (Z.to_int n).

(** ** Records of the client *)

Module Filing.
Record t : Type := Build {
  AccessionNumber : string;
  FilingDate : string;
  ReportDate : string;
  Form : string;
  FileNumber : string;
  FilmNumber : string;
  Items : string;
  Size : string;
  IsXBRL : string;
  IsInlineXBRL : string;
  PrimaryDocument : string;
  PrimaryDocDesc : string
}.
End Filing.

Module CompanyFacts.
Record t : Type := Build {
  CIK : Value;
  Entity : string;
  Facts : option (gmap string Value)   (* [None] is the nil map *)
}.
End CompanyFacts.

Module CashFlowMetrics.
Record t : Type := Build {
  CompanyName : string;
  CIK : string;
  FilingDate : string;
  ReportDate : string;
  NetCashFromOperatingActivities : float;
  CapitalExpenditures : float;
  FreeCashFlow : float;
  Form : string;
  AccessionNumber : string
}.

Definition setNetCashFromOperatingActivities (v : float) (m : t) : t :=
  Build (CompanyName m) (CIK m) (FilingDate m) (ReportDate m) v
        (CapitalExpenditures m) (FreeCashFlow m) (Form m) (AccessionNumber m).
Definition setCapitalExpenditures (v : float) (m : t) : t :=
  Build (CompanyName m) (CIK m) (FilingDate m) (ReportDate m)
        (NetCashFromOperatingActivities m) v (FreeCashFlow m) (Form m)
        (AccessionNumber m).
Definition setFreeCashFlow (v : float) (m : t) : t :=
  Build (CompanyName m) (CIK m) (FilingDate m) (ReportDate m)
        (NetCashFromOperatingActivities m) (CapitalExpenditures m) v (Form m)
        (AccessionNumber m).
End CashFlowMetrics.

Module EBITDAMetrics.
Record t : Type := Build {
  CompanyName : string;
  CIK : string;
  FilingDate : string;
  ReportDate : string;
  Form : string;
  AccessionNumber : string;
  Revenue : float;
  NetIncome : float;
  InterestExpense : float;
  IncomeTaxExpense : float;
  DepreciationAndAmortization : float;
  EBITDA : float;
  EBITDAMargin : float
}.

Definition setRevenue (v : float) (m : t) : t :=
  Build (CompanyName m) (CIK m) (FilingDate m) (ReportDate m) (Form m)
        (AccessionNumber m) v (NetIncome m) (InterestExpense m)
        (IncomeTaxExpense m) (DepreciationAndAmortization m) (EBITDA m)
        (EBITDAMargin m).
Definition setNetIncome (v : float) (m : t) : t :=
  Build (CompanyName m) (CIK m) (FilingDate m) (ReportDate m) (Form m)
        (AccessionNumber m) (Revenue m) v (InterestExpense m)
        (IncomeTaxExpense m) (DepreciationAndAmortization m) (EBITDA m)
        (EBITDAMargin m).
Definition setInterestExpense (v : float) (m : t) : t :=
  Build (CompanyName m) (CIK m) (FilingDate m) (ReportDate m) (Form m)
        (AccessionNumber m) (Revenue m) (NetIncome m) v
        (IncomeTaxExpense m) (DepreciationAndAmortization m) (EBITDA m)
        (EBITDAMargin m).
Definition setIncomeTaxExpense (v : float) (m : t) : t :=
  Build (CompanyName m) (CIK m) (FilingDate m) (ReportDate m) (Form m)
        (AccessionNumber m) (Revenue m) (NetIncome m) (InterestExpense m)
        v (DepreciationAndAmortization m) (EBITDA m) (EBITDAMargin m).
Definition setDepreciationAndAmortization (v : float) (m : t) : t :=
  Build (CompanyName m) (CIK m) (FilingDate m) (ReportDate m) (Form m)
        (AccessionNumber m) (Revenue m) (NetIncome m) (InterestExpense m)
        (IncomeTaxExpense m) v (EBITDA m) (EBITDAMargin m).
Definition setEBITDA (v : float) (m : t) : t :=
  Build (CompanyName m) (CIK m) (FilingDate m) (ReportDate m) (Form m)
        (AccessionNumber m) (Revenue m) (NetIncome m) (InterestExpense m)
        (IncomeTaxExpense m) (DepreciationAndAmortization m) v
        (EBITDAMargin m).
Definition setEBITDAMargin (v : float) (m : t) : t :=
  Build (CompanyName m) (CIK m) (FilingDate m) (ReportDate m) (Form m)
        (AccessionNumber m) (Revenue m) (NetIncome m) (InterestExpense m)
        (IncomeTaxExpense m) (DepreciationAndAmortization m) (EBITDA m) v.
End EBITDAMetrics.

Module QuarterlyCashFlowAnalysis.
Record t : Type := Build {
  CompanyName : string;
  CIK : string;
  Quarters : list CashFlowMetrics.t
}.
End QuarterlyCashFlowAnalysis.

Module QuarterlyEBITDAAnalysis.
Record t : Type := Build {
  CompanyName : string;
  CIK : string;
  Quarters : list EBITDAMetrics.t
}.
End QuarterlyEBITDAAnalysis.

(** ** Best-value selection: the loop state of [findValueForDate] *)

Record best : Type := Best {
  bestValue : float;
  bestDate : string;
  bestScore : Z
}.

(** The zero values of [bestValue], [bestDate] and [bestScore]. *)
Definition best0 : best := Best 0%float "" 0.

(** The match score of one data point, given the date of the best one kept
    so far. *)
Definition scoreOf (targetDate bestDate date form : string) : Z :=
  let score := 0 in
  let score := if String.eqb date targetDate then score + 100 else score in
  let score :=
    if String.eqb form "10-Q" then score + 50
    else if String.eqb form "10-K" then score + 10
    else score in
  let score :=
    if String.leb date targetDate && gtb date bestDate then score + 25
    else score in
  score.

(** "Only update if this is a better match": the guard of the update. *)
Definition beats (score : Z) (date : string) (b : best) : bool :=
  (bestScore b <? score) || ((score =? bestScore b) && gtb date (bestDate b)).

(** The pair (score, date) is at most the pair kept in [b], scores compared
    first and dates second. *)
Definition notAbove (score : Z) (date : string) (b : best) : Prop :=
  score < bestScore b \/ (score = bestScore b /\ gtb date (bestDate b) = false).

(** ** The Go run time the client relies on

    Library functions whose results the client only passes along are taken
    as parameters: the number parser and printers, the order in which
    [range] visits a map (unspecified in Go, and different from one run to
    the next), and [sort.Slice] (any sorting permutation: it is not
    stable). *)

Section Client.

Variable ParseFloat : string -> option float.
  (* strconv.ParseFloat(s, 64); [Some] when the returned error is nil *)
Variable FormatFloat : float -> string.
  (* strconv.FormatFloat(v, 'f', 0, 64) *)
Variable Sprintf_f0 : float -> string.
  (* fmt.Sprintf("%.0f", v) *)
Variable Sprintf_v : Value -> string.
  (* fmt.Sprintf("%v", v) *)
Variable rangeOrder : gmap string Value -> list (string * Value).
  (* the entries of a map in the order a [range] loop visits them during
     this run; another run may follow another order *)
Variable sort_Slice : (Filing.t -> Filing.t -> bool) -> list Filing.t -> list Filing.t.
  (* sort.Slice(x, less), as a function of the slice's contents *)
Variable GetCompanyFacts : string -> outcome CompanyFacts.t.
  (* the decoded answer of the company-facts endpoint for a CIK *)
Variable GetCompanySubmissions : string -> outcome (gmap string (list Value)).
  (* the decoded answer of the submissions endpoint: its Filings.Recent *)

(** *** findValueForDate *)

(** One iteration of the loop over [dataArray]. *)
Definition visit (targetDate : string) (b : best) (item : Value) : best :=
  match item with
  | VMap dataPoint =>
    match dataPoint !! "end" with
    | Some (VString date) =>
      match dataPoint !! "form" with
      | Some (VString form) =>
        let score := scoreOf targetDate (bestDate b) date form in
        if beats score date b then
          match dataPoint !! "val" with
          | Some (VFloat64 val) => Best val date score
          | Some (VString valStr) =>
            match ParseFloat valStr with
            | Some val => Best val date score
            | None => b
            end
          | _ => b
          end
        else b
      | _ => b
      end
    | _ => b
    end
  | _ => b
  end.

Definition findValueForDate (dataArray : list Value) (targetDate : string) : float :=
  bestValue (fold_left (visit targetDate) dataArray best0).

(** The loop state after the first [k] items. *)
Definition bestAfter (targetDate : string) (dataArray : list Value) (k : nat) : best :=
  fold_left (visit targetDate) (take k dataArray) best0.

(** What the type assertions of the loop read in an item: its end date,
    its form and its value, when all three are there.  An item is an
    observation of the series exactly when this is [Some]. *)
Definition observation (item : Value) : option (string * string * float) :=
  match item with
  | VMap dataPoint =>
    match dataPoint !! "end", dataPoint !! "form" with
    | Some (VString date), Some (VString form) =>
      match dataPoint !! "val" with
      | Some (VFloat64 val) => Some (date, form, val)
      | Some (VString valStr) =>
        match ParseFloat valStr with
        | Some val => Some (date, form, val)
        | None => None
        end
      | _ => None
      end
    | _, _ => None
    end
  | _ => None
  end.

(** The kept observation belongs to a class of observations, given by end
    date and form, and was kept with a score of at least [hi]. *)
Definition keepsClass (inClass : string -> string -> bool) (hi : Z) (series : list Value)
    (b : best) : Prop :=
  hi <= bestScore b
  /\ exists item form,
       item ∈ series
       /\ observation item = Some (bestDate b, form, bestValue b)
       /\ inClass (bestDate b) form = true.

(** Nothing is kept and no item seen was an observation, or the kept
    observation is a 10-Q among the items seen, with the latest end date
    of all observations seen. *)
Definition latestKept (seen : list Value) (b : best) : Prop :=
  (b = best0 /\ forall item, item ∈ seen -> observation item = None)
  \/ ((bestScore b = 75 \/ (bestScore b = 50 /\ bestDate b = ""))
      /\ (exists item,
             item ∈ seen /\ observation item = Some (bestDate b, "10-Q", bestValue b))
      /\ forall item date form val,
           item ∈ seen -> observation item = Some (date, form, val) ->
           String.leb date (bestDate b) = true).

(** *** extractMetric *)

(** The inner loop: the units of one concept, in the order [range] yields
    them.  [Some value] is the early return. *)
Fixpoint rangeUnits (units : list (string * Value)) (reportDate : string) : option float :=
  match units with
  | [] => None
  | (unitType, unitData) :: rest =>
    if Contains (ToLower unitType) "usd" then
      match unitData with
      | VSlice dataArray =>
        let value := findValueForDate dataArray reportDate in
        if negb (PrimFloat.eqb value 0) then Some value
        else rangeUnits rest reportDate
      | _ => rangeUnits rest reportDate
      end
    else rangeUnits rest reportDate
  end.

(** The body of the outer loop for one tag name. *)
Definition tryTag (usGaap : gmap string Value) (tagName reportDate : string) : option float :=
  match usGaap !! tagName with
  | Some (VMap concept) =>
    match concept !! "units" with
    | Some (VMap units) => rangeUnits (rangeOrder units) reportDate
    | _ => None
    end
  | _ => None
  end.

Fixpoint tryTags (usGaap : gmap string Value) (tagNames : list string) (reportDate : string)
  : option float :=
  match tagNames with
  | [] => None
  | tagName :: rest =>
    match tryTag usGaap tagName reportDate with
    | Some value => Some value
    | None => tryTags usGaap rest reportDate
    end
  end.

(** A tag yields a usable value: it names a concept with a "units" map
    in which some unit whose lowered name contains "usd" holds a series
    whose selected value is not zero. *)
Definition usableIn (usGaap : gmap string Value) (reportDate tagName : string)
    (value : float) : Prop :=
  exists (concept units : gmap string Value) (unitType : string) (dataArray : list Value),
    usGaap !! tagName = Some (VMap concept)
    /\ concept !! "units" = Some (VMap units)
    /\ units !! unitType = Some (VSlice dataArray)
    /\ Contains (ToLower unitType) "usd" = true
    /\ findValueForDate dataArray reportDate = value
    /\ PrimFloat.eqb value 0 = false.

Definition noUsable (usGaap : gmap string Value) (reportDate : string)
    (tagNames : list string) : Prop :=
  forall tagName value, tagName ∈ tagNames -> ~ usableIn usGaap reportDate tagName value.

(** The concept of a tag is reported under at most one unit whose lowered
    name contains "usd". *)
Definition oneUsdUnit (usGaap : gmap string Value) (tagName : string) : Prop :=
  forall (concept units : gmap string Value) (k1 k2 : string) (x1 x2 : Value),
    usGaap !! tagName = Some (VMap concept) ->
    concept !! "units" = Some (VMap units) ->
    units !! k1 = Some x1 -> units !! k2 = Some x2 ->
    Contains (ToLower k1) "usd" = true -> Contains (ToLower k2) "usd" = true ->
    k1 = k2.

(** [result] is the pointee of the [*float64] argument on entry; the first
    component returned is the pointee on exit. *)
Definition extractMetric (usGaap : gmap string Value) (tagNames : list string)
    (result : float) (reportDate : string) : float * option error :=
  match tryTags usGaap tagNames reportDate with
  | Some value => (value, None)
  | None => (result, Some (ErrMetricNotFound tagNames))
  end.

(** *** Cash flow *)

Definition warn (what : string) (err : option error) : list LogLine :=
  match err with
  | Some e => [Warning what (Some e)]
  | None => []
  end.

Definition operatingCashFlowTags : list string :=
  ["NetCashProvidedByUsedInOperatingActivities";
   "NetCashFromOperatingActivities";
   "CashProvidedByUsedInOperatingActivities"].

Definition capitalExpendituresTags : list string :=
  ["PaymentsToAcquirePropertyPlantAndEquipment";
   "CapitalExpenditures";
   "PaymentsForPropertyPlantAndEquipment";
   "PaymentsToAcquireProductiveAssets"].

Definition extractCashFlowData (facts : CompanyFacts.t) (metrics : CashFlowMetrics.t)
    (reportDate : string) : CashFlowMetrics.t * list LogLine * option error :=
  match CompanyFacts.Facts facts with
  | None => (metrics, [], Some ErrFactsNil)
  | Some factsMap =>
    match factsMap !! "us-gaap" with
    | Some (VMap usGaap) =>
      let '(v, err) :=
        extractMetric usGaap operatingCashFlowTags
          (CashFlowMetrics.NetCashFromOperatingActivities metrics) reportDate in
      let metrics := CashFlowMetrics.setNetCashFromOperatingActivities v metrics in
      let log := warn "Could not extract operating cash flow" err in
      let '(v, err) :=
        extractMetric usGaap capitalExpendituresTags
          (CashFlowMetrics.CapitalExpenditures metrics) reportDate in
      let metrics := CashFlowMetrics.setCapitalExpenditures v metrics in
      let log := (log ++ warn "Could not extract capital expenditures" err)%list in
      (metrics, log, None)
    | _ => (metrics, [], Some ErrUsGaapNotFound)
    end
  end.

(** The [json.Number] case of the switch is not reachable from a [Value]:
    the decoder is used without [UseNumber]. *)
Definition GetCIKString (cf : CompanyFacts.t) : string :=
  match CompanyFacts.CIK cf with
  | VString v => v
  | VFloat64 v => Sprintf_f0 v
  | VInt v => Itoa v
  | v => Sprintf_v v
  end.

Definition ParseCashFlowMetricsFromFacts (facts : CompanyFacts.t) (filing : Filing.t)
  : outcome CashFlowMetrics.t * list LogLine :=
  let metrics :=
    CashFlowMetrics.Build (CompanyFacts.Entity facts) (GetCIKString facts)
      (Filing.FilingDate filing) (Filing.ReportDate filing) 0%float 0%float 0%float
      (Filing.Form filing) (Filing.AccessionNumber filing) in
  match extractCashFlowData facts metrics (Filing.ReportDate filing) with
  | (_, log, Some err) => (Err (ErrWrap "error extracting cash flow data" err), log)
  | (metrics, log, None) =>
    let metrics :=
      CashFlowMetrics.setFreeCashFlow
        (CashFlowMetrics.NetCashFromOperatingActivities metrics
         - CashFlowMetrics.CapitalExpenditures metrics)%float metrics in
    (Ok metrics, log)
  end.

Definition ParseCashFlowMetrics (cik : string) (filing : Filing.t)
  : outcome CashFlowMetrics.t * list LogLine :=
  match GetCompanyFacts cik with
  | Ok facts =>
    let metrics :=
      CashFlowMetrics.Build (CompanyFacts.Entity facts) (GetCIKString facts)
        (Filing.FilingDate filing) (Filing.ReportDate filing) 0%float 0%float 0%float
        (Filing.Form filing) (Filing.AccessionNumber filing) in
    match extractCashFlowData facts metrics (Filing.ReportDate filing) with
    | (_, log, Some err) => (Err (ErrWrap "error extracting cash flow data" err), log)
    | (metrics, log, None) =>
      let metrics :=
        CashFlowMetrics.setFreeCashFlow
          (CashFlowMetrics.NetCashFromOperatingActivities metrics
           - CashFlowMetrics.CapitalExpenditures metrics)%float metrics in
      (Ok metrics, log)
    end
  | Err err => (Err (ErrWrap "error getting company facts" err), [])
  | Panic => (Panic, [])
  end.

(** *** EBITDA *)

Definition revenueTags : list string :=
  ["Revenues";
   "RevenueFromContractWithCustomerExcludingAssessedTax";
   "SalesRevenueNet";
   "RevenueFromContractWithCustomerIncludingAssessedTax";
   "Revenue";
   "SalesRevenueGoodsNet";
   "RevenuesNetOfInterestExpense"].

Definition netIncomeTags : list string :=
  ["NetIncomeLoss";
   "ProfitLoss";
   "NetIncomeLossAvailableToCommonStockholdersBasic";
   "IncomeLossFromContinuingOperations"].

Definition interestExpenseTags : list string :=
  ["InterestExpense";
   "InterestExpenseDebt";
   "InterestAndDebtExpense";
   "InterestExpenseNet"].

Definition incomeTaxExpenseTags : list string :=
  ["IncomeTaxExpenseBenefit";
   "ProvisionForIncomeTaxes";
   "IncomeTaxesPaid";
   "CurrentIncomeTaxExpenseBenefit"].

Definition depreciationAndAmortizationTags : list string :=
  ["DepreciationDepletionAndAmortization";
   "Depreciation";
   "DepreciationAndAmortization";
   "AmortizationOfIntangibleAssets";
   "DepreciationAmortizationAndAccretionNet"].

Definition depreciationTags : list string :=
  ["Depreciation"; "DepreciationNonproduction"].

Definition amortizationTags : list string :=
  ["AmortizationOfIntangibleAssets"; "Amortization"].

Definition extractEBITDAData (facts : CompanyFacts.t) (metrics : EBITDAMetrics.t)
    (reportDate : string) : EBITDAMetrics.t * list LogLine * option error :=
  match CompanyFacts.Facts facts with
  | None => (metrics, [], Some ErrFactsNil)
  | Some factsMap =>
    match factsMap !! "us-gaap" with
    | Some (VMap usGaap) =>
      let '(v, err) :=
        extractMetric usGaap revenueTags (EBITDAMetrics.Revenue metrics) reportDate in
      let metrics := EBITDAMetrics.setRevenue v metrics in
      let log := warn "Could not extract revenue" err in
      let '(v, err) :=
        extractMetric usGaap netIncomeTags (EBITDAMetrics.NetIncome metrics) reportDate in
      let metrics := EBITDAMetrics.setNetIncome v metrics in
      let log := (log ++ warn "Could not extract net income" err)%list in
      let '(v, err) :=
        extractMetric usGaap interestExpenseTags
          (EBITDAMetrics.InterestExpense metrics) reportDate in
      let metrics := EBITDAMetrics.setInterestExpense v metrics in
      let log := (log ++ warn "Could not extract interest expense" err)%list in
      let '(v, err) :=
        extractMetric usGaap incomeTaxExpenseTags
          (EBITDAMetrics.IncomeTaxExpense metrics) reportDate in
      let metrics := EBITDAMetrics.setIncomeTaxExpense v metrics in
      let log := (log ++ warn "Could not extract income tax expense" err)%list in
      let '(v, err) :=
        extractMetric usGaap depreciationAndAmortizationTags
          (EBITDAMetrics.DepreciationAndAmortization metrics) reportDate in
      let metrics := EBITDAMetrics.setDepreciationAndAmortization v metrics in
      match err with
      | Some _ =>
        let log := (log ++ warn "Could not extract depreciation and amortization" err)%list in
        let '(depreciation, err1) :=
          extractMetric usGaap depreciationTags 0%float reportDate in
        let metrics :=
          match err1 with
          | None =>
            EBITDAMetrics.setDepreciationAndAmortization
              (EBITDAMetrics.DepreciationAndAmortization metrics + depreciation)%float
              metrics
          | Some _ => metrics
          end in
        let '(amortization, err2) :=
          extractMetric usGaap amortizationTags 0%float reportDate in
        let metrics :=
          match err2 with
          | None =>
            EBITDAMetrics.setDepreciationAndAmortization
              (EBITDAMetrics.DepreciationAndAmortization metrics + amortization)%float
              metrics
          | Some _ => metrics
          end in
        (metrics, log, None)
      | None => (metrics, log, None)
      end
    | _ => (metrics, [], Some ErrUsGaapNotFound)
    end
  end.

Definition ParseEBITDAMetricsFromFacts (facts : CompanyFacts.t) (filing : Filing.t)
  : outcome EBITDAMetrics.t * list LogLine :=
  let metrics :=
    EBITDAMetrics.Build (CompanyFacts.Entity facts) (GetCIKString facts)
      (Filing.FilingDate filing) (Filing.ReportDate filing) (Filing.Form filing)
      (Filing.AccessionNumber filing) 0%float 0%float 0%float 0%float 0%float 0%float
      0%float in
  match extractEBITDAData facts metrics (Filing.ReportDate filing) with
  | (_, log, Some err) => (Err (ErrWrap "error extracting EBITDA data" err), log)
  | (metrics, log, None) =>
    let metrics :=
      EBITDAMetrics.setEBITDA
        (EBITDAMetrics.NetIncome metrics + EBITDAMetrics.InterestExpense metrics
         + EBITDAMetrics.IncomeTaxExpense metrics
         + EBITDAMetrics.DepreciationAndAmortization metrics)%float metrics in
    if negb (PrimFloat.eqb (EBITDAMetrics.Revenue metrics) 0) then
      (Ok (EBITDAMetrics.setEBITDAMargin
             ((EBITDAMetrics.EBITDA metrics / EBITDAMetrics.Revenue metrics) * 100)%float
             metrics), log)
    else
      (Ok (EBITDAMetrics.setEBITDAMargin 0%float metrics),
       (log ++ [Warning "Revenue is zero, cannot calculate EBITDA margin" None])%list)
  end.

Definition ParseEBITDAMetrics (cik : string) (filing : Filing.t)
  : outcome EBITDAMetrics.t * list LogLine :=
  match GetCompanyFacts cik with
  | Ok facts => ParseEBITDAMetricsFromFacts facts filing
  | Err err => (Err (ErrWrap "error getting company facts" err), [])
  | Panic => (Panic, [])
  end.

(** *** The parses as they are called

    [facts *CompanyFacts] and [filing *Filing] are pointers, and [None] is
    nil.  The struct literal that opens either function reads
    [facts.Entity] and [facts.GetCIKString()], then [filing.FilingDate],
    before any test is made: a nil pointer is a run-time panic, raised
    before anything is logged.  Otherwise the function runs on the records
    the pointers refer to. *)
Definition callParseCashFlowMetricsFromFacts (facts : option CompanyFacts.t)
    (filing : option Filing.t) : outcome CashFlowMetrics.t * list LogLine :=
  match facts with
  | None => (Panic, [])
  | Some facts =>
    match filing with
    | None => (Panic, [])
    | Some filing => ParseCashFlowMetricsFromFacts facts filing
    end
  end.

Definition callParseEBITDAMetricsFromFacts (facts : option CompanyFacts.t)
    (filing : option Filing.t) : outcome EBITDAMetrics.t * list LogLine :=
  match facts with
  | None => (Panic, [])
  | Some facts =>
    match filing with
    | None => (Panic, [])
    | Some filing => ParseEBITDAMetricsFromFacts facts filing
    end
  end.

(** *** Filings *)

Definition toString (v : Value) : string :=
  match v with
  | VNil => ""
  | VString val => val
  | VInt val => Itoa val
  | VFloat64 val => FormatFloat val
  | VBool val => if val then "1" else "0"
  | val => Sprintf_v val
  end.

(** [recent[key]]: a missing key yields the nil slice. *)
Definition column (recent : gmap string (list Value)) (key : string) : list Value :=
  default [] (recent !! key).

(** [a[i]]: an index out of range panics. *)
Definition index (a : list Value) (i : nat) : outcome Value :=
  match a !! i with
  | Some v => Ok v
  | None => Panic
  end.

(** The struct literal built in the body of the loop of [parseFilings]. *)
Definition filingAt (recent : gmap string (list Value)) (i : nat) : outcome Filing.t :=
  accessionNumber ← index (column recent "accessionNumber") i;
  filingDate ← index (column recent "filingDate") i;
  reportDate ← index (column recent "reportDate") i;
  form ← index (column recent "form") i;
  fileNumber ← index (column recent "fileNumber") i;
  filmNumber ← index (column recent "filmNumber") i;
  items ← index (column recent "items") i;
  size ← index (column recent "size") i;
  isXBRL ← index (column recent "isXBRL") i;
  isInlineXBRL ← index (column recent "isInlineXBRL") i;
  primaryDocument ← index (column recent "primaryDocument") i;
  primaryDocDescription ← index (column recent "primaryDocDescription") i;
  mret (Filing.Build (toString accessionNumber) (toString filingDate)
          (toString reportDate) (toString form) (toString fileNumber)
          (toString filmNumber) (toString items) (toString size) (toString isXBRL)
          (toString isInlineXBRL) (toString primaryDocument)
          (toString primaryDocDescription)).

(** [for i := ...; i < count; i++], with [steps] iterations left. *)
Fixpoint parseFilingsLoop (recent : gmap string (list Value)) (i steps : nat)
    (filings : list Filing.t) : outcome (list Filing.t) :=
  match steps with
  | O => Ok filings
  | S steps' =>
    filing ← filingAt recent i;
    parseFilingsLoop recent (S i) steps' (filings ++ [filing])%list
  end.

Definition parseFilings (recent : gmap string (list Value)) : outcome (list Filing.t) :=
  if (length (column recent "accessionNumber") =? 0)%nat then Ok []
  else
    let count := length (column recent "accessionNumber") in
    parseFilingsLoop recent 0 count [].

Definition isTenQ (filing : Filing.t) : bool := String.eqb (Filing.Form filing) "10-Q".

(** The [less] function given to [sort.Slice]: most recent filing first. *)
Definition byFilingDateDesc (a b : Filing.t) : bool :=
  gtb (Filing.FilingDate a) (Filing.FilingDate b).

Definition GetMostRecent10Q (cik : string) : outcome Filing.t :=
  match GetCompanySubmissions cik with
  | Ok recent =>
    filings ← parseFilings recent;
    let tenQFilings := List.filter isTenQ filings in
    if (length tenQFilings =? 0)%nat then Err (ErrNoTenQ cik)
    else
      let tenQFilings := sort_Slice byFilingDateDesc tenQFilings in
      match tenQFilings !! 0%nat with
      | Some filing => Ok filing
      | None => Panic
      end
  | Err err => Err (ErrWrap "error getting company submissions" err)
  | Panic => Panic
  end.

Definition GetMostRecent4TenQs (cik : string) : outcome (list Filing.t) :=
  match GetCompanySubmissions cik with
  | Ok recent =>
    filings ← parseFilings recent;
    let tenQFilings := List.filter isTenQ filings in
    if (length tenQFilings =? 0)%nat then Err (ErrNoTenQ cik)
    else
      let tenQFilings := sort_Slice byFilingDateDesc tenQFilings in
      let count := length tenQFilings in
      let count := if (4 <? count)%nat then 4%nat else count in
      Ok (take count tenQFilings)
  | Err err => Err (ErrWrap "error getting company submissions" err)
  | Panic => Panic
  end.

(** *** Quarterly analyses

    The loop over the selected filings, with the quarters appended and the
    lines logged so far.  A parse that fails is logged and skipped.
    [ErrNoQuarters] stands for the error "no ... metrics could be extracted
    from any 10-Q filings" of either analysis. *)
Fixpoint cashFlowQuarters (facts : CompanyFacts.t) (filings : list Filing.t)
    (quarters : list CashFlowMetrics.t) (log : list LogLine)
  : outcome (list CashFlowMetrics.t) * list LogLine :=
  match filings with
  | [] => (Ok quarters, log)
  | filing :: rest =>
    match ParseCashFlowMetricsFromFacts facts filing with
    | (Ok metrics, parseLog) =>
      cashFlowQuarters facts rest (quarters ++ [metrics])%list (log ++ parseLog)%list
    | (Err err, parseLog) =>
      cashFlowQuarters facts rest quarters
        (log ++ parseLog
         ++ [Warning ("Could not parse cash flow metrics for filing "
                      ++ Filing.AccessionNumber filing) (Some err)])%list
    | (Panic, parseLog) => (Panic, (log ++ parseLog)%list)
    end
  end.

Definition GetQuarterlyCashFlowAnalysis (cik : string)
  : outcome QuarterlyCashFlowAnalysis.t * list LogLine :=
  match GetMostRecent4TenQs cik with
  | Ok filings =>
    match GetCompanyFacts cik with
    | Ok facts =>
      match cashFlowQuarters facts filings [] [] with
      | (Ok quarters, log) =>
        if (length quarters =? 0)%nat then (Err ErrNoQuarters, log)
        else
          (Ok (QuarterlyCashFlowAnalysis.Build (CompanyFacts.Entity facts)
                 (GetCIKString facts) quarters), log)
      | (Err err, log) => (Err err, log)
      | (Panic, log) => (Panic, log)
      end
    | Err err => (Err (ErrWrap "error getting company facts" err), [])
    | Panic => (Panic, [])
    end
  | Err err => (Err (ErrWrap "error getting recent 10-Q filings" err), [])
  | Panic => (Panic, [])
  end.

Fixpoint ebitdaQuarters (facts : CompanyFacts.t) (filings : list Filing.t)
    (quarters : list EBITDAMetrics.t) (log : list LogLine)
  : outcome (list EBITDAMetrics.t) * list LogLine :=
  match filings with
  | [] => (Ok quarters, log)
  | filing :: rest =>
    match ParseEBITDAMetricsFromFacts facts filing with
    | (Ok metrics, parseLog) =>
      ebitdaQuarters facts rest (quarters ++ [metrics])%list (log ++ parseLog)%list
    | (Err err, parseLog) =>
      ebitdaQuarters facts rest quarters
        (log ++ parseLog
         ++ [Warning ("Could not parse EBITDA metrics for filing "
                      ++ Filing.AccessionNumber filing) (Some err)])%list
    | (Panic, parseLog) => (Panic, (log ++ parseLog)%list)
    end
  end.

Definition GetQuarterlyEBITDAAnalysis (cik : string)
  : outcome QuarterlyEBITDAAnalysis.t * list LogLine :=
  match GetMostRecent4TenQs cik with
  | Ok filings =>
    match GetCompanyFacts cik with
    | Ok facts =>
      match ebitdaQuarters facts filings [] [] with
      | (Ok quarters, log) =>
        if (length quarters =? 0)%nat then (Err ErrNoQuarters, log)
        else
          (Ok (QuarterlyEBITDAAnalysis.Build (CompanyFacts.Entity facts)
                 (GetCIKString facts) quarters), log)
      | (Err err, log) => (Err err, log)
      | (Panic, log) => (Panic, log)
      end
    | Err err => (Err (ErrWrap "error getting company facts" err), [])
    | Panic => (Panic, [])
    end
  | Err err => (Err (ErrWrap "error getting recent 10-Q filings" err), [])
  | Panic => (Panic, [])
  end.

End Client.

(** ** The scoring rule in the words of the specification

    [bonus c n] is "+n if c". *)
Definition bonus (c : bool) (n : Z) : Z := if c then n else 0.

(** "+100 if its end date equals the target date, +50 if its form is 10-Q,
    +10 if its form is 10-K, +25 if its end date is <= the target date and
    is the latest such date seen so far", [seen] being the observations
    met before this one. *)
Definition statedScore (targetDate : string) (seen : list (string * string * float))
    (date form : string) : Z :=
  bonus (String.eqb date targetDate) 100
  + bonus (String.eqb form "10-Q") 50
  + bonus (String.eqb form "10-K") 10
  + bonus (String.leb date targetDate
           && forallb (fun o => negb (String.leb o.1.1 targetDate) || String.leb o.1.1 date)
                seen) 25.

(** "it keeps the observation with the highest score, breaking ties by
    preferring the later end date". *)
Fixpoint statedSelect (targetDate : string) (seen todo : list (string * string * float))
    (b : best) : best :=
  match todo with
  | [] => b
  | (date, form, val) :: rest =>
    let score := statedScore targetDate seen date form in
    let b' :=
      if (bestScore b <? score) || ((score =? bestScore b) && gtb date (bestDate b))
      then Best val date score else b in
    statedSelect targetDate (seen ++ [(date, form, val)])%list rest b'
  end.

Definition statedFindValue (observations : list (string * string * float))
    (targetDate : string) : float :=
  bestValue (statedSelect targetDate [] observations best0).

(** ** What [sort.Slice] promises

    [inOrder less a b]: [a] may stand before [b] in a slice sorted by
    [less].  The promise is made for a [less] that is a strict weak
    order. *)
Definition inOrder {A : Type} (less : A -> A -> bool) (a b : A) : Prop :=
  less b a = false.

Definition strictWeakOrder {A : Type} (less : A -> A -> bool) : Prop :=
  (forall a, less a a = false)
  /\ (forall a b c, less a b = true -> less b c = true -> less a c = true)
  /\ (forall a b c, less a b = false -> less b c = false -> less a c = false).

(** The arrays of the recent-filings map that [parseFilings] indexes in
    parallel with "accessionNumber". *)
Definition parallelColumns : list string :=
  ["filingDate"; "reportDate"; "form"; "fileNumber"; "filmNumber"; "items"; "size";
   "isXBRL"; "isInlineXBRL"; "primaryDocument"; "primaryDocDescription"].

(** The facts hold the us-gaap taxonomy as an object. *)
Definition hasUsGaap (facts : CompanyFacts.t) : Prop :=
  exists factsMap usGaap : gmap string Value,
    CompanyFacts.Facts facts = Some factsMap
    /\ factsMap !! "us-gaap" = Some (VMap usGaap).

(** The warning logged when no tag of [tagNames] yields a value. *)
Definition missed (what : string) (tagNames : list string) : LogLine :=
  Warning what (Some (ErrMetricNotFound tagNames)).

#[global] Instance inOrder_dec {A : Type} (less : A -> A -> bool) (a b : A) :
  Decision (inOrder less a b).
Proof. unfold inOrder. apply _. Defined.

(** ** Concrete inputs used by the examples below *)

(** A run time in which no string parses as a number, printers print
    nothing, [range] follows the order of [map_to_list] and [sort.Slice] is
    a merge sort. *)
Definition noParse : string -> option float := fun _ => None.
Definition noFormat : float -> string := fun _ => "".
Definition noSprintf : Value -> string := fun _ => "".
Definition mergeSortSlice (less : Filing.t -> Filing.t -> bool) (x : list Filing.t)
  : list Filing.t :=
  merge_sort (inOrder less) x.

(** [{"end": date, "form": form, "val": val}] *)
Definition dataPoint (date form : string) (val : Value) : Value :=
  VMap (<["end" := VString date]> (<["form" := VString form]> (<["val" := val]> ∅))).

(** [{"units": {unitType: unitData, ...}}] *)
Definition conceptOf (units : list (string * Value)) : Value :=
  VMap {[ "units" := VMap (list_to_map units) ]}.

Definition factsOf (usGaap : gmap string Value) : CompanyFacts.t :=
  CompanyFacts.Build (VInt 320193) "Apple Inc." (Some {[ "us-gaap" := VMap usGaap ]}).

(** The series of the repository's test of [findValueForDate]. *)
Definition repositoryTestSeries : list Value :=
  [dataPoint "2023-12-30" "10-Q" (VFloat64 100);
   dataPoint "2023-09-30" "10-Q" (VFloat64 90);
   dataPoint "2023-12-30" "10-K" (VFloat64 110)].

(** A quarter ending after the target date, then one ending before it. *)
Definition laterQuarterFirst : list Value :=
  [dataPoint "2023-12-30" "10-Q" (VFloat64 100);
   dataPoint "2023-03-31" "10-Q" (VFloat64 90)].

(** The same two quarters, the earlier one first. *)
Definition earlierQuarterFirst : list Value :=
  [dataPoint "2023-03-31" "10-Q" (VFloat64 90);
   dataPoint "2023-12-30" "10-Q" (VFloat64 100)].

(** One observation dated after the target date, from a form that earns
    no bonus; and one exact-date 10-Q observation whose value is zero. *)
Definition afterTargetSeries : list Value :=
  [dataPoint "2024-01-01" "8-K" (VFloat64 5)].

Definition zeroValueSeries : list Value :=
  [dataPoint "2023-12-30" "10-Q" (VFloat64 0)].

(** A us-gaap taxonomy with one tag holding one USD series. *)
Definition usGaapWith (tagName : string) (series : list Value) : gmap string Value :=
  {[ tagName := conceptOf [("USD", VSlice series)] ]}.

(** The first revenue tag has a USD series that selects zero; a later one
    has a value. *)
Definition zeroThenValue : gmap string Value :=
  {[ "Revenues" := conceptOf [("USD", VSlice zeroValueSeries)];
     "SalesRevenueNet" :=
       conceptOf [("USD", VSlice [dataPoint "2023-12-30" "10-Q" (VFloat64 7)])] ]}.

(** A concept reported under two units whose names contain "usd". *)
Definition twoUsdUnits : gmap string Value :=
  {[ "NetIncomeLoss" :=
       conceptOf [("USD", VSlice [dataPoint "2023-12-30" "10-Q" (VFloat64 1)]);
                  ("USD/shares", VSlice [dataPoint "2023-12-30" "10-Q" (VFloat64 2)])] ]}.

(** Another order in which [range] may visit a map. *)
Definition reverseOrder (m : gmap string Value) : list (string * Value) :=
  reverse (map_to_list m).

(** Facts that hold operating cash flow only. *)
Definition operatingOnlyFacts : CompanyFacts.t :=
  factsOf (usGaapWith "NetCashProvidedByUsedInOperatingActivities"
             [dataPoint "2023-12-30" "10-Q" (VFloat64 500)]).

Definition ebitdaUsGaap : gmap string Value :=
  {[ "Revenues" :=
       conceptOf [("USD", VSlice [dataPoint "2023-12-30" "10-Q" (VFloat64 200)])];
     "NetIncomeLoss" :=
       conceptOf [("USD", VSlice [dataPoint "2023-12-30" "10-Q" (VFloat64 25)])];
     "InterestExpense" :=
       conceptOf [("USD", VSlice [dataPoint "2023-12-30" "10-Q" (VFloat64 1)])];
     "IncomeTaxExpenseBenefit" :=
       conceptOf [("USD", VSlice [dataPoint "2023-12-30" "10-Q" (VFloat64 3)])];
     "DepreciationDepletionAndAmortization" :=
       conceptOf [("USD", VSlice [dataPoint "2023-12-30" "10-Q" (VFloat64 2)])] ]}.

(** A recent-filings map with two quarterly reports and a current report. *)
Definition recentExample : gmap string (list Value) :=
  list_to_map
    [("accessionNumber",
      [VString "0000320193-23-000106"; VString "0000320193-24-000007";
       VString "0000320193-24-000010"]);
     ("filingDate", [VString "2023-11-02"; VString "2024-02-01"; VString "2024-02-28"]);
     ("reportDate", [VString "2023-09-30"; VString "2023-12-30"; VString "2024-02-28"]);
     ("form", [VString "10-Q"; VString "10-Q"; VString "8-K"]);
     ("fileNumber", [VString "001-36743"; VString "001-36743"; VString "001-36743"]);
     ("filmNumber", [VString "24576125"; VString "24576126"; VString "24576127"]);
     ("items", [VString ""; VString ""; VString "5.07"]);
     ("size", [VInt 100000; VInt 100000; VInt 2000]);
     ("isXBRL", [VInt 1; VInt 1; VInt 0]);
     ("isInlineXBRL", [VInt 1; VInt 1; VInt 0]);
     ("primaryDocument",
      [VString "aapl-20230930.htm"; VString "aapl-20231230.htm"; VString "aapl-8k.htm"]);
     ("primaryDocDescription", [VString "10-Q"; VString "10-Q"; VString "8-K"])].

(** An annual observation at the target date and a quarterly one before
    it. *)
Definition exactAnnualSeries : list Value :=
  [dataPoint "2023-09-30" "10-Q" (VFloat64 90);
   dataPoint "2023-12-30" "10-K" (VFloat64 110)].

(** No observation at the target date 2023-12-30. *)
Definition noExactSeries : list Value :=
  [dataPoint "2023-09-30" "10-K" (VFloat64 80);
   dataPoint "2023-06-30" "10-Q" (VFloat64 70)].

(** Three quarters before the target date 2023-12-30, not in order. *)
Definition earlierQuartersSeries : list Value :=
  [dataPoint "2023-03-31" "10-Q" (VFloat64 1);
   dataPoint "2023-09-30" "10-Q" (VFloat64 3);
   dataPoint "2023-06-30" "10-Q" (VFloat64 2)].

(** Depreciation and amortization reported under the two tags that only
    the fallback lists name. *)
Definition fallbackUsGaap : gmap string Value :=
  {[ "DepreciationNonproduction" :=
       conceptOf [("USD", VSlice [dataPoint "2023-12-30" "10-Q" (VFloat64 2)])];
     "Amortization" :=
       conceptOf [("USD", VSlice [dataPoint "2023-12-30" "10-Q" (VFloat64 3)])] ]}.

Definition filingQ1 : Filing.t :=
  Filing.Build "0000320193-24-000007" "2024-02-01" "2023-12-30" "10-Q" "001-36743"
    "24576126" "" "100000" "1" "1" "aapl-20231230.htm" "10-Q".

Definition cashFlowFacts : CompanyFacts.t :=
  factsOf {[ "NetCashProvidedByUsedInOperatingActivities" :=
               conceptOf [("USD", VSlice [dataPoint "2023-12-30" "10-Q" (VFloat64 500)])];
             "CapitalExpenditures" :=
               conceptOf [("USD", VSlice [dataPoint "2023-12-30" "10-Q" (VFloat64 120)])] ]}.

(** * Properties *)

#[local] Set Default Proof Using "Type*".

(** ** The order on strings *)

Lemma ascii_compare_refl (c : ascii) : Ascii.compare c c = Eq.
Proof. unfold Ascii.compare. apply N.compare_refl. Qed.

Lemma ascii_compare_lt_trans (a b c : ascii) :
  Ascii.compare a b = Lt -> Ascii.compare b c = Lt -> Ascii.compare a c = Lt.
Proof.
  unfold Ascii.compare. rewrite !N.compare_lt_iff. apply N.lt_trans.
Qed.

Lemma string_compare_refl (s : string) : String.compare s s = Eq.
Proof.
  induction s as [|c s IH]; simpl; [reflexivity|].
  rewrite ascii_compare_refl. exact IH.
Qed.

Lemma string_compare_eq (s1 s2 : string) : String.compare s1 s2 = Eq <-> s1 = s2.
Proof.
  split; [apply String.compare_eq_iff|].
  intros ->. apply string_compare_refl.
Qed.

Lemma string_compare_lt_trans (s1 s2 s3 : string) :
  String.compare s1 s2 = Lt -> String.compare s2 s3 = Lt -> String.compare s1 s3 = Lt.
Proof.
  revert s2 s3.
  induction s1 as [|a s1 IH]; intros [|b s2] [|c s3]; simpl; try congruence.
  destruct (Ascii.compare a b) eqn:Hab; try discriminate;
    destruct (Ascii.compare b c) eqn:Hbc; try discriminate; intros H12 H23.
  - apply Ascii.compare_eq_iff in Hab, Hbc. subst.
    rewrite ascii_compare_refl. eauto.
  - apply Ascii.compare_eq_iff in Hab. subst. rewrite Hbc. reflexivity.
  - apply Ascii.compare_eq_iff in Hbc. subst. rewrite Hab. reflexivity.
  - rewrite (ascii_compare_lt_trans a b c Hab Hbc). reflexivity.
Qed.

Lemma gtb_irrefl (s : string) : gtb s s = false.
Proof. unfold gtb, String.ltb. rewrite string_compare_refl. reflexivity. Qed.

Lemma gtb_trans (s1 s2 s3 : string) :
  gtb s1 s2 = true -> gtb s2 s3 = true -> gtb s1 s3 = true.
Proof.
  unfold gtb, String.ltb. intros H12 H23.
  destruct (String.compare s2 s1) eqn:H1; try discriminate.
  destruct (String.compare s3 s2) eqn:H2; try discriminate.
  rewrite (string_compare_lt_trans s3 s2 s1 H2 H1). reflexivity.
Qed.

Lemma leb_gtb (s1 s2 : string) : String.leb s1 s2 = negb (gtb s1 s2).
Proof.
  unfold gtb, String.leb, String.ltb. rewrite (String.compare_antisym s2 s1).
  destruct (String.compare s1 s2); reflexivity.
Qed.

Lemma gtb_false_cases (s1 s2 : string) : gtb s1 s2 = false -> s1 = s2 \/ gtb s2 s1 = true.
Proof.
  unfold gtb, String.ltb. rewrite (String.compare_antisym s2 s1).
  destruct (String.compare s1 s2) eqn:H; simpl; intros; try discriminate.
  - left. apply String.compare_eq_iff, H.
  - right. reflexivity.
Qed.

Lemma gtb_asym (s1 s2 : string) : gtb s1 s2 = true -> gtb s2 s1 = false.
Proof.
  intros H. destruct (gtb s2 s1) eqn:H'; [|reflexivity].
  pose proof (gtb_trans _ _ _ H H') as Hc. rewrite gtb_irrefl in Hc. discriminate.
Qed.

Lemma gtb_false_trans (s1 s2 s3 : string) :
  gtb s1 s2 = false -> gtb s2 s3 = false -> gtb s1 s3 = false.
Proof.
  intros H12 H23.
  destruct (gtb_false_cases _ _ H12) as [->|H21]; [exact H23|].
  destruct (gtb_false_cases _ _ H23) as [->|H32]; [exact H12|].
  apply gtb_asym. eapply gtb_trans; eassumption.
Qed.

Lemma scoreOf_sum (targetDate bd date form : string) :
  scoreOf targetDate bd date form =
    bonus (String.eqb date targetDate) 100
    + bonus (String.eqb form "10-Q") 50
    + bonus (String.eqb form "10-K") 10
    + bonus (String.leb date targetDate && gtb date bd) 25.
Proof.
  unfold scoreOf, bonus; cbv zeta.
  destruct (String.eqb date targetDate);
    destruct (String.eqb form "10-Q") eqn:HQ;
    destruct (String.eqb form "10-K") eqn:HK;
    destruct (String.leb date targetDate && gtb date bd); try reflexivity.
  all: apply String.eqb_eq in HQ, HK; subst; discriminate.
Qed.

Lemma scoreOf_range (targetDate bd date form : string) :
  0 <= scoreOf targetDate bd date form <= 175.
Proof.
  unfold scoreOf; cbv zeta.
  destruct (String.eqb date targetDate); destruct (String.eqb form "10-Q");
    destruct (String.eqb form "10-K");
    destruct (String.leb date targetDate && gtb date bd); lia.
Qed.

(** The score of an exact-date 10-Q observation, and of any other one. *)
Lemma scoreOf_exact_quarterly (targetDate bd : string) :
  150 <= scoreOf targetDate bd targetDate "10-Q".
Proof.
  rewrite scoreOf_sum, String.eqb_refl.
  change (String.eqb "10-Q" "10-Q") with true.
  change (String.eqb "10-Q" "10-K") with false.
  unfold bonus.
  destruct (String.leb targetDate targetDate && gtb targetDate bd); lia.
Qed.

Lemma scoreOf_other (targetDate bd date form : string) :
  ~ (date = targetDate /\ form = "10-Q") ->
  scoreOf targetDate bd date form <= 135.
Proof.
  intros H. unfold scoreOf; cbv zeta.
  destruct (String.eqb date targetDate) eqn:Hd;
    destruct (String.eqb form "10-Q") eqn:Hf;
    destruct (String.eqb form "10-K");
    destruct (String.leb date targetDate && gtb date bd); try lia.
  all: apply String.eqb_eq in Hd, Hf; tauto.
Qed.

(** ** Best-value selection *)

Lemma beats_true (s : Z) (d : string) (b : best) :
  beats s d b = true <->
  bestScore b < s \/ (s = bestScore b /\ gtb d (bestDate b) = true).
Proof.
  unfold beats. rewrite orb_true_iff, andb_true_iff, Z.ltb_lt, Z.eqb_eq. tauto.
Qed.

Lemma beats_false (s : Z) (d : string) (b : best) :
  beats s d b = false <-> notAbove s d b.
Proof.
  unfold beats, notAbove.
  rewrite orb_false_iff, andb_false_iff, Z.ltb_ge, Z.eqb_neq.
  split.
  - intros [Hle [Hne | Hgt]]; [left; lia|].
    destruct (Z.eq_dec s (bestScore b)); [right; auto | left; lia].
  - intros [Hlt | [Heq Hgt]].
    + split; [lia | left; lia].
    + split; [lia | right; exact Hgt].
Qed.

Lemma notAbove_refl (b : best) : notAbove (bestScore b) (bestDate b) b.
Proof. right. split; [reflexivity | apply gtb_irrefl]. Qed.

Lemma notAbove_trans (s : Z) (d : string) (b b' : best) :
  notAbove s d b -> notAbove (bestScore b) (bestDate b) b' -> notAbove s d b'.
Proof.
  unfold notAbove. intros [H1 | [-> H1]] [H2 | [H2 H2']]; try (left; lia).
  right. split; [exact H2|]. eapply gtb_false_trans; eassumption.
Qed.

(** ** [findValueForDate] *)

Section Selection.

Variable ParseFloat : string -> option float.

(** One iteration, in terms of the observation read in the item. *)
Lemma visit_observation (targetDate : string) (b : best) (item : Value) :
  visit ParseFloat targetDate b item =
    match observation ParseFloat item with
    | Some (date, form, val) =>
      let score := scoreOf targetDate (bestDate b) date form in
      if beats score date b then Best val date score else b
    | None => b
    end.
Proof.
  unfold visit, observation.
  destruct item as [| | | | | |dataPoint]; try reflexivity.
  destruct (dataPoint !! "end") as [[]|]; try reflexivity.
  destruct (dataPoint !! "form") as [[]|]; try reflexivity.
  destruct (dataPoint !! "val") as [[]|]; cbv zeta;
    try destruct (ParseFloat _);
    destruct (beats _ _ b); reflexivity.
Qed.

Lemma visit_grows (targetDate : string) (b : best) (item : Value) :
  notAbove (bestScore b) (bestDate b) (visit ParseFloat targetDate b item).
Proof.
  rewrite visit_observation.
  destruct (observation ParseFloat item) as [[[d f] v]|]; [|apply notAbove_refl].
  cbv zeta. destruct (beats _ d b) eqn:Hb; [|apply notAbove_refl].
  apply beats_true in Hb. destruct Hb as [Hlt | [Heq Hgt]].
  - left. exact Hlt.
  - right. split; [symmetry; exact Heq | apply gtb_asym, Hgt].
Qed.

Lemma run_grows (targetDate : string) (l : list Value) (b : best) :
  notAbove (bestScore b) (bestDate b) (fold_left (visit ParseFloat targetDate) l b).
Proof.
  revert b. induction l as [|item l IH]; intros b; simpl.
  - apply notAbove_refl.
  - eapply notAbove_trans; [apply visit_grows | apply IH].
Qed.

Lemma visit_covers (targetDate : string) (b : best) (item : Value)
    (d f : string) (v : float) :
  observation ParseFloat item = Some (d, f, v) ->
  notAbove (scoreOf targetDate (bestDate b) d f) d (visit ParseFloat targetDate b item).
Proof.
  intros Ho. rewrite visit_observation, Ho. cbv zeta.
  destruct (beats _ d b) eqn:Hb.
  - right. split; [reflexivity | apply gtb_irrefl].
  - apply beats_false, Hb.
Qed.

(** *** Once an exact-date 10-Q observation is kept, nothing replaces it *)

Lemma visit_settled (targetDate : string) (b : best) (item : Value) :
  150 <= bestScore b -> bestDate b = targetDate ->
  visit ParseFloat targetDate b item = b.
Proof.
  intros Hs Hd. rewrite visit_observation.
  destruct (observation ParseFloat item) as [[[d f] v]|]; [|reflexivity].
  cbv zeta. destruct (beats _ d b) eqn:Hb; [|reflexivity].
  exfalso. apply beats_true in Hb.
  destruct (decide (d = targetDate /\ f = "10-Q")) as [[-> ->] | Hn].
  - rewrite Hd, scoreOf_sum, String.eqb_refl, gtb_irrefl, andb_false_r in Hb.
    change (String.eqb "10-Q" "10-Q") with true in Hb.
    change (String.eqb "10-Q" "10-K") with false in Hb.
    unfold bonus in Hb. destruct Hb as [Hb | [_ Hb]]; [lia | discriminate].
  - pose proof (scoreOf_other targetDate (bestDate b) d f Hn). lia.
Qed.

Lemma run_settled (targetDate : string) (l : list Value) (b : best) :
  150 <= bestScore b -> bestDate b = targetDate ->
  fold_left (visit ParseFloat targetDate) l b = b.
Proof.
  intros Hs Hd. induction l as [|item l IH]; simpl; [reflexivity|].
  rewrite visit_settled by assumption. exact IH.
Qed.

Lemma visit_first_exact (targetDate : string) (b : best) (item : Value) (v : float) :
  bestScore b <= 135 ->
  observation ParseFloat item = Some (targetDate, "10-Q", v) ->
  exists s, visit ParseFloat targetDate b item = Best v targetDate s /\ 150 <= s.
Proof.
  intros Hs Ho. rewrite visit_observation, Ho. cbv zeta.
  pose proof (scoreOf_exact_quarterly targetDate (bestDate b)) as H150.
  destruct (beats _ targetDate b) eqn:Hb.
  - eexists. split; [reflexivity | exact H150].
  - apply beats_false in Hb. unfold notAbove in Hb. lia.
Qed.

Lemma visit_other_low (targetDate : string) (b : best) (item : Value) :
  bestScore b <= 135 ->
  (forall v, observation ParseFloat item <> Some (targetDate, "10-Q", v)) ->
  bestScore (visit ParseFloat targetDate b item) <= 135.
Proof.
  intros Hs Hn. rewrite visit_observation.
  destruct (observation ParseFloat item) as [[[d f] v]|]; [|exact Hs].
  cbv zeta. destruct (beats _ d b); [|exact Hs].
  simpl. apply scoreOf_other. intros [-> ->]. exact (Hn v eq_refl).
Qed.

Lemma run_first_exact (targetDate : string) (l : list Value) (b : best) :
  bestScore b <= 135 ->
  (exists item v, item ∈ l /\ observation ParseFloat item = Some (targetDate, "10-Q", v)) ->
  exists item v,
    item ∈ l /\ observation ParseFloat item = Some (targetDate, "10-Q", v)
    /\ bestValue (fold_left (visit ParseFloat targetDate) l b) = v
    /\ bestDate (fold_left (visit ParseFloat targetDate) l b) = targetDate
    /\ 150 <= bestScore (fold_left (visit ParseFloat targetDate) l b).
Proof.
  revert b. induction l as [|x l IH]; intros b Hs (item & v & Hin & Ho).
  - inversion Hin.
  - simpl.
    destruct (observation ParseFloat x) as [[[d f] w]|] eqn:Hx.
    + destruct (decide (d = targetDate /\ f = "10-Q")) as [[-> ->] | Hn].
      * destruct (visit_first_exact targetDate b x w Hs Hx) as (s & Hv & H150).
        rewrite Hv. rewrite run_settled by (simpl; auto).
        exists x, w. simpl. repeat split; auto. left.
      * apply elem_of_cons in Hin. destruct Hin as [-> | Hin].
        { rewrite Hx in Ho. exfalso. apply Hn. split; congruence. }
        destruct (IH (visit ParseFloat targetDate b x)) as (i & u & Hi & Hu & Hr).
        { apply visit_other_low; [exact Hs|]. intros u Hu. rewrite Hx in Hu.
          apply Hn. split; congruence. }
        { exists item, v. auto. }
        exists i, u. split; [right; exact Hi | auto].
    + apply elem_of_cons in Hin. destruct Hin as [-> | Hin].
      { rewrite Hx in Ho. discriminate. }
      destruct (IH (visit ParseFloat targetDate b x)) as (i & u & Hi & Hu & Hr).
      { apply visit_other_low; [exact Hs|]. intros u Hu. rewrite Hx in Hu. discriminate. }
      { exists item, v. auto. }
      exists i, u. split; [right; exact Hi | auto].
Qed.

(** C1. If the series contains an observation whose end date is the target
    date and whose form is "10-Q", [findValueForDate] returns the value of
    such an observation; the score it is kept with exceeds the score that
    any observation lacking the exact date or the 10-Q form can reach. *)
Theorem findValueForDate_prefers_exact_quarterly :
  forall (dataArray : list Value) (targetDate : string),
    (exists item v,
        item ∈ dataArray
        /\ observation ParseFloat item = Some (targetDate, "10-Q", v)) ->
    (exists item v,
        item ∈ dataArray
        /\ observation ParseFloat item = Some (targetDate, "10-Q", v)
        /\ findValueForDate ParseFloat dataArray targetDate = v)
    /\ (forall date form bd,
          ~ (date = targetDate /\ form = "10-Q") ->
          scoreOf targetDate bd date form
          < bestScore (fold_left (visit ParseFloat targetDate) dataArray best0)).
Proof.
  intros dataArray targetDate Hex.
  destruct (run_first_exact targetDate dataArray best0) as (item & v & Hin & Ho & Hv & Hd & Hs);
    [simpl; lia | exact Hex |].
  split.
  - exists item, v. auto.
  - intros date form bd Hn. pose proof (scoreOf_other targetDate bd date form Hn). lia.
Qed.

Lemma bestAfter_all (targetDate : string) (dataArray : list Value) :
  bestAfter ParseFloat targetDate dataArray (length dataArray)
  = fold_left (visit ParseFloat targetDate) dataArray best0.
Proof. unfold bestAfter. rewrite firstn_all. reflexivity. Qed.

Lemma bestAfter_covers (targetDate : string) (dataArray : list Value) (k : nat)
    (item : Value) (d f : string) (v : float) :
  dataArray !! k = Some item ->
  observation ParseFloat item = Some (d, f, v) ->
  notAbove (scoreOf targetDate (bestDate (bestAfter ParseFloat targetDate dataArray k)) d f) d
           (bestAfter ParseFloat targetDate dataArray (length dataArray)).
Proof.
  intros Hk Ho. rewrite bestAfter_all. unfold bestAfter.
  rewrite <- (take_drop_middle dataArray k item Hk) at 2.
  rewrite fold_left_app. simpl.
  eapply notAbove_trans; [exact (visit_covers _ _ item d f v Ho) | apply run_grows].
Qed.

Lemma bestAfter_kept (targetDate : string) (dataArray : list Value) :
  bestAfter ParseFloat targetDate dataArray (length dataArray) = best0
  \/ exists k item d f v,
       dataArray !! k = Some item
       /\ observation ParseFloat item = Some (d, f, v)
       /\ bestAfter ParseFloat targetDate dataArray (length dataArray)
          = Best v d (scoreOf targetDate (bestDate (bestAfter ParseFloat targetDate dataArray k)) d f).
Proof.
  rewrite bestAfter_all. unfold bestAfter.
  induction dataArray as [|x l IH] using rev_ind; [left; reflexivity|].
  rewrite fold_left_app. simpl. rewrite visit_observation.
  destruct (observation ParseFloat x) as [[[d f] v]|] eqn:Hx.
  - cbv zeta. destruct (beats _ d _) eqn:Hb.
    + right. exists (length l), x, d, f, v.
      rewrite list_lookup_middle by reflexivity.
      rewrite take_app_length. auto.
    + destruct IH as [IH | (k & item & d' & f' & v' & Hk & Ho & IH)]; [left; exact IH|].
      right. exists k, item, d', f', v'.
      pose proof (lookup_lt_Some _ _ _ Hk) as Hlt.
      rewrite lookup_app_l by exact Hlt.
      rewrite take_app_le by lia. auto.
  - destruct IH as [IH | (k & item & d' & f' & v' & Hk & Ho & IH)]; [left; exact IH|].
    right. exists k, item, d', f', v'.
    pose proof (lookup_lt_Some _ _ _ Hk) as Hlt.
    rewrite lookup_app_l by exact Hlt.
    rewrite take_app_le by lia. auto.
Qed.

(** What the loop computes.  It gives the observation at index [k] +100
    if its end date equals the target date, +50 if its form is "10-Q", +10
    if it is "10-K", and +25 if its end date is <= the target date and later
    than the end date of the observation held when the loop reaches index
    [k] (the empty string when none is held), whether or not that date is
    itself <= the target.  The value returned is the one held at the end;
    under this scoring no observation has a higher score than the held one,
    nor an equal score and a later end date; and what is held is an
    observation of the series with its score, or the initial state. *)
Theorem findValueForDate_keeps_highest_score :
  forall (dataArray : list Value) (targetDate : string),
    let score := fun (k : nat) (date form : string) =>
      bonus (String.eqb date targetDate) 100
      + bonus (String.eqb form "10-Q") 50
      + bonus (String.eqb form "10-K") 10
      + bonus (String.leb date targetDate
               && String.ltb (bestDate (bestAfter ParseFloat targetDate dataArray k)) date) 25 in
    let final := bestAfter ParseFloat targetDate dataArray (length dataArray) in
    findValueForDate ParseFloat dataArray targetDate = bestValue final
    /\ (forall k item date form val,
          dataArray !! k = Some item ->
          observation ParseFloat item = Some (date, form, val) ->
          score k date form < bestScore final
          \/ (score k date form = bestScore final
              /\ String.leb date (bestDate final) = true))
    /\ (final = best0
        \/ exists k item date form val,
             dataArray !! k = Some item
             /\ observation ParseFloat item = Some (date, form, val)
             /\ final = Best val date (score k date form)).
Proof.
  intros dataArray targetDate score final.
  assert (Hscore : forall k d f,
             score k d f = scoreOf targetDate (bestDate (bestAfter ParseFloat targetDate dataArray k)) d f).
  { intros k d f. rewrite scoreOf_sum. reflexivity. }
  split; [|split].
  - unfold findValueForDate, final. rewrite bestAfter_all. reflexivity.
  - intros k item d f v Hk Ho. rewrite Hscore.
    destruct (bestAfter_covers targetDate dataArray k item d f v Hk Ho) as [H | [H1 H2]].
    + left. exact H.
    + right. split; [exact H1|]. rewrite leb_gtb. fold final in H2. rewrite H2. reflexivity.
  - destruct (bestAfter_kept targetDate dataArray) as [H | (k & item & d & f & v & Hk & Ho & H)].
    + left. exact H.
    + right. exists k, item, d, f, v. rewrite Hscore. auto.
Qed.

End Selection.

(** ** [extractMetric] *)

Section Extraction.

Variable ParseFloat : string -> option float.
Variable rangeOrder : gmap string Value -> list (string * Value).

(** Whatever its order, a [range] loop visits each entry of the map once. *)
Hypothesis rangeOrder_perm : forall m, rangeOrder m ≡ₚ map_to_list m.

Lemma rangeOrder_lookup (m : gmap string Value) (k : string) (x : Value) :
  (k, x) ∈ rangeOrder m <-> m !! k = Some x.
Proof. rewrite rangeOrder_perm. apply elem_of_map_to_list. Qed.

Lemma rangeUnits_Some (units : list (string * Value)) (reportDate : string) (value : float) :
  rangeUnits ParseFloat units reportDate = Some value ->
  exists unitType dataArray,
    (unitType, VSlice dataArray) ∈ units
    /\ Contains (ToLower unitType) "usd" = true
    /\ findValueForDate ParseFloat dataArray reportDate = value
    /\ PrimFloat.eqb value 0 = false.
Proof.
  induction units as [|[unitType unitData] rest IH]; simpl; [discriminate|].
  intros H.
  assert (Hrest : rangeUnits ParseFloat rest reportDate = Some value ->
                  exists u a,
                    (u, VSlice a) ∈ (unitType, unitData) :: rest
                    /\ Contains (ToLower u) "usd" = true
                    /\ findValueForDate ParseFloat a reportDate = value
                    /\ PrimFloat.eqb value 0 = false).
  { intros Hr. destruct (IH Hr) as (u & a & Hin & Hrem). exists u, a.
    split; [right; exact Hin | exact Hrem]. }
  destruct (Contains (ToLower unitType) "usd") eqn:Hc; [|exact (Hrest H)].
  destruct unitData as [| | | | |dataArray|]; try exact (Hrest H).
  destruct (PrimFloat.eqb (findValueForDate ParseFloat dataArray reportDate) 0) eqn:Hz;
    simpl in H; [exact (Hrest H)|].
  inversion H; subst. exists unitType, dataArray. repeat split; auto. left.
Qed.

Lemma rangeUnits_None (units : list (string * Value)) (reportDate : string) :
  rangeUnits ParseFloat units reportDate = None <->
  forall unitType dataArray,
    (unitType, VSlice dataArray) ∈ units ->
    Contains (ToLower unitType) "usd" = true ->
    PrimFloat.eqb (findValueForDate ParseFloat dataArray reportDate) 0 = true.
Proof.
  induction units as [|[unitType unitData] rest IH]; simpl.
  - split; [|reflexivity]. intros _ u a Hin. inversion Hin.
  - assert (Hskip :
      (Contains (ToLower unitType) "usd" = true ->
       forall a, unitData = VSlice a ->
                 PrimFloat.eqb (findValueForDate ParseFloat a reportDate) 0 = true) ->
      (rangeUnits ParseFloat rest reportDate = None <->
       forall u a, (u, VSlice a) ∈ (unitType, unitData) :: rest ->
                   Contains (ToLower u) "usd" = true ->
                   PrimFloat.eqb (findValueForDate ParseFloat a reportDate) 0 = true)).
    { intros Hhead. rewrite IH. split.
      - intros Hall u a Hin Hc. apply elem_of_cons in Hin.
        destruct Hin as [Heq | Hin]; [|exact (Hall u a Hin Hc)].
        inversion Heq; subst. exact (Hhead Hc a eq_refl).
      - intros Hall u a Hin. apply Hall. right. exact Hin. }
    destruct (Contains (ToLower unitType) "usd") eqn:Hc;
      [|apply Hskip; intros; discriminate].
    destruct unitData as [| | | | |dataArray|];
      try (apply Hskip; intros; discriminate).
    destruct (PrimFloat.eqb (findValueForDate ParseFloat dataArray reportDate) 0) eqn:Hz;
      simpl.
    + apply Hskip. intros _ a Ha. inversion Ha; subst. exact Hz.
    + split; [discriminate|]. intros Hall.
      rewrite (Hall unitType dataArray) in Hz; [discriminate | left | exact Hc].
Qed.

Lemma tryTag_Some (usGaap : gmap string Value) (tagName reportDate : string) (value : float) :
  tryTag ParseFloat rangeOrder usGaap tagName reportDate = Some value ->
  usableIn ParseFloat usGaap reportDate tagName value.
Proof.
  unfold tryTag, usableIn. intros H.
  destruct (usGaap !! tagName) as [[| | | | | |concept]|] eqn:Ht; try discriminate.
  destruct (concept !! "units") as [[| | | | | |units]|] eqn:Hu; try discriminate.
  apply rangeUnits_Some in H. destruct H as (unitType & dataArray & Hin & Hrem).
  apply rangeOrder_lookup in Hin.
  exists concept, units, unitType, dataArray. auto.
Qed.

Lemma tryTag_None (usGaap : gmap string Value) (tagName reportDate : string) :
  tryTag ParseFloat rangeOrder usGaap tagName reportDate = None <->
  forall value, ~ usableIn ParseFloat usGaap reportDate tagName value.
Proof.
  split.
  - intros H value (concept & units & unitType & dataArray & Ht & Hu & Hk & Hc & Hv & Hz).
    unfold tryTag in H. rewrite Ht, Hu in H.
    rewrite rangeUnits_None in H.
    rewrite <- Hv in Hz.
    rewrite (H unitType dataArray) in Hz;
      [discriminate | apply rangeOrder_lookup, Hk | exact Hc].
  - intros H. destruct (tryTag ParseFloat rangeOrder usGaap tagName reportDate) eqn:Ht;
      [|reflexivity].
    apply tryTag_Some in Ht. destruct (H _ Ht).
Qed.

Lemma tryTags_None (usGaap : gmap string Value) (tagNames : list string) (reportDate : string) :
  tryTags ParseFloat rangeOrder usGaap tagNames reportDate = None <->
  noUsable ParseFloat usGaap reportDate tagNames.
Proof.
  unfold noUsable. induction tagNames as [|t rest IH]; simpl.
  - split; [|reflexivity]. intros _ t v Hin. inversion Hin.
  - destruct (tryTag ParseFloat rangeOrder usGaap t reportDate) eqn:Ht.
    + split; [discriminate|]. intros H. apply tryTag_Some in Ht.
      destruct (H t f); [left | exact Ht].
    + rewrite IH. split.
      * intros H t' v Hin. apply elem_of_cons in Hin. destruct Hin as [-> | Hin].
        -- rewrite tryTag_None in Ht. apply Ht.
        -- apply H, Hin.
      * intros H t' v Hin. apply H. right. exact Hin.
Qed.

Lemma tryTags_app_skip (usGaap : gmap string Value) (pre rest : list string)
    (reportDate : string) :
  noUsable ParseFloat usGaap reportDate pre ->
  tryTags ParseFloat rangeOrder usGaap (pre ++ rest) reportDate
  = tryTags ParseFloat rangeOrder usGaap rest reportDate.
Proof.
  induction pre as [|t pre IH]; intros Hpre; simpl; [reflexivity|].
  assert (Ht : tryTag ParseFloat rangeOrder usGaap t reportDate = None).
  { apply tryTag_None. intros v. apply Hpre. left. }
  rewrite Ht. apply IH. intros t' v Hin. apply Hpre. right. exact Hin.
Qed.

Lemma tryTags_Some (usGaap : gmap string Value) (tagNames : list string)
    (reportDate : string) (value : float) :
  tryTags ParseFloat rangeOrder usGaap tagNames reportDate = Some value ->
  exists tagName, tagName ∈ tagNames /\ usableIn ParseFloat usGaap reportDate tagName value.
Proof.
  induction tagNames as [|t rest IH]; simpl; [discriminate|].
  destruct (tryTag ParseFloat rangeOrder usGaap t reportDate) eqn:Ht.
  - intros H. inversion H; subst. exists t. split; [left | apply tryTag_Some, Ht].
  - intros H. destruct (IH H) as (t' & Hin & Hu). exists t'. split; [right; exact Hin | exact Hu].
Qed.

(** C3, amended. [extractMetric] returns an error, leaving the result
    unwritten, if and only if no candidate tag has a series, under a unit
    whose lowered name contains "usd", whose selected value is not zero;
    otherwise it returns such a non-zero selected value of a candidate
    tag. *)
Theorem extractMetric_not_found_iff :
  forall (usGaap : gmap string Value) (tagNames : list string) (result : float)
         (reportDate : string),
    let out := extractMetric ParseFloat rangeOrder usGaap tagNames result reportDate in
    (is_Some (snd out) <-> noUsable ParseFloat usGaap reportDate tagNames)
    /\ (is_Some (snd out) -> fst out = result)
    /\ (snd out = None ->
        exists tagName,
          tagName ∈ tagNames /\ usableIn ParseFloat usGaap reportDate tagName (fst out)).
Proof.
  intros usGaap tagNames result reportDate. unfold extractMetric.
  destruct (tryTags ParseFloat rangeOrder usGaap tagNames reportDate) as [value|] eqn:Ht;
    simpl.
  - split; [|split].
    + split; [intros [e He]; discriminate|].
      intros H. apply tryTags_None in H. congruence.
    + intros [e He]. discriminate.
    + intros _. apply tryTags_Some, Ht.
  - split; [|split].
    + split; [intros _; apply tryTags_None, Ht | eauto].
    + reflexivity.
    + discriminate.
Qed.

(** C4, amended. [extractMetric] goes through the candidate tags in the
    given order and returns a non-zero selected value of the first tag that
    yields one (a tag that is present with a "usd" series whose selected
    value is zero is passed over); the tags after that one have no
    influence on the result. *)
Theorem extractMetric_first_usable_tag :
  forall (usGaap : gmap string Value) (pre : list string) (tagName reportDate : string),
    noUsable ParseFloat usGaap reportDate pre ->
    (exists value, usableIn ParseFloat usGaap reportDate tagName value) ->
    exists value,
      usableIn ParseFloat usGaap reportDate tagName value
      /\ forall (post : list string) (result : float),
           extractMetric ParseFloat rangeOrder usGaap (pre ++ tagName :: post) result
             reportDate = (value, None).
Proof.
  intros usGaap pre tagName reportDate Hpre [v Hv].
  destruct (tryTag ParseFloat rangeOrder usGaap tagName reportDate) as [value|] eqn:Ht.
  - exists value. split; [apply tryTag_Some, Ht|].
    intros post result. unfold extractMetric.
    rewrite tryTags_app_skip by exact Hpre. simpl. rewrite Ht. reflexivity.
  - rewrite tryTag_None in Ht. destruct (Ht v Hv).
Qed.

Lemma extractMetric_noUsable (usGaap : gmap string Value) (tagNames : list string)
    (result : float) (reportDate : string) :
  noUsable ParseFloat usGaap reportDate tagNames ->
  extractMetric ParseFloat rangeOrder usGaap tagNames result reportDate
  = (result, Some (ErrMetricNotFound tagNames)).
Proof.
  intros H. unfold extractMetric. apply tryTags_None in H. rewrite H. reflexivity.
Qed.

End Extraction.

(** Whether something is found does not depend on the order in which
    [range] visits the units; which value is found may (see the examples). *)
Lemma extractMetric_outcome_any_order (ParseFloat : string -> option float)
    (order1 order2 : gmap string Value -> list (string * Value)) :
  (forall m, order1 m ≡ₚ map_to_list m) ->
  (forall m, order2 m ≡ₚ map_to_list m) ->
  forall usGaap tagNames result reportDate,
    snd (extractMetric ParseFloat order1 usGaap tagNames result reportDate)
    = snd (extractMetric ParseFloat order2 usGaap tagNames result reportDate).
Proof.
  intros H1 H2 usGaap tagNames result reportDate. unfold extractMetric.
  destruct (tryTags ParseFloat order1 usGaap tagNames reportDate) eqn:E1;
    destruct (tryTags ParseFloat order2 usGaap tagNames reportDate) eqn:E2;
    try reflexivity; exfalso.
  - apply (tryTags_None ParseFloat order2 H2) in E2.
    apply (tryTags_None ParseFloat order1 H1) in E2. congruence.
  - apply (tryTags_None ParseFloat order1 H1) in E1.
    apply (tryTags_None ParseFloat order2 H2) in E1. congruence.
Qed.

(** ** Cash flow and EBITDA *)

Ltac split_calls :=
  repeat match goal with
  | |- context [extractMetric ?pf ?ro ?g ?tags ?r ?d] =>
    let E := fresh "E" in
    destruct (extractMetric pf ro g tags r d) as [? ?] eqn:E
  end.

Ltac in_log :=
  first [ solve [simpl; left]
        | solve [apply elem_of_app; right; in_log]
        | solve [apply elem_of_app; left; in_log] ].

(** The call whose equation is [E] found nothing, by [H]; [P] is the
    assumption on the order of [range]. *)
Ltac missing_case P H E :=
  rewrite (extractMetric_noUsable _ _ P _ _ _ _ H) in E; inversion E; subst; simpl;
  split; [reflexivity | unfold missed; in_log].

(** A field equation and a log line, the log possibly longer at its end. *)
Ltac kept_in_log H :=
  destruct H as [? ?]; split;
  [assumption | first [assumption | apply elem_of_app; left; assumption]].

Section Metrics.

Variable ParseFloat : string -> option float.
Variable Sprintf_f0 : float -> string.
Variable Sprintf_v : Value -> string.
Variable rangeOrder : gmap string Value -> list (string * Value).

Hypothesis rangeOrder_perm : forall m, rangeOrder m ≡ₚ map_to_list m.

Lemma extractCashFlowData_tolerant (facts : CompanyFacts.t) (factsMap usGaap : gmap string Value)
    (metrics : CashFlowMetrics.t) (reportDate : string) :
  CompanyFacts.Facts facts = Some factsMap ->
  factsMap !! "us-gaap" = Some (VMap usGaap) ->
  exists metrics' log,
    extractCashFlowData ParseFloat rangeOrder facts metrics reportDate = (metrics', log, None)
    /\ (noUsable ParseFloat usGaap reportDate operatingCashFlowTags ->
        CashFlowMetrics.NetCashFromOperatingActivities metrics'
        = CashFlowMetrics.NetCashFromOperatingActivities metrics
        /\ missed "Could not extract operating cash flow" operatingCashFlowTags ∈ log)
    /\ (noUsable ParseFloat usGaap reportDate capitalExpendituresTags ->
        CashFlowMetrics.CapitalExpenditures metrics'
        = CashFlowMetrics.CapitalExpenditures metrics
        /\ missed "Could not extract capital expenditures" capitalExpendituresTags ∈ log).
Proof.
  intros Hf Hu. unfold extractCashFlowData. rewrite Hf, Hu.
  split_calls. eexists _, _. split; [reflexivity|]. split; intros Hm.
  - missing_case rangeOrder_perm Hm E.
  - simpl in E0. missing_case rangeOrder_perm Hm E0.
Qed.

Lemma extractEBITDAData_tolerant (facts : CompanyFacts.t) (factsMap usGaap : gmap string Value)
    (metrics : EBITDAMetrics.t) (reportDate : string) :
  CompanyFacts.Facts facts = Some factsMap ->
  factsMap !! "us-gaap" = Some (VMap usGaap) ->
  exists metrics' log,
    extractEBITDAData ParseFloat rangeOrder facts metrics reportDate = (metrics', log, None)
    /\ (noUsable ParseFloat usGaap reportDate revenueTags ->
        EBITDAMetrics.Revenue metrics' = EBITDAMetrics.Revenue metrics
        /\ missed "Could not extract revenue" revenueTags ∈ log)
    /\ (noUsable ParseFloat usGaap reportDate netIncomeTags ->
        EBITDAMetrics.NetIncome metrics' = EBITDAMetrics.NetIncome metrics
        /\ missed "Could not extract net income" netIncomeTags ∈ log)
    /\ (noUsable ParseFloat usGaap reportDate interestExpenseTags ->
        EBITDAMetrics.InterestExpense metrics' = EBITDAMetrics.InterestExpense metrics
        /\ missed "Could not extract interest expense" interestExpenseTags ∈ log)
    /\ (noUsable ParseFloat usGaap reportDate incomeTaxExpenseTags ->
        EBITDAMetrics.IncomeTaxExpense metrics' = EBITDAMetrics.IncomeTaxExpense metrics
        /\ missed "Could not extract income tax expense" incomeTaxExpenseTags ∈ log)
    /\ (noUsable ParseFloat usGaap reportDate depreciationAndAmortizationTags ->
        noUsable ParseFloat usGaap reportDate depreciationTags ->
        noUsable ParseFloat usGaap reportDate amortizationTags ->
        EBITDAMetrics.DepreciationAndAmortization metrics'
        = EBITDAMetrics.DepreciationAndAmortization metrics
        /\ missed "Could not extract depreciation and amortization"
             depreciationAndAmortizationTags ∈ log).
Proof.
  intros Hf Hu. unfold extractEBITDAData. rewrite Hf, Hu.
  destruct (extractMetric ParseFloat rangeOrder usGaap revenueTags _ reportDate)
    as [v1 e1] eqn:E1.
  destruct (extractMetric ParseFloat rangeOrder usGaap netIncomeTags _ reportDate)
    as [v2 e2] eqn:E2.
  destruct (extractMetric ParseFloat rangeOrder usGaap interestExpenseTags _ reportDate)
    as [v3 e3] eqn:E3.
  destruct (extractMetric ParseFloat rangeOrder usGaap incomeTaxExpenseTags _ reportDate)
    as [v4 e4] eqn:E4.
  destruct (extractMetric ParseFloat rangeOrder usGaap depreciationAndAmortizationTags _
              reportDate) as [v5 e5] eqn:E5.
  destruct (extractMetric ParseFloat rangeOrder usGaap depreciationTags 0 reportDate)
    as [v6 e6] eqn:E6.
  destruct (extractMetric ParseFloat rangeOrder usGaap amortizationTags 0 reportDate)
    as [v7 e7] eqn:E7.
  simpl in E2, E3, E4, E5.
  destruct e5 as [e5|]; [destruct e6 as [e6|]; destruct e7 as [e7|]|];
    (eexists _, _; split; [reflexivity|]);
    (split; [intros Hm; missing_case rangeOrder_perm Hm E1|]);
    (split; [intros Hm; missing_case rangeOrder_perm Hm E2|]);
    (split; [intros Hm; missing_case rangeOrder_perm Hm E3|]);
    (split; [intros Hm; missing_case rangeOrder_perm Hm E4|]);
    intros H5 H6 H7;
    rewrite (extractMetric_noUsable _ _ rangeOrder_perm _ _ _ _ H5) in E5;
    rewrite (extractMetric_noUsable _ _ rangeOrder_perm _ _ _ _ H6) in E6;
    rewrite (extractMetric_noUsable _ _ rangeOrder_perm _ _ _ _ H7) in E7;
    inversion E5; inversion E6; inversion E7; subst; simpl;
    (split; [reflexivity | unfold missed; in_log]).
Qed.

(** C5. When the facts hold the us-gaap taxonomy, [extractCashFlowData]
    and [extractEBITDAData] return no error and the parse succeeds; a
    metric none of whose candidate tags yields a usable value is zero in
    the result, and the miss is in the log as a warning.  (The candidate
    tags of depreciation and amortization are those of the combined list
    and of the two lists tried after it.) *)
Theorem missing_facts_are_tolerated :
  forall (facts : CompanyFacts.t) (factsMap usGaap : gmap string Value) (filing : Filing.t),
    CompanyFacts.Facts facts = Some factsMap ->
    factsMap !! "us-gaap" = Some (VMap usGaap) ->
    let missing := noUsable ParseFloat usGaap (Filing.ReportDate filing) in
    (forall metrics reportDate,
        snd (extractCashFlowData ParseFloat rangeOrder facts metrics reportDate) = None)
    /\ (forall metrics reportDate,
          snd (extractEBITDAData ParseFloat rangeOrder facts metrics reportDate) = None)
    /\ (exists m log,
          ParseCashFlowMetricsFromFacts ParseFloat Sprintf_f0 Sprintf_v rangeOrder facts filing
          = (Ok m, log)
          /\ (missing operatingCashFlowTags ->
              CashFlowMetrics.NetCashFromOperatingActivities m = 0%float
              /\ missed "Could not extract operating cash flow" operatingCashFlowTags ∈ log)
          /\ (missing capitalExpendituresTags ->
              CashFlowMetrics.CapitalExpenditures m = 0%float
              /\ missed "Could not extract capital expenditures" capitalExpendituresTags
                 ∈ log))
    /\ (exists m log,
          ParseEBITDAMetricsFromFacts ParseFloat Sprintf_f0 Sprintf_v rangeOrder facts filing
          = (Ok m, log)
          /\ (missing revenueTags ->
              EBITDAMetrics.Revenue m = 0%float
              /\ missed "Could not extract revenue" revenueTags ∈ log)
          /\ (missing netIncomeTags ->
              EBITDAMetrics.NetIncome m = 0%float
              /\ missed "Could not extract net income" netIncomeTags ∈ log)
          /\ (missing interestExpenseTags ->
              EBITDAMetrics.InterestExpense m = 0%float
              /\ missed "Could not extract interest expense" interestExpenseTags ∈ log)
          /\ (missing incomeTaxExpenseTags ->
              EBITDAMetrics.IncomeTaxExpense m = 0%float
              /\ missed "Could not extract income tax expense" incomeTaxExpenseTags ∈ log)
          /\ (missing depreciationAndAmortizationTags ->
              missing depreciationTags ->
              missing amortizationTags ->
              EBITDAMetrics.DepreciationAndAmortization m = 0%float
              /\ missed "Could not extract depreciation and amortization"
                   depreciationAndAmortizationTags ∈ log)).
Proof.
  intros facts factsMap usGaap filing Hf Hu missing.
  split; [|split; [|split]].
  - intros metrics reportDate.
    destruct (extractCashFlowData_tolerant facts factsMap usGaap metrics reportDate Hf Hu)
      as (m' & log & -> & _). reflexivity.
  - intros metrics reportDate.
    destruct (extractEBITDAData_tolerant facts factsMap usGaap metrics reportDate Hf Hu)
      as (m' & log & -> & _). reflexivity.
  - unfold ParseCashFlowMetricsFromFacts.
    match goal with
    | |- context [extractCashFlowData _ _ _ ?m0 ?d] =>
      destruct (extractCashFlowData_tolerant facts factsMap usGaap m0 d Hf Hu)
        as (m' & log & -> & Hop & Hcapex)
    end.
    eexists _, _. split; [reflexivity|].
    split; intros Hm; [apply Hop in Hm | apply Hcapex in Hm]; exact Hm.
  - unfold ParseEBITDAMetricsFromFacts.
    match goal with
    | |- context [extractEBITDAData _ _ _ ?m0 ?d] =>
      destruct (extractEBITDAData_tolerant facts factsMap usGaap m0 d Hf Hu)
        as (m' & log & -> & Hrev & Hni & Hie & Hit & Hda)
    end.
    cbv zeta.
    match goal with
    | |- context [if ?c then _ else _] => destruct c
    end.
    all: eexists _, _; split; [reflexivity|].
    all: split; [intros Hm; apply Hrev in Hm; kept_in_log Hm|].
    all: split; [intros Hm; apply Hni in Hm; kept_in_log Hm|].
    all: split; [intros Hm; apply Hie in Hm; kept_in_log Hm|].
    all: split; [intros Hm; apply Hit in Hm; kept_in_log Hm|].
    all: intros H5 H6 H7; pose proof (Hda H5 H6 H7) as Hm; kept_in_log Hm.
Qed.

End Metrics.

Section Calculator.

Variable ParseFloat : string -> option float.
Variable Sprintf_f0 : float -> string.
Variable Sprintf_v : Value -> string.
Variable rangeOrder : gmap string Value -> list (string * Value).
Variable GetCompanyFacts : string -> outcome CompanyFacts.t.

(** ** EBITDA and its margin *)

(** C8. A result of [ParseEBITDAMetricsFromFacts] has
    EBITDA = NetIncome + InterestExpense + IncomeTaxExpense
             + DepreciationAndAmortization,
    and EBITDAMargin = EBITDA / Revenue * 100 when Revenue is not zero, and
    0 when it is (binary64 operations and comparison). *)
Theorem EBITDA_and_margin :
  forall (facts : CompanyFacts.t) (filing : Filing.t) (m : EBITDAMetrics.t)
         (log : list LogLine),
    ParseEBITDAMetricsFromFacts ParseFloat Sprintf_f0 Sprintf_v rangeOrder facts filing
    = (Ok m, log) ->
    EBITDAMetrics.EBITDA m
    = (EBITDAMetrics.NetIncome m + EBITDAMetrics.InterestExpense m
       + EBITDAMetrics.IncomeTaxExpense m
       + EBITDAMetrics.DepreciationAndAmortization m)%float
    /\ (PrimFloat.eqb (EBITDAMetrics.Revenue m) 0 = false ->
        EBITDAMetrics.EBITDAMargin m
        = (EBITDAMetrics.EBITDA m / EBITDAMetrics.Revenue m * 100)%float)
    /\ (PrimFloat.eqb (EBITDAMetrics.Revenue m) 0 = true ->
        EBITDAMetrics.EBITDAMargin m = 0%float).
Proof.
  intros facts filing m log. unfold ParseEBITDAMetricsFromFacts.
  destruct (extractEBITDAData _ _ _ _ _) as [[m' log'] [e|]]; [discriminate|].
  cbv zeta.
  destruct (PrimFloat.eqb (EBITDAMetrics.Revenue _) 0) eqn:Hz; simpl in Hz |- *;
    intros H; inversion H; subst; simpl; rewrite Hz;
    (split; [reflexivity | split; [intros; first [reflexivity | discriminate]
                                  | intros; first [reflexivity | discriminate]]]).
Qed.

(** ** Free cash flow *)

(** C9. Every cash-flow result computed by [ParseCashFlowMetrics] or by
    [ParseCashFlowMetricsFromFacts] has
    FreeCashFlow = NetCashFromOperatingActivities - CapitalExpenditures
    (the binary64 difference). *)
Theorem FreeCashFlow_is_operating_minus_capex :
  forall (facts : CompanyFacts.t) (cik : string) (filing : Filing.t)
         (m : CashFlowMetrics.t) (log : list LogLine),
    ParseCashFlowMetricsFromFacts ParseFloat Sprintf_f0 Sprintf_v rangeOrder facts filing
      = (Ok m, log)
    \/ ParseCashFlowMetrics ParseFloat Sprintf_f0 Sprintf_v rangeOrder GetCompanyFacts
         cik filing = (Ok m, log) ->
    CashFlowMetrics.FreeCashFlow m =
      (CashFlowMetrics.NetCashFromOperatingActivities m
       - CashFlowMetrics.CapitalExpenditures m)%float.
Proof.
  intros facts cik filing m log [H | H].
  - unfold ParseCashFlowMetricsFromFacts in H.
    destruct (extractCashFlowData _ _ _ _ _) as [[m' log'] [e|]];
      inversion H; subst; reflexivity.
  - unfold ParseCashFlowMetrics in H.
    destruct (GetCompanyFacts cik) as [facts'| |]; try discriminate.
    destruct (extractCashFlowData _ _ _ _ _) as [[m' log'] [e|]];
      inversion H; subst; reflexivity.
Qed.

End Calculator.

(** ** Filings *)

Lemma index_Ok (a : list Value) (i : nat) (v : Value) :
  a !! i = Some v -> index a i = Ok v.
Proof. unfold index. intros ->. reflexivity. Qed.

Lemma index_Panic (a : list Value) (i : nat) :
  a !! i = None -> index a i = Panic.
Proof. unfold index. intros ->. reflexivity. Qed.

Ltac column_member :=
  unfold parallelColumns;
  solve [repeat first [apply list_elem_of_here | apply list_elem_of_further]].

(** Read [column recent k !! i]: either the index is in range and the
    struct literal goes on, or the read panics. *)
Ltac read_column recent i k :=
  let v := fresh "v" in
  let H := fresh "H" in
  destruct (column recent k !! i) as [v|] eqn:H;
  [ rewrite (index_Ok _ _ _ H); simpl
  | rewrite (index_Panic _ _ H); left; split;
    [ reflexivity
    | exists k; split; [column_member | apply lookup_ge_None_1; exact H] ] ].

Section Filings.

Local Open Scope nat_scope.
Local Open Scope list_scope.

Variable FormatFloat : float -> string.
Variable Sprintf_v : Value -> string.

Lemma filingAt_cases (recent : gmap string (list Value)) (i : nat) :
  (filingAt FormatFloat Sprintf_v recent i = Panic
   /\ exists key, key ∈ "accessionNumber" :: parallelColumns
                  /\ length (column recent key) <= i)
  \/ (exists f, filingAt FormatFloat Sprintf_v recent i = Ok f
                /\ (forall key, key ∈ "accessionNumber" :: parallelColumns ->
                                i < length (column recent key))
                /\ Some (Filing.AccessionNumber f)
                   = toString FormatFloat Sprintf_v <$> column recent "accessionNumber" !! i).
Proof.
  unfold filingAt.
  read_column recent i "accessionNumber".
  read_column recent i "filingDate".
  read_column recent i "reportDate".
  read_column recent i "form".
  read_column recent i "fileNumber".
  read_column recent i "filmNumber".
  read_column recent i "items".
  read_column recent i "size".
  read_column recent i "isXBRL".
  read_column recent i "isInlineXBRL".
  read_column recent i "primaryDocument".
  read_column recent i "primaryDocDescription".
  right. eexists. split; [reflexivity|]. split; [|reflexivity].
  intros key Hin. unfold parallelColumns in Hin.
  repeat (apply elem_of_cons in Hin;
          destruct Hin as [-> | Hin]; [eapply lookup_lt_Some; eassumption|]).
  inversion Hin.
Qed.

Lemma parseFilingsLoop_Ok (recent : gmap string (list Value)) (steps i : nat)
    (filings : list Filing.t) :
  (forall j key, i <= j < i + steps -> key ∈ "accessionNumber" :: parallelColumns ->
                 j < length (column recent key)) ->
  exists more,
    parseFilingsLoop FormatFloat Sprintf_v recent i steps filings = Ok (filings ++ more)
    /\ length more = steps
    /\ forall j, j < steps ->
         exists f, more !! j = Some f /\ filingAt FormatFloat Sprintf_v recent (i + j) = Ok f.
Proof.
  revert i filings. induction steps as [|steps IH]; intros i filings Hrange; simpl.
  - exists []. rewrite app_nil_r. split; [reflexivity|]. split; [reflexivity|].
    intros j Hj. lia.
  - destruct (filingAt_cases recent i) as [[_ (key & Hin & Hlen)] | (f & Hf & _)].
    { specialize (Hrange i key ltac:(lia) Hin). lia. }
    rewrite Hf. simpl.
    destruct (IH (S i) (filings ++ [f])) as (more & Hloop & Hlen & Hat).
    { intros j key Hj Hin. apply Hrange; [lia | exact Hin]. }
    exists (f :: more). rewrite Hloop, <- app_assoc. simpl.
    split; [reflexivity|]. split; [lia|].
    intros [|j] Hj; simpl.
    + exists f. rewrite Nat.add_0_r. auto.
    + destruct (Hat j ltac:(lia)) as (g & Hg & Hfg). exists g.
      replace (i + S j) with (S i + j) by lia. auto.
Qed.

Lemma parseFilingsLoop_Panic (recent : gmap string (list Value)) (steps i : nat)
    (filings : list Filing.t) :
  (exists j key, i <= j < i + steps /\ key ∈ "accessionNumber" :: parallelColumns
                 /\ length (column recent key) <= j) ->
  parseFilingsLoop FormatFloat Sprintf_v recent i steps filings = Panic.
Proof.
  revert i filings. induction steps as [|steps IH]; intros i filings (j & key & Hj & Hin & Hlen).
  - lia.
  - simpl. destruct (filingAt_cases recent i) as [[Hp _] | (f & Hf & Hall & _)].
    + rewrite Hp. reflexivity.
    + rewrite Hf. simpl. apply IH. exists j, key.
      destruct (decide (j = i)) as [-> | Hne].
      * specialize (Hall key Hin). lia.
      * repeat split; [lia | lia | exact Hin | exact Hlen].
Qed.

(** C10. [parseFilings] does not panic if and only if each of the eleven
    arrays indexed in parallel with "accessionNumber" is at least as long
    as it; then it returns one [Filing] per index of "accessionNumber",
    built from the entries at that index; and it returns the empty list
    when "accessionNumber" is empty. *)
Theorem parseFilings_total_iff :
  forall (recent : gmap string (list Value)),
    let count := length (column recent "accessionNumber") in
    let longEnough :=
      forall key, key ∈ parallelColumns -> count <= length (column recent key) in
    (parseFilings FormatFloat Sprintf_v recent <> Panic <-> longEnough)
    /\ (longEnough ->
        exists filings,
          parseFilings FormatFloat Sprintf_v recent = Ok filings
          /\ length filings = count
          /\ forall i, i < count ->
               exists f, filings !! i = Some f
                         /\ filingAt FormatFloat Sprintf_v recent i = Ok f)
    /\ (count = 0 -> parseFilings FormatFloat Sprintf_v recent = Ok []).
Proof.
  intros recent count longEnough.
  assert (Hempty : count = 0 -> parseFilings FormatFloat Sprintf_v recent = Ok []).
  { intros H0. unfold parseFilings. fold count. rewrite H0. reflexivity. }
  assert (Hok : longEnough ->
                exists filings,
                  parseFilings FormatFloat Sprintf_v recent = Ok filings
                  /\ length filings = count
                  /\ forall i, i < count ->
                       exists f, filings !! i = Some f
                                 /\ filingAt FormatFloat Sprintf_v recent i = Ok f).
  { intros Hlong. unfold parseFilings. fold count.
    destruct (Nat.eqb_spec count 0) as [H0 | Hpos].
    - exists []. rewrite H0. split; [reflexivity|]. split; [reflexivity|].
      intros i Hi. lia.
    - destruct (parseFilingsLoop_Ok recent count 0 []) as (more & Hloop & Hrem).
      + intros j key Hj Hin. apply elem_of_cons in Hin. destruct Hin as [-> | Hin].
        * fold count. lia.
        * specialize (Hlong key Hin). lia.
      + exists more. split; [exact Hloop | exact Hrem]. }
  split; [|split; assumption].
  split.
  - intros Hnp key Hin.
    destruct (decide (count <= length (column recent key))) as [|Hshort]; [assumption|].
    exfalso. apply Hnp. unfold parseFilings. fold count.
    destruct (Nat.eqb_spec count 0) as [H0 | Hpos]; [lia|].
    apply parseFilingsLoop_Panic. exists (length (column recent key)), key.
    repeat split; [lia | lia | right; exact Hin | lia].
  - intros Hlong. destruct (Hok Hlong) as (filings & -> & _). discriminate.
Qed.
End Filings.

Lemma leb_refl (s : string) : String.leb s s = true.
Proof. rewrite leb_gtb, gtb_irrefl. reflexivity. Qed.

Lemma byFilingDateDesc_strictWeakOrder : strictWeakOrder byFilingDateDesc.
Proof.
  unfold strictWeakOrder, byFilingDateDesc. split; [|split].
  - intros a. apply gtb_irrefl.
  - intros a b c. apply gtb_trans.
  - intros a b c. apply gtb_false_trans.
Qed.

Lemma inOrder_byFilingDateDesc (a b : Filing.t) :
  inOrder byFilingDateDesc a b <-> String.leb (Filing.FilingDate b) (Filing.FilingDate a) = true.
Proof.
  unfold inOrder, byFilingDateDesc. rewrite leb_gtb, negb_true_iff. reflexivity.
Qed.

Lemma filter_isTenQ (filings : list Filing.t) (f : Filing.t) :
  f ∈ List.filter isTenQ filings <-> f ∈ filings /\ Filing.Form f = "10-Q".
Proof.
  rewrite !list_elem_of_In, filter_In. unfold isTenQ. rewrite String.eqb_eq. reflexivity.
Qed.

Lemma StronglySorted_weaken {A : Type} (R1 R2 : relation A) (l : list A) :
  (forall a b, R1 a b -> R2 a b) -> StronglySorted R1 l -> StronglySorted R2 l.
Proof.
  intros Himp Hs. induction Hs as [|a l Hs IH Hall]; constructor; [exact IH|].
  eapply Forall_impl; [exact Hall | apply Himp].
Qed.

Lemma take_capped {A : Type} (l : list A) :
  take (if (4 <? length l)%nat then 4%nat else length l) l = take 4 l.
Proof.
  destruct (Nat.ltb_spec 4 (length l)); [reflexivity|].
  rewrite !take_ge by lia. reflexivity.
Qed.

Section Selector.

Local Open Scope nat_scope.
Local Open Scope list_scope.

Variable FormatFloat : float -> string.
Variable Sprintf_v : Value -> string.
Variable sort_Slice : (Filing.t -> Filing.t -> bool) -> list Filing.t -> list Filing.t.
Variable GetCompanySubmissions : string -> outcome (gmap string (list Value)).

(** [sort.Slice] permutes the slice and leaves it sorted by [less]. *)
Hypothesis sort_Slice_perm : forall less x, sort_Slice less x ≡ₚ x.
Hypothesis sort_Slice_sorted :
  forall less x, strictWeakOrder less -> StronglySorted (inOrder less) (sort_Slice less x).

(** C7. From the parsed filings, [GetMostRecent10Q] and
    [GetMostRecent4TenQs] keep exactly those whose form is "10-Q" and sort
    them by filing date, latest first; the first returns the head of the
    sorted list, a filing whose filing date no other 10-Q exceeds; the
    second returns its first four elements (all of them when there are
    fewer), whose filing dates are at least those of the filings left out.
    When there is no 10-Q filing both return an error. *)
Theorem most_recent_TenQ_selection :
  forall (cik : string) (recent : gmap string (list Value)) (filings : list Filing.t),
    GetCompanySubmissions cik = Ok recent ->
    parseFilings FormatFloat Sprintf_v recent = Ok filings ->
    let newerFirst := fun a b : Filing.t =>
      String.leb (Filing.FilingDate b) (Filing.FilingDate a) = true in
    let one := GetMostRecent10Q FormatFloat Sprintf_v sort_Slice GetCompanySubmissions cik in
    let four := GetMostRecent4TenQs FormatFloat Sprintf_v sort_Slice GetCompanySubmissions cik in
    ((forall f, f ∈ filings -> Filing.Form f <> "10-Q") ->
     one = Err (ErrNoTenQ cik) /\ four = Err (ErrNoTenQ cik))
    /\ ((exists f, f ∈ filings /\ Filing.Form f = "10-Q") ->
        exists sorted,
          sorted ≡ₚ List.filter isTenQ filings
          /\ (forall f, f ∈ sorted <-> f ∈ filings /\ Filing.Form f = "10-Q")
          /\ StronglySorted newerFirst sorted
          /\ (exists first,
                one = Ok first /\ first ∈ sorted
                /\ forall f, f ∈ sorted -> newerFirst first f)
          /\ four = Ok (take 4 sorted)
          /\ length (take 4 sorted) = min 4 (length (List.filter isTenQ filings))
          /\ forall f g, f ∈ take 4 sorted -> g ∈ drop 4 sorted -> newerFirst f g).
Proof.
  intros cik recent filings Hsub Hparse newerFirst one four.
  unfold one, four, GetMostRecent10Q, GetMostRecent4TenQs. rewrite Hsub, Hparse. simpl.
  set (tenQ := List.filter isTenQ filings).
  split.
  - intros Hnone. assert (HtenQ : tenQ = []).
    { destruct tenQ as [|f l] eqn:Ht; [reflexivity|].
      assert (Hin : f ∈ tenQ) by (rewrite Ht; left).
      apply filter_isTenQ in Hin. destruct Hin as [Hin Hform].
      destruct (Hnone f Hin Hform). }
    rewrite HtenQ. simpl. split; reflexivity.
  - intros (f0 & Hin0 & Hform0).
    assert (Hin : f0 ∈ tenQ) by (apply filter_isTenQ; auto).
    assert (Hpos : (length tenQ =? 0) = false).
    { apply Nat.eqb_neq. destruct tenQ; [inversion Hin | simpl; lia]. }
    rewrite Hpos.
    set (sorted := sort_Slice byFilingDateDesc tenQ).
    assert (Hperm : sorted ≡ₚ tenQ) by apply sort_Slice_perm.
    assert (Hsorted : StronglySorted newerFirst sorted).
    { apply (StronglySorted_weaken (inOrder byFilingDateDesc)).
      - intros a b. apply inOrder_byFilingDateDesc.
      - apply sort_Slice_sorted, byFilingDateDesc_strictWeakOrder. }
    exists sorted. split; [exact Hperm|]. split.
    { intros f. rewrite Hperm. apply filter_isTenQ. }
    split; [exact Hsorted|]. split; [|split; [|split]].
    + destruct sorted as [|first rest] eqn:Hs.
      { apply Permutation_nil_l in Hperm. rewrite <- Hperm in Hin. inversion Hin. }
      exists first. simpl. split; [reflexivity|]. split; [left|].
      intros f Hf. apply elem_of_cons in Hf. destruct Hf as [-> | Hf].
      * apply leb_refl.
      * apply StronglySorted_inv in Hsorted. destruct Hsorted as [_ Hall].
        rewrite Forall_forall in Hall. apply Hall, Hf.
    + rewrite take_capped. reflexivity.
    + rewrite length_take, Hperm. reflexivity.
    + intros f g Hf Hg.
      rewrite <- (take_drop 4 sorted) in Hsorted.
      exact (StronglySorted_app_1_elem_of _ _ _ f g Hsorted Hf Hg).
Qed.

End Selector.

Lemma mergeSortSlice_perm (less : Filing.t -> Filing.t -> bool) (x : list Filing.t) :
  mergeSortSlice less x ≡ₚ x.
Proof. apply merge_sort_Permutation. Qed.

Lemma mergeSortSlice_sorted (less : Filing.t -> Filing.t -> bool) (x : list Filing.t) :
  strictWeakOrder less -> StronglySorted (inOrder less) (mergeSortSlice less x).
Proof.
  intros (Hirr & Htrans & Hneg). unfold mergeSortSlice.
  apply StronglySorted_merge_sort.
  - intros a b c Hab Hbc. unfold inOrder in *. eapply Hneg; eassumption.
  - intros a b. unfold inOrder.
    destruct (less b a) eqn:Hba; [|left; reflexivity].
    right. destruct (less a b) eqn:Hab; [|reflexivity].
    rewrite <- (Hirr a). symmetry. eapply Htrans; eassumption.
Qed.

(** * Further properties of the client *)

(** ** More on [findValueForDate] *)

Lemma ltb_empty (s : string) : String.ltb s "" = false.
Proof. destruct s; reflexivity. Qed.

Lemma ltb_irrefl (s : string) : String.ltb s s = false.
Proof. exact (gtb_irrefl s). Qed.

Lemma ltb_leb (s1 s2 : string) : String.ltb s1 s2 = true -> String.leb s1 s2 = true.
Proof.
  intros H. rewrite leb_gtb. change (String.ltb s1 s2) with (gtb s2 s1) in H.
  rewrite (gtb_asym _ _ H). reflexivity.
Qed.

Lemma ltb_neq (s1 s2 : string) : String.ltb s1 s2 = true -> String.eqb s1 s2 = false.
Proof.
  intros H. apply String.eqb_neq. intros ->. rewrite ltb_irrefl in H. discriminate.
Qed.

Lemma scoreOf_not_exact (targetDate bd date form : string) :
  date <> targetDate -> scoreOf targetDate bd date form <= 75.
Proof.
  intros H. apply String.eqb_neq in H. rewrite scoreOf_sum, H. unfold bonus.
  destruct (String.eqb form "10-Q") eqn:HQ; destruct (String.eqb form "10-K") eqn:HK;
    destruct (String.leb date targetDate && gtb date bd); try lia.
  apply String.eqb_eq in HQ, HK. subst. discriminate.
Qed.

Lemma scoreOf_exact (targetDate bd form : string) :
  100 <= scoreOf targetDate bd targetDate form.
Proof.
  rewrite scoreOf_sum, String.eqb_refl. unfold bonus.
  destruct (String.eqb form "10-Q"); destruct (String.eqb form "10-K");
    destruct (String.leb targetDate targetDate && gtb targetDate bd); lia.
Qed.

Lemma scoreOf_quarterly (targetDate bd date : string) :
  50 <= scoreOf targetDate bd date "10-Q".
Proof.
  rewrite scoreOf_sum. change (String.eqb "10-Q" "10-Q") with true.
  change (String.eqb "10-Q" "10-K") with false. unfold bonus.
  destruct (String.eqb date targetDate);
    destruct (String.leb date targetDate && gtb date bd); lia.
Qed.

Lemma scoreOf_not_exact_not_quarterly (targetDate bd date form : string) :
  date <> targetDate -> form <> "10-Q" -> scoreOf targetDate bd date form <= 35.
Proof.
  intros Hd Hf. apply String.eqb_neq in Hd, Hf. rewrite scoreOf_sum, Hd, Hf. unfold bonus.
  destruct (String.eqb form "10-K");
    destruct (String.leb date targetDate && gtb date bd); lia.
Qed.

Lemma scoreOf_earlier_quarterly (targetDate bd date : string) :
  String.ltb date targetDate = true ->
  scoreOf targetDate bd date "10-Q" = 50 + bonus (gtb date bd) 25.
Proof.
  intros H. rewrite scoreOf_sum, (ltb_neq _ _ H), (ltb_leb _ _ H).
  reflexivity.
Qed.

Section Preference.

Variable ParseFloat : string -> option float.
Variable targetDate : string.

(** A class of observations, by end date and form, every member of which
    scores at least [hi] and every other observation of the series at most
    [lo], with [lo < hi]. *)
Variable inClass : string -> string -> bool.
Variables lo hi : Z.
Variable series : list Value.

Hypothesis lo_hi : lo < hi.
Hypothesis class_scores :
  forall item date form val bd,
    item ∈ series ->
    observation ParseFloat item = Some (date, form, val) ->
    if inClass date form then hi <= scoreOf targetDate bd date form
    else scoreOf targetDate bd date form <= lo.

Lemma visit_keepsClass (b : best) (item : Value) :
  item ∈ series -> keepsClass ParseFloat inClass hi series b -> keepsClass ParseFloat inClass hi series (visit ParseFloat targetDate b item).
Proof.
  intros Hin Hb. rewrite visit_observation.
  destruct (observation ParseFloat item) as [[[d f] v]|] eqn:Ho; [|exact Hb].
  cbv zeta. destruct (beats _ d b) eqn:Hbeats; [|exact Hb].
  pose proof (class_scores item d f v (bestDate b) Hin Ho) as Hs.
  destruct (inClass d f) eqn:Hc.
  - split; [exact Hs|]. exists item, f. simpl. auto.
  - exfalso. apply beats_true in Hbeats. destruct Hb as [Hb _]. lia.
Qed.

Lemma run_keepsClass (l : list Value) (b : best) :
  (forall item, item ∈ l -> item ∈ series) ->
  keepsClass ParseFloat inClass hi series b -> keepsClass ParseFloat inClass hi series (fold_left (visit ParseFloat targetDate) l b).
Proof.
  revert b. induction l as [|x l IH]; intros b Hsub Hb; simpl; [exact Hb|].
  apply IH.
  - intros item Hin. apply Hsub. right. exact Hin.
  - apply visit_keepsClass; [apply Hsub; left | exact Hb].
Qed.

Lemma run_reaches_class (l : list Value) (b : best) :
  (forall item, item ∈ l -> item ∈ series) ->
  bestScore b <= lo ->
  (exists item date form val,
      item ∈ l /\ observation ParseFloat item = Some (date, form, val)
      /\ inClass date form = true) ->
  keepsClass ParseFloat inClass hi series (fold_left (visit ParseFloat targetDate) l b).
Proof.
  revert b. induction l as [|x l IH]; intros b Hsub Hlow (item & d & f & v & Hin & Ho & Hc).
  - inversion Hin.
  - simpl.
    assert (Hx : x ∈ series) by (apply Hsub; left).
    assert (Hl : forall i, i ∈ l -> i ∈ series) by (intros i Hi; apply Hsub; right; exact Hi).
    rewrite visit_observation.
    destruct (observation ParseFloat x) as [[[dx fx] vx]|] eqn:Hox.
    + cbv zeta.
      pose proof (class_scores x dx fx vx (bestDate b) Hx Hox) as Hs.
      destruct (inClass dx fx) eqn:Hcx.
      * assert (Hbeats : beats (scoreOf targetDate (bestDate b) dx fx) dx b = true).
        { apply beats_true. left. lia. }
        rewrite Hbeats. apply run_keepsClass; [exact Hl|].
        split; [exact Hs|]. exists x, fx. simpl. auto.
      * assert (Hrest : exists item date form val,
                   item ∈ l /\ observation ParseFloat item = Some (date, form, val)
                   /\ inClass date form = true).
        { apply elem_of_cons in Hin. destruct Hin as [-> | Hin].
          - rewrite Hox in Ho. inversion Ho; subst. congruence.
          - exists item, d, f, v. auto. }
        destruct (beats _ dx b); apply IH; auto.
    + apply IH; [exact Hl | exact Hlow |].
      apply elem_of_cons in Hin. destruct Hin as [-> | Hin].
      * rewrite Hox in Ho. discriminate.
      * exists item, d, f, v. auto.
Qed.

End Preference.

Section MoreSelection.

Local Open Scope list_scope.

Variable ParseFloat : string -> option float.

(** Items in which the loop cannot read an end date, a form and a value
    have no influence, and a series without observations yields 0. *)
Theorem findValueForDate_skips_non_observations :
  (forall (pre post : list Value) (item : Value) (targetDate : string),
      observation ParseFloat item = None ->
      findValueForDate ParseFloat (pre ++ item :: post) targetDate
      = findValueForDate ParseFloat (pre ++ post) targetDate)
  /\ (forall (dataArray : list Value) (targetDate : string),
        (forall item, item ∈ dataArray -> observation ParseFloat item = None) ->
        findValueForDate ParseFloat dataArray targetDate = 0%float).
Proof.
  split.
  - intros pre post item targetDate Hnone. unfold findValueForDate.
    rewrite !fold_left_app. simpl. rewrite visit_observation, Hnone. reflexivity.
  - intros dataArray targetDate Hall. unfold findValueForDate.
    assert (H : fold_left (visit ParseFloat targetDate) dataArray best0 = best0);
      [|rewrite H; reflexivity].
    generalize best0. induction dataArray as [|x l IH]; intros b; simpl; [reflexivity|].
    rewrite visit_observation, (Hall x) by left.
    apply IH. intros item Hin. apply Hall. right. exact Hin.
Qed.

(** An observation dated exactly at the target date is preferred to every
    observation with another end date, whatever the forms. *)
Theorem findValueForDate_prefers_exact_date :
  forall (dataArray : list Value) (targetDate : string),
    (exists item form val,
        item ∈ dataArray /\ observation ParseFloat item = Some (targetDate, form, val)) ->
    exists item form val,
      item ∈ dataArray
      /\ observation ParseFloat item = Some (targetDate, form, val)
      /\ findValueForDate ParseFloat dataArray targetDate = val.
Proof.
  intros dataArray targetDate (item & form & val & Hin & Ho).
  destruct (run_reaches_class ParseFloat targetDate
              (fun d _ => String.eqb d targetDate) 75 100 dataArray) with
    (l := dataArray) (b := best0) as [_ (i & f & Hi & Hobs & Hc)].
  - lia.
  - intros i d f v bd _ _. destruct (String.eqb d targetDate) eqn:Hd.
    + apply String.eqb_eq in Hd. subst. apply scoreOf_exact.
    + apply String.eqb_neq in Hd. apply scoreOf_not_exact, Hd.
  - auto.
  - simpl. lia.
  - exists item, targetDate, form, val. rewrite String.eqb_refl. auto.
  - apply String.eqb_eq in Hc. rewrite Hc in Hobs.
    exists i, f, (bestValue (fold_left (visit ParseFloat targetDate) dataArray best0)).
    auto.
Qed.

(** When no observation is dated at the target date, a 10-Q observation
    is preferred to every observation from another form. *)
Theorem findValueForDate_prefers_quarterly_form :
  forall (dataArray : list Value) (targetDate : string),
    (forall item date form val,
        item ∈ dataArray -> observation ParseFloat item = Some (date, form, val) ->
        date <> targetDate) ->
    (exists item date val,
        item ∈ dataArray /\ observation ParseFloat item = Some (date, "10-Q", val)) ->
    exists item date val,
      item ∈ dataArray
      /\ observation ParseFloat item = Some (date, "10-Q", val)
      /\ findValueForDate ParseFloat dataArray targetDate = val.
Proof.
  intros dataArray targetDate Hnot (item & date & val & Hin & Ho).
  destruct (run_reaches_class ParseFloat targetDate
              (fun _ f => String.eqb f "10-Q") 35 50 dataArray) with
    (l := dataArray) (b := best0) as [_ (i & f & Hi & Hobs & Hc)].
  - lia.
  - intros i d f v bd Hi Hobs. destruct (String.eqb f "10-Q") eqn:Hf.
    + apply String.eqb_eq in Hf. subst. apply scoreOf_quarterly.
    + apply String.eqb_neq in Hf.
      apply scoreOf_not_exact_not_quarterly; [exact (Hnot i d f v Hi Hobs) | exact Hf].
  - auto.
  - simpl. lia.
  - exists item, date, "10-Q", val. auto.
  - apply String.eqb_eq in Hc. subst f.
    exists i, (bestDate (fold_left (visit ParseFloat targetDate) dataArray best0)),
      (bestValue (fold_left (visit ParseFloat targetDate) dataArray best0)).
    auto.
Qed.

Lemma run_score_range (targetDate : string) (l : list Value) (b : best) :
  0 <= bestScore b <= 175 ->
  0 <= bestScore (fold_left (visit ParseFloat targetDate) l b) <= 175.
Proof.
  revert b. induction l as [|x l IH]; intros b Hb; simpl; [exact Hb|].
  apply IH. rewrite visit_observation.
  destruct (observation ParseFloat x) as [[[d f] v]|]; [|exact Hb].
  cbv zeta. destruct (beats _ d b); [|exact Hb]. simpl. apply scoreOf_range.
Qed.

(** Along the loop the kept score stays between 0 and 175, and the kept
    pair of score and end date never goes down. *)
Theorem kept_score_never_decreases :
  forall (dataArray : list Value) (targetDate : string) (j k : nat),
    (j <= k)%nat ->
    notAbove (bestScore (bestAfter ParseFloat targetDate dataArray j))
             (bestDate (bestAfter ParseFloat targetDate dataArray j))
             (bestAfter ParseFloat targetDate dataArray k)
    /\ 0 <= bestScore (bestAfter ParseFloat targetDate dataArray k) <= 175.
Proof.
  intros dataArray targetDate j k Hjk. split.
  - unfold bestAfter.
    rewrite <- (take_drop j (take k dataArray)), take_take, Nat.min_l by lia.
    rewrite fold_left_app. apply run_grows.
  - unfold bestAfter. apply run_score_range. simpl. lia.
Qed.

End MoreSelection.

Section Recency.

Local Open Scope list_scope.

Variable ParseFloat : string -> option float.

Lemma visit_latestKept (targetDate : string) (seen : list Value) (b : best) (item : Value) :
  (forall date form val,
      observation ParseFloat item = Some (date, form, val) ->
      form = "10-Q" /\ String.ltb date targetDate = true) ->
  latestKept ParseFloat seen b ->
  latestKept ParseFloat (seen ++ [item]) (visit ParseFloat targetDate b item).
Proof.
  intros Hitem Hb. rewrite visit_observation.
  destruct (observation ParseFloat item) as [[[d f] v]|] eqn:Ho.
  - destruct (Hitem d f v eq_refl) as [-> Hlt]. cbv zeta.
    rewrite (scoreOf_earlier_quarterly _ _ _ Hlt).
    destruct Hb as [[-> Hnone] | (Hscore & (kept & Hkin & Hkept) & Hmax)].
    + assert (Hbeats : beats (50 + bonus (gtb d (bestDate best0)) 25) d best0 = true).
      { apply beats_true. left. simpl. unfold bonus. destruct (gtb d ""); lia. }
      rewrite Hbeats. right. simpl. split; [|split].
      * destruct (gtb d "") eqn:Hg; [left; reflexivity|]. right. split; [reflexivity|].
        destruct (gtb_false_cases _ _ Hg) as [-> | Hc]; [reflexivity|].
        unfold gtb in Hc. rewrite ltb_empty in Hc. discriminate.
      * exists item. split; [apply elem_of_app; right; left | exact Ho].
      * intros i d' f' v' Hin Hobs. apply elem_of_app in Hin. destruct Hin as [Hin | Hin].
        -- rewrite (Hnone i Hin) in Hobs. discriminate.
        -- apply list_elem_of_singleton in Hin. subst i. rewrite Ho in Hobs.
           inversion Hobs; subst. apply leb_refl.
    + destruct (gtb d (bestDate b)) eqn:Hg; unfold bonus.
      * assert (Hbeats : beats (50 + 25) d b = true).
        { apply beats_true. destruct Hscore as [-> | [-> _]]; [right | left; lia].
          split; [reflexivity | exact Hg]. }
        rewrite Hbeats. right. simpl. split; [left; reflexivity|]. split.
        -- exists item. split; [apply elem_of_app; right; left | exact Ho].
        -- intros i d' f' v' Hin Hobs. apply elem_of_app in Hin.
           destruct Hin as [Hin | Hin].
           ++ pose proof (Hmax i d' f' v' Hin Hobs) as Hle.
              rewrite leb_gtb, negb_true_iff in Hle |- *.
              eapply gtb_false_trans; [exact Hle | apply gtb_asym, Hg].
           ++ apply list_elem_of_singleton in Hin. subst i. rewrite Ho in Hobs.
              inversion Hobs; subst. apply leb_refl.
      * assert (Hbeats : beats (50 + 0) d b = false).
        { apply beats_false. destruct Hscore as [Hs | [Hs _]]; [left; lia | right].
          split; [lia | exact Hg]. }
        rewrite Hbeats. right. split; [exact Hscore|]. split.
        -- exists kept. split; [apply elem_of_app; left; exact Hkin | exact Hkept].
        -- intros i d' f' v' Hin Hobs. apply elem_of_app in Hin.
           destruct Hin as [Hin | Hin]; [exact (Hmax i d' f' v' Hin Hobs)|].
           apply list_elem_of_singleton in Hin. subst i. rewrite Ho in Hobs.
           inversion Hobs; subst. rewrite leb_gtb, Hg. reflexivity.
  - destruct Hb as [[-> Hnone] | (Hscore & (kept & Hkin & Hkept) & Hmax)].
    + left. split; [reflexivity|]. intros i Hin. apply elem_of_app in Hin.
      destruct Hin as [Hin | Hin]; [exact (Hnone i Hin)|].
      apply list_elem_of_singleton in Hin. subst i. exact Ho.
    + right. split; [exact Hscore|]. split.
      * exists kept. split; [apply elem_of_app; left; exact Hkin | exact Hkept].
      * intros i d' f' v' Hin Hobs. apply elem_of_app in Hin.
        destruct Hin as [Hin | Hin]; [exact (Hmax i d' f' v' Hin Hobs)|].
        apply list_elem_of_singleton in Hin. subst i. rewrite Ho in Hobs. discriminate.
Qed.

Lemma run_latestKept (targetDate : string) (l seen : list Value) (b : best) :
  (forall item date form val,
      item ∈ l -> observation ParseFloat item = Some (date, form, val) ->
      form = "10-Q" /\ String.ltb date targetDate = true) ->
  latestKept ParseFloat seen b ->
  latestKept ParseFloat (seen ++ l) (fold_left (visit ParseFloat targetDate) l b).
Proof.
  revert seen b. induction l as [|x l IH]; intros seen b Hl Hb; simpl.
  - rewrite app_nil_r. exact Hb.
  - replace (seen ++ x :: l) with ((seen ++ [x]) ++ l) by (rewrite <- app_assoc; reflexivity).
    apply IH.
    + intros item d f v Hin. apply Hl. right. exact Hin.
    + apply visit_latestKept; [|exact Hb]. intros d f v. apply Hl. left.
Qed.

(** When every observation is a 10-Q dated before the target date, the
    value returned is that of an observation with the latest end date. *)
Theorem findValueForDate_latest_earlier_quarter :
  forall (dataArray : list Value) (targetDate : string),
    (forall item date form val,
        item ∈ dataArray -> observation ParseFloat item = Some (date, form, val) ->
        form = "10-Q" /\ String.ltb date targetDate = true) ->
    (exists item, item ∈ dataArray /\ is_Some (observation ParseFloat item)) ->
    exists item date val,
      item ∈ dataArray
      /\ observation ParseFloat item = Some (date, "10-Q", val)
      /\ findValueForDate ParseFloat dataArray targetDate = val
      /\ forall item' date' form' val',
           item' ∈ dataArray ->
           observation ParseFloat item' = Some (date', form', val') ->
           String.leb date' date = true.
Proof.
  intros dataArray targetDate Hall (item & Hin & [o Ho]).
  destruct (run_latestKept targetDate dataArray [] best0 Hall)
    as [[_ Hnone] | (_ & (kept & Hkin & Hkept) & Hmax)].
  - left. split; [reflexivity|]. intros i Hi. inversion Hi.
  - simpl in Hnone. rewrite (Hnone item Hin) in Ho. discriminate.
  - simpl in Hkin, Hmax. unfold findValueForDate.
    exists kept, (bestDate (fold_left (visit ParseFloat targetDate) dataArray best0)),
      (bestValue (fold_left (visit ParseFloat targetDate) dataArray best0)).
    auto.
Qed.

End Recency.

(** ** More on [extractMetric] *)

Section TwoOrders.

Variable ParseFloat : string -> option float.
Variables order1 order2 : gmap string Value -> list (string * Value).

Hypothesis order1_perm : forall m, order1 m ≡ₚ map_to_list m.
Hypothesis order2_perm : forall m, order2 m ≡ₚ map_to_list m.

Lemma rangeUnits_one_usd (units : gmap string Value) (reportDate : string) :
  (forall k1 k2 x1 x2,
      units !! k1 = Some x1 -> units !! k2 = Some x2 ->
      Contains (ToLower k1) "usd" = true -> Contains (ToLower k2) "usd" = true ->
      k1 = k2) ->
  rangeUnits ParseFloat (order1 units) reportDate
  = rangeUnits ParseFloat (order2 units) reportDate.
Proof.
  intros Hone.
  destruct (rangeUnits ParseFloat (order1 units) reportDate) as [v1|] eqn:E1;
    destruct (rangeUnits ParseFloat (order2 units) reportDate) as [v2|] eqn:E2;
    try reflexivity.
  - apply rangeUnits_Some in E1, E2.
    destruct E1 as (u1 & a1 & Hin1 & Hc1 & Hv1 & _).
    destruct E2 as (u2 & a2 & Hin2 & Hc2 & Hv2 & _).
    apply (rangeOrder_lookup order1 order1_perm) in Hin1.
    apply (rangeOrder_lookup order2 order2_perm) in Hin2.
    pose proof (Hone _ _ _ _ Hin1 Hin2 Hc1 Hc2) as Heq. subst u2.
    rewrite Hin1 in Hin2. inversion Hin2; subst. reflexivity.
  - exfalso. apply rangeUnits_Some in E1.
    destruct E1 as (u1 & a1 & Hin1 & Hc1 & Hv1 & Hz).
    rewrite rangeUnits_None in E2.
    apply (rangeOrder_lookup order1 order1_perm) in Hin1.
    apply (rangeOrder_lookup order2 order2_perm) in Hin1.
    rewrite <- Hv1, (E2 u1 a1 Hin1 Hc1) in Hz. discriminate.
  - exfalso. apply rangeUnits_Some in E2.
    destruct E2 as (u2 & a2 & Hin2 & Hc2 & Hv2 & Hz).
    rewrite rangeUnits_None in E1.
    apply (rangeOrder_lookup order2 order2_perm) in Hin2.
    apply (rangeOrder_lookup order1 order1_perm) in Hin2.
    rewrite <- Hv2, (E1 u2 a2 Hin2 Hc2) in Hz. discriminate.
Qed.

Lemma tryTags_one_usd (usGaap : gmap string Value) (tagNames : list string)
    (reportDate : string) :
  (forall tagName, tagName ∈ tagNames -> oneUsdUnit usGaap tagName) ->
  tryTags ParseFloat order1 usGaap tagNames reportDate
  = tryTags ParseFloat order2 usGaap tagNames reportDate.
Proof.
  induction tagNames as [|t rest IH]; intros Hone; simpl; [reflexivity|].
  assert (Ht : tryTag ParseFloat order1 usGaap t reportDate
               = tryTag ParseFloat order2 usGaap t reportDate).
  { unfold tryTag.
    destruct (usGaap !! t) as [[| | | | | |concept]|] eqn:Hc; try reflexivity.
    destruct (concept !! "units") as [[| | | | | |units]|] eqn:Hu; try reflexivity.
    apply rangeUnits_one_usd. intros k1 k2 x1 x2.
    apply (Hone t ltac:(left) concept units k1 k2 x1 x2 Hc Hu). }
  rewrite Ht, IH; [reflexivity|]. intros t' Hin. apply Hone. right. exact Hin.
Qed.


End TwoOrders.

Section SkippedTags.

Local Open Scope list_scope.

Variable ParseFloat : string -> option float.
Variable rangeOrder : gmap string Value -> list (string * Value).
Hypothesis rangeOrder_perm : forall m, rangeOrder m ≡ₚ map_to_list m.

Lemma tryTags_app (usGaap : gmap string Value) (pre rest : list string) (reportDate : string) :
  tryTags ParseFloat rangeOrder usGaap (pre ++ rest) reportDate
  = match tryTags ParseFloat rangeOrder usGaap pre reportDate with
    | Some value => Some value
    | None => tryTags ParseFloat rangeOrder usGaap rest reportDate
    end.
Proof.
  induction pre as [|t pre IH]; simpl; [reflexivity|].
  destruct (tryTag ParseFloat rangeOrder usGaap t reportDate); [reflexivity | exact IH].
Qed.

(** A candidate tag that yields no usable value (it is not in the
    taxonomy, its entry has no "units" object, no unit name contains
    "usd", or every such series selects zero) can be dropped from the list
    without changing the value written or whether an error is returned. *)
Theorem extractMetric_skips_unusable_tag :
  forall (usGaap : gmap string Value) (pre post : list string) (tagName : string)
         (result : float) (reportDate : string),
    (forall value, ~ usableIn ParseFloat usGaap reportDate tagName value) ->
    fst (extractMetric ParseFloat rangeOrder usGaap (pre ++ tagName :: post) result reportDate)
    = fst (extractMetric ParseFloat rangeOrder usGaap (pre ++ post) result reportDate)
    /\ (is_Some (snd (extractMetric ParseFloat rangeOrder usGaap (pre ++ tagName :: post)
                        result reportDate))
        <-> is_Some (snd (extractMetric ParseFloat rangeOrder usGaap (pre ++ post)
                            result reportDate))).
Proof.
  intros usGaap pre post tagName result reportDate Hun.
  apply (tryTag_None ParseFloat rangeOrder rangeOrder_perm) in Hun.
  unfold extractMetric. rewrite !tryTags_app. simpl. rewrite Hun.
  destruct (tryTags ParseFloat rangeOrder usGaap pre reportDate);
    [|destruct (tryTags ParseFloat rangeOrder usGaap post reportDate)]; simpl;
    (split; [reflexivity|]); split; intros [e He]; try discriminate; eauto.
Qed.

(** Ways of yielding nothing that can be read off the taxonomy. *)
Lemma absent_tag_unusable (usGaap : gmap string Value) (tagName reportDate : string)
    (value : float) :
  usGaap !! tagName = None -> ~ usableIn ParseFloat usGaap reportDate tagName value.
Proof. intros Hnone (c & u & k & a & Hc & _). congruence. Qed.

End SkippedTags.

(** ** Outcomes of the parses *)

Lemma usGaap_cases (facts : CompanyFacts.t) :
  (CompanyFacts.Facts facts = None /\ ~ hasUsGaap facts)
  \/ (exists factsMap,
         CompanyFacts.Facts facts = Some factsMap
         /\ (forall usGaap, factsMap !! "us-gaap" <> Some (VMap usGaap))
         /\ ~ hasUsGaap facts)
  \/ (exists factsMap usGaap,
         CompanyFacts.Facts facts = Some factsMap
         /\ factsMap !! "us-gaap" = Some (VMap usGaap)).
Proof.
  destruct (CompanyFacts.Facts facts) as [factsMap|] eqn:Hf.
  - destruct (factsMap !! "us-gaap") as [[| | | | | |usGaap]|] eqn:Hu;
      try (right; left; exists factsMap;
           split; [reflexivity|];
           split; [intros g; congruence | intros (fm & g & Hfm & Hg); congruence]).
    right. right. exists factsMap, usGaap. auto.
  - left. split; [reflexivity|]. intros (fm & g & Hfm & _). congruence.
Qed.

Section ParseOutcomes.

Variable ParseFloat : string -> option float.
Variable Sprintf_f0 : float -> string.
Variable Sprintf_v : Value -> string.
Variable rangeOrder : gmap string Value -> list (string * Value).

(** What [extractCashFlowData] leaves alone. *)
Lemma extractCashFlowData_shape (facts : CompanyFacts.t) (factsMap usGaap : gmap string Value)
    (metrics : CashFlowMetrics.t) (reportDate : string) :
  CompanyFacts.Facts facts = Some factsMap ->
  factsMap !! "us-gaap" = Some (VMap usGaap) ->
  exists operating capex log,
    extractCashFlowData ParseFloat rangeOrder facts metrics reportDate
    = (CashFlowMetrics.setCapitalExpenditures capex
         (CashFlowMetrics.setNetCashFromOperatingActivities operating metrics), log, None).
Proof.
  intros Hf Hu. unfold extractCashFlowData. rewrite Hf, Hu.
  destruct (extractMetric ParseFloat rangeOrder usGaap operatingCashFlowTags _ reportDate)
    as [v1 e1].
  destruct (extractMetric ParseFloat rangeOrder usGaap capitalExpendituresTags _ reportDate)
    as [v2 e2].
  eexists _, _, _. reflexivity.
Qed.

Lemma extractEBITDAData_shape (facts : CompanyFacts.t) (factsMap usGaap : gmap string Value)
    (metrics : EBITDAMetrics.t) (reportDate : string) :
  CompanyFacts.Facts facts = Some factsMap ->
  factsMap !! "us-gaap" = Some (VMap usGaap) ->
  exists revenue netIncome interest tax da log,
    extractEBITDAData ParseFloat rangeOrder facts metrics reportDate
    = (EBITDAMetrics.setDepreciationAndAmortization da
         (EBITDAMetrics.setIncomeTaxExpense tax
            (EBITDAMetrics.setInterestExpense interest
               (EBITDAMetrics.setNetIncome netIncome
                  (EBITDAMetrics.setRevenue revenue metrics)))), log, None).
Proof.
  intros Hf Hu. unfold extractEBITDAData. rewrite Hf, Hu.
  destruct (extractMetric ParseFloat rangeOrder usGaap revenueTags _ reportDate) as [v1 e1].
  destruct (extractMetric ParseFloat rangeOrder usGaap netIncomeTags _ reportDate) as [v2 e2].
  destruct (extractMetric ParseFloat rangeOrder usGaap interestExpenseTags _ reportDate)
    as [v3 e3].
  destruct (extractMetric ParseFloat rangeOrder usGaap incomeTaxExpenseTags _ reportDate)
    as [v4 e4].
  destruct (extractMetric ParseFloat rangeOrder usGaap depreciationAndAmortizationTags _
              reportDate) as [v5 e5].
  destruct (extractMetric ParseFloat rangeOrder usGaap depreciationTags 0 reportDate)
    as [v6 e6].
  destruct (extractMetric ParseFloat rangeOrder usGaap amortizationTags 0 reportDate)
    as [v7 e7].
  destruct e5 as [e5|]; [destruct e6 as [e6|]; destruct e7 as [e7|]|];
    eexists _, _, _, _, _, _; reflexivity.
Qed.

Lemma ParseCashFlowMetricsFromFacts_Ok (facts : CompanyFacts.t)
    (factsMap usGaap : gmap string Value) (filing : Filing.t) :
  CompanyFacts.Facts facts = Some factsMap ->
  factsMap !! "us-gaap" = Some (VMap usGaap) ->
  exists operating capex log,
    ParseCashFlowMetricsFromFacts ParseFloat Sprintf_f0 Sprintf_v rangeOrder facts filing
    = (Ok (CashFlowMetrics.Build (CompanyFacts.Entity facts)
             (GetCIKString Sprintf_f0 Sprintf_v facts) (Filing.FilingDate filing)
             (Filing.ReportDate filing) operating capex (operating - capex)%float
             (Filing.Form filing) (Filing.AccessionNumber filing)), log).
Proof.
  intros Hf Hu. unfold ParseCashFlowMetricsFromFacts.
  match goal with
  | |- context [extractCashFlowData _ _ _ ?m0 ?d] =>
    destruct (extractCashFlowData_shape facts factsMap usGaap m0 d Hf Hu)
      as (v1 & v2 & log & ->)
  end.
  eexists _, _, _. reflexivity.
Qed.

Lemma ParseEBITDAMetricsFromFacts_Ok (facts : CompanyFacts.t)
    (factsMap usGaap : gmap string Value) (filing : Filing.t) :
  CompanyFacts.Facts facts = Some factsMap ->
  factsMap !! "us-gaap" = Some (VMap usGaap) ->
  exists revenue netIncome interest tax da margin log,
    ParseEBITDAMetricsFromFacts ParseFloat Sprintf_f0 Sprintf_v rangeOrder facts filing
    = (Ok (EBITDAMetrics.Build (CompanyFacts.Entity facts)
             (GetCIKString Sprintf_f0 Sprintf_v facts) (Filing.FilingDate filing)
             (Filing.ReportDate filing) (Filing.Form filing)
             (Filing.AccessionNumber filing) revenue netIncome interest tax da
             (netIncome + interest + tax + da)%float margin), log).
Proof.
  intros Hf Hu. unfold ParseEBITDAMetricsFromFacts.
  match goal with
  | |- context [extractEBITDAData _ _ _ ?m0 ?d] =>
    destruct (extractEBITDAData_shape facts factsMap usGaap m0 d Hf Hu)
      as (v1 & v2 & v3 & v4 & v5 & log & ->)
  end.
  cbv zeta.
  match goal with
  | |- context [if ?c then _ else _] => destruct c
  end; eexists _, _, _, _, _, _, _; reflexivity.
Qed.

Lemma Parse_without_facts (facts : CompanyFacts.t) (filing : Filing.t) :
  CompanyFacts.Facts facts = None ->
  ParseCashFlowMetricsFromFacts ParseFloat Sprintf_f0 Sprintf_v rangeOrder facts filing
  = (Err (ErrWrap "error extracting cash flow data" ErrFactsNil), [])
  /\ ParseEBITDAMetricsFromFacts ParseFloat Sprintf_f0 Sprintf_v rangeOrder facts filing
     = (Err (ErrWrap "error extracting EBITDA data" ErrFactsNil), []).
Proof.
  intros Hf. unfold ParseCashFlowMetricsFromFacts, ParseEBITDAMetricsFromFacts,
    extractCashFlowData, extractEBITDAData.
  rewrite Hf. split; reflexivity.
Qed.

Lemma Parse_without_us_gaap (facts : CompanyFacts.t) (factsMap : gmap string Value)
    (filing : Filing.t) :
  CompanyFacts.Facts facts = Some factsMap ->
  (forall usGaap, factsMap !! "us-gaap" <> Some (VMap usGaap)) ->
  ParseCashFlowMetricsFromFacts ParseFloat Sprintf_f0 Sprintf_v rangeOrder facts filing
  = (Err (ErrWrap "error extracting cash flow data" ErrUsGaapNotFound), [])
  /\ ParseEBITDAMetricsFromFacts ParseFloat Sprintf_f0 Sprintf_v rangeOrder facts filing
     = (Err (ErrWrap "error extracting EBITDA data" ErrUsGaapNotFound), []).
Proof.
  intros Hf Hu. unfold ParseCashFlowMetricsFromFacts, ParseEBITDAMetricsFromFacts,
    extractCashFlowData, extractEBITDAData.
  rewrite Hf.
  destruct (factsMap !! "us-gaap") as [[| | | | | |usGaap]|] eqn:Hl;
    try (split; reflexivity).
  destruct (Hu usGaap eq_refl).
Qed.

(** Either the facts lack the taxonomy and both parses fail with nothing
    logged, or they hold it and both parses succeed. *)
Lemma Parse_cases (facts : CompanyFacts.t) (filing : Filing.t) :
  (~ hasUsGaap facts
   /\ exists e,
        ParseCashFlowMetricsFromFacts ParseFloat Sprintf_f0 Sprintf_v rangeOrder facts filing
        = (Err (ErrWrap "error extracting cash flow data" e), [])
        /\ ParseEBITDAMetricsFromFacts ParseFloat Sprintf_f0 Sprintf_v rangeOrder facts filing
           = (Err (ErrWrap "error extracting EBITDA data" e), []))
  \/ (hasUsGaap facts
      /\ (exists m log,
             ParseCashFlowMetricsFromFacts ParseFloat Sprintf_f0 Sprintf_v rangeOrder
               facts filing = (Ok m, log))
      /\ (exists m log,
             ParseEBITDAMetricsFromFacts ParseFloat Sprintf_f0 Sprintf_v rangeOrder
               facts filing = (Ok m, log))).
Proof.
  destruct (usGaap_cases facts) as [[Hf Hno] | [(fm & Hf & Hu & Hno) | Hyes]].
  - left. split; [exact Hno|]. exists ErrFactsNil. apply Parse_without_facts, Hf.
  - left. split; [exact Hno|]. exists ErrUsGaapNotFound.
    apply (Parse_without_us_gaap facts fm filing Hf Hu).
  - right. split; [exact Hyes|]. destruct Hyes as (fm & g & Hf & Hu). split.
    + destruct (ParseCashFlowMetricsFromFacts_Ok facts fm g filing Hf Hu)
        as (v1 & v2 & log & ->). eauto.
    + destruct (ParseEBITDAMetricsFromFacts_Ok facts fm g filing Hf Hu)
        as (v1 & v2 & v3 & v4 & v5 & v6 & log & ->). eauto.
Qed.

(** On the records that non-nil [facts] and [filing] point to, both
    parses succeed exactly when the facts hold the us-gaap taxonomy as an
    object; otherwise they return the extraction error wrapped and log
    nothing. *)
Theorem parse_fails_only_without_us_gaap :
  forall (facts : CompanyFacts.t) (filing : Filing.t),
    let cashFlow :=
      ParseCashFlowMetricsFromFacts ParseFloat Sprintf_f0 Sprintf_v rangeOrder facts filing in
    let ebitda :=
      ParseEBITDAMetricsFromFacts ParseFloat Sprintf_f0 Sprintf_v rangeOrder facts filing in
    ((exists m, fst cashFlow = Ok m) <-> hasUsGaap facts)
    /\ ((exists m, fst ebitda = Ok m) <-> hasUsGaap facts)
    /\ (CompanyFacts.Facts facts = None ->
        cashFlow = (Err (ErrWrap "error extracting cash flow data" ErrFactsNil), [])
        /\ ebitda = (Err (ErrWrap "error extracting EBITDA data" ErrFactsNil), []))
    /\ (forall factsMap,
          CompanyFacts.Facts facts = Some factsMap ->
          (forall usGaap, factsMap !! "us-gaap" <> Some (VMap usGaap)) ->
          cashFlow = (Err (ErrWrap "error extracting cash flow data" ErrUsGaapNotFound), [])
          /\ ebitda = (Err (ErrWrap "error extracting EBITDA data" ErrUsGaapNotFound), [])).
Proof.
  intros facts filing cashFlow ebitda.
  pose proof (Parse_cases facts filing) as Hcases. fold cashFlow ebitda in Hcases.
  split; [|split; [|split; [apply Parse_without_facts
                           | intros fm; apply Parse_without_us_gaap]]].
  - destruct Hcases as [(Hno & e & Hc & He) | (Hyes & (m1 & l1 & H1) & _)].
    + split; [|intros H; destruct (Hno H)].
      intros [m Hm]. rewrite Hc in Hm. discriminate.
    + split; [auto|]. intros _. exists m1. rewrite H1. reflexivity.
  - destruct Hcases as [(Hno & e & Hc & He) | (Hyes & _ & (m2 & l2 & H2))].
    + split; [|intros H; destruct (Hno H)].
      intros [m Hm]. rewrite He in Hm. discriminate.
    + split; [auto|]. intros _. exists m2. rewrite H2. reflexivity.
Qed.


(** A successful parse carries the identity of the filing and of the
    company unchanged: the extraction writes the metric fields only. *)
Theorem parse_keeps_filing_identity :
  forall (facts : CompanyFacts.t) (filing : Filing.t),
    (forall m log,
        ParseCashFlowMetricsFromFacts ParseFloat Sprintf_f0 Sprintf_v rangeOrder facts filing
        = (Ok m, log) ->
        CashFlowMetrics.CompanyName m = CompanyFacts.Entity facts
        /\ CashFlowMetrics.CIK m = GetCIKString Sprintf_f0 Sprintf_v facts
        /\ CashFlowMetrics.FilingDate m = Filing.FilingDate filing
        /\ CashFlowMetrics.ReportDate m = Filing.ReportDate filing
        /\ CashFlowMetrics.Form m = Filing.Form filing
        /\ CashFlowMetrics.AccessionNumber m = Filing.AccessionNumber filing)
    /\ (forall m log,
          ParseEBITDAMetricsFromFacts ParseFloat Sprintf_f0 Sprintf_v rangeOrder facts filing
          = (Ok m, log) ->
          EBITDAMetrics.CompanyName m = CompanyFacts.Entity facts
          /\ EBITDAMetrics.CIK m = GetCIKString Sprintf_f0 Sprintf_v facts
          /\ EBITDAMetrics.FilingDate m = Filing.FilingDate filing
          /\ EBITDAMetrics.ReportDate m = Filing.ReportDate filing
          /\ EBITDAMetrics.Form m = Filing.Form filing
          /\ EBITDAMetrics.AccessionNumber m = Filing.AccessionNumber filing).
Proof.
  intros facts filing.
  destruct (usGaap_cases facts) as [[Hf _] | [(fm & Hf & Hu & _) | (fm & g & Hf & Hu)]].
  - destruct (Parse_without_facts facts filing Hf) as [-> ->].
    split; intros m log H; discriminate.
  - destruct (Parse_without_us_gaap facts fm filing Hf Hu) as [-> ->].
    split; intros m log H; discriminate.
  - destruct (ParseCashFlowMetricsFromFacts_Ok facts fm g filing Hf Hu)
      as (v1 & v2 & log1 & ->).
    destruct (ParseEBITDAMetricsFromFacts_Ok facts fm g filing Hf Hu)
      as (w1 & w2 & w3 & w4 & w5 & w6 & log2 & ->).
    split; intros m log H; inversion H; subst; simpl; repeat split; reflexivity.
Qed.

End ParseOutcomes.

(** A line of the log differs from the lines it is compared with by its
    text. *)
Ltac not_in_log H :=
  exfalso;
  repeat (apply elem_of_cons in H; destruct H as [H | H]; [discriminate H|]);
  inversion H.

Ltac in_list :=
  solve [repeat first [apply list_elem_of_here | apply list_elem_of_further]].

Section Fallback.

Local Open Scope list_scope.

Variable ParseFloat : string -> option float.
Variable Sprintf_f0 : float -> string.
Variable Sprintf_v : Value -> string.
Variable rangeOrder : gmap string Value -> list (string * Value).
Hypothesis rangeOrder_perm : forall m, rangeOrder m ≡ₚ map_to_list m.

Lemma extractMetric_cases (usGaap : gmap string Value) (tagNames : list string)
    (result : float) (reportDate : string) :
  (noUsable ParseFloat usGaap reportDate tagNames
   /\ extractMetric ParseFloat rangeOrder usGaap tagNames result reportDate
      = (result, Some (ErrMetricNotFound tagNames)))
  \/ (~ noUsable ParseFloat usGaap reportDate tagNames
      /\ exists value,
           extractMetric ParseFloat rangeOrder usGaap tagNames result reportDate
           = (value, None)).
Proof.
  unfold extractMetric.
  destruct (tryTags ParseFloat rangeOrder usGaap tagNames reportDate) as [v|] eqn:Ht.
  - right. split; [|eauto]. intros Hno.
    apply (tryTags_None ParseFloat rangeOrder rangeOrder_perm) in Hno. congruence.
  - left. split; [|reflexivity].
    apply (tryTags_None ParseFloat rangeOrder rangeOrder_perm), Ht.
Qed.

(** A warning about a metric is in the log of a successful cash-flow
    parse exactly when no candidate tag of the metric yields a usable
    value; nothing else is logged. *)
Theorem cash_flow_warnings_iff_missing :
  forall (facts : CompanyFacts.t) (factsMap usGaap : gmap string Value) (filing : Filing.t)
         (m : CashFlowMetrics.t) (log : list LogLine),
    CompanyFacts.Facts facts = Some factsMap ->
    factsMap !! "us-gaap" = Some (VMap usGaap) ->
    ParseCashFlowMetricsFromFacts ParseFloat Sprintf_f0 Sprintf_v rangeOrder facts filing
    = (Ok m, log) ->
    let missing := noUsable ParseFloat usGaap (Filing.ReportDate filing) in
    (missed "Could not extract operating cash flow" operatingCashFlowTags ∈ log
     <-> missing operatingCashFlowTags)
    /\ (missed "Could not extract capital expenditures" capitalExpendituresTags ∈ log
        <-> missing capitalExpendituresTags)
    /\ (forall line, line ∈ log ->
          line = missed "Could not extract operating cash flow" operatingCashFlowTags
          \/ line = missed "Could not extract capital expenditures" capitalExpendituresTags).
Proof.
  intros facts factsMap usGaap filing m log Hf Hu. 
  unfold ParseCashFlowMetricsFromFacts, extractCashFlowData. rewrite Hf, Hu.
  match goal with
  | |- context [extractMetric _ _ _ operatingCashFlowTags ?r ?d] =>
    destruct (extractMetric_cases usGaap operatingCashFlowTags r d)
      as [[H1 ->] | [H1 [v1 ->]]]
  end;
  match goal with
  | |- context [extractMetric _ _ _ capitalExpendituresTags ?r ?d] =>
    destruct (extractMetric_cases usGaap capitalExpendituresTags r d)
      as [[H2 ->] | [H2 [v2 ->]]]
  end;
  simpl; intros H; inversion H; subst; clear H; unfold missed;
  (split; [split; [intros Hin; first [exact H1 | not_in_log Hin]
                  | intros Hm; first [destruct (H1 Hm) | in_list]]|]);
  (split; [split; [intros Hin; first [exact H2 | not_in_log Hin]
                  | intros Hm; first [destruct (H2 Hm) | in_list]]|]);
  intros line Hin;
  repeat (apply elem_of_cons in Hin; destruct Hin as [-> | Hin]; [auto|]);
  inversion Hin.
Qed.


Ltac split_metric usGaap tags H v :=
  match goal with
  | |- context [extractMetric _ _ _ tags ?r ?d] =>
    destruct (extractMetric_cases usGaap tags r d) as [[H ->] | [H [v ->]]]
  end.

Ltac warned_iff H :=
  split; [intros Hin; first [exact H | not_in_log Hin]
         | intros Hm; first [destruct (H Hm) | in_list]].

(** The same for a successful EBITDA parse, which also logs a warning
    exactly when the revenue it found is zero. *)
Theorem ebitda_warnings_iff_missing :
  forall (facts : CompanyFacts.t) (factsMap usGaap : gmap string Value) (filing : Filing.t)
         (m : EBITDAMetrics.t) (log : list LogLine),
    CompanyFacts.Facts facts = Some factsMap ->
    factsMap !! "us-gaap" = Some (VMap usGaap) ->
    ParseEBITDAMetricsFromFacts ParseFloat Sprintf_f0 Sprintf_v rangeOrder facts filing
    = (Ok m, log) ->
    let missing := noUsable ParseFloat usGaap (Filing.ReportDate filing) in
    (missed "Could not extract revenue" revenueTags ∈ log <-> missing revenueTags)
    /\ (missed "Could not extract net income" netIncomeTags ∈ log <-> missing netIncomeTags)
    /\ (missed "Could not extract interest expense" interestExpenseTags ∈ log
        <-> missing interestExpenseTags)
    /\ (missed "Could not extract income tax expense" incomeTaxExpenseTags ∈ log
        <-> missing incomeTaxExpenseTags)
    /\ (missed "Could not extract depreciation and amortization"
          depreciationAndAmortizationTags ∈ log
        <-> missing depreciationAndAmortizationTags)
    /\ (Warning "Revenue is zero, cannot calculate EBITDA margin" None ∈ log
        <-> PrimFloat.eqb (EBITDAMetrics.Revenue m) 0 = true).
Proof.
  intros facts factsMap usGaap filing m log Hf Hu.
  unfold ParseEBITDAMetricsFromFacts, extractEBITDAData. rewrite Hf, Hu.
  split_metric usGaap revenueTags H1 v1;
  split_metric usGaap netIncomeTags H2 v2;
  split_metric usGaap interestExpenseTags H3 v3;
  split_metric usGaap incomeTaxExpenseTags H4 v4;
  split_metric usGaap depreciationAndAmortizationTags H5 v5;
  try (destruct (extractMetric ParseFloat rangeOrder usGaap depreciationTags 0 _)
         as [v6 [e6|]];
       destruct (extractMetric ParseFloat rangeOrder usGaap amortizationTags 0 _)
         as [v7 [e7|]]);
  cbv zeta;
  match goal with
  | |- context [PrimFloat.eqb ?x 0] => destruct (PrimFloat.eqb x 0) eqn:Hz
  end;
  simpl in Hz; try discriminate Hz;
  simpl; intros H; inversion H; subst; clear H; unfold missed; simpl; rewrite ?Hz;
  (split; [warned_iff H1|]); (split; [warned_iff H2|]); (split; [warned_iff H3|]);
  (split; [warned_iff H4|]); (split; [warned_iff H5|]);
  (split; [intros Hin; first [reflexivity | not_in_log Hin]
          | intros Hm; first [discriminate Hm | in_list]]).
Qed.


Lemma tag_of_missing_list (usGaap : gmap string Value) (reportDate tagName : string)
    (tagNames : list string) :
  noUsable ParseFloat usGaap reportDate tagNames ->
  tagName ∈ tagNames ->
  tryTag ParseFloat rangeOrder usGaap tagName reportDate = None.
Proof.
  intros Hno Hin. apply (tryTag_None ParseFloat rangeOrder rangeOrder_perm).
  intros v. apply Hno, Hin.
Qed.

(** When the combined depreciation-and-amortization tags yield nothing,
    the field is the sum, from zero, of what "DepreciationNonproduction"
    and "Amortization" yield: the tags "Depreciation" and
    "AmortizationOfIntangibleAssets" of the two lists tried next belong to
    the combined list too, so they cannot contribute. *)
Theorem depreciation_and_amortization_fallback :
  forall (facts : CompanyFacts.t) (factsMap usGaap : gmap string Value) (filing : Filing.t),
    CompanyFacts.Facts facts = Some factsMap ->
    factsMap !! "us-gaap" = Some (VMap usGaap) ->
    noUsable ParseFloat usGaap (Filing.ReportDate filing) depreciationAndAmortizationTags ->
    exists m log,
      ParseEBITDAMetricsFromFacts ParseFloat Sprintf_f0 Sprintf_v rangeOrder facts filing
      = (Ok m, log)
      /\ EBITDAMetrics.DepreciationAndAmortization m
         = match tryTag ParseFloat rangeOrder usGaap "DepreciationNonproduction"
                   (Filing.ReportDate filing),
                 tryTag ParseFloat rangeOrder usGaap "Amortization"
                   (Filing.ReportDate filing) with
           | Some depreciation, Some amortization =>
             (0 + depreciation + amortization)%float
           | Some depreciation, None => (0 + depreciation)%float
           | None, Some amortization => (0 + amortization)%float
           | None, None => 0%float
           end.
Proof.
  intros facts factsMap usGaap filing Hf Hu Hno.
  assert (Hdep : tryTag ParseFloat rangeOrder usGaap "Depreciation"
                   (Filing.ReportDate filing) = None).
  { apply (tag_of_missing_list _ _ _ _ Hno). unfold depreciationAndAmortizationTags.
    in_list. }
  assert (Ham : tryTag ParseFloat rangeOrder usGaap "AmortizationOfIntangibleAssets"
                  (Filing.ReportDate filing) = None).
  { apply (tag_of_missing_list _ _ _ _ Hno). unfold depreciationAndAmortizationTags.
    in_list. }
  unfold ParseEBITDAMetricsFromFacts, extractEBITDAData. rewrite Hf, Hu.
  destruct (extractMetric ParseFloat rangeOrder usGaap revenueTags _ _) as [v1 e1].
  destruct (extractMetric ParseFloat rangeOrder usGaap netIncomeTags _ _) as [v2 e2].
  destruct (extractMetric ParseFloat rangeOrder usGaap interestExpenseTags _ _) as [v3 e3].
  destruct (extractMetric ParseFloat rangeOrder usGaap incomeTaxExpenseTags _ _) as [v4 e4].
  rewrite (extractMetric_noUsable ParseFloat rangeOrder rangeOrder_perm _ _ _ _ Hno).
  unfold extractMetric at 1 2. unfold depreciationTags, amortizationTags. simpl tryTags.
  rewrite Hdep, Ham.
  destruct (tryTag ParseFloat rangeOrder usGaap "DepreciationNonproduction" _) as [d|];
    destruct (tryTag ParseFloat rangeOrder usGaap "Amortization" _) as [a|];
    cbv zeta;
    match goal with
    | |- context [if ?c then _ else _] => destruct c
    end;
    eexists _, _; (split; [reflexivity|]); reflexivity.
Qed.

(** A taxonomy in which no tag yields a usable value gives reports whose
    metrics are all zero, free cash flow, EBITDA and margin included, and
    no error. *)
Theorem empty_taxonomy_gives_zero_reports :
  forall (facts : CompanyFacts.t) (factsMap usGaap : gmap string Value) (filing : Filing.t),
    CompanyFacts.Facts facts = Some factsMap ->
    factsMap !! "us-gaap" = Some (VMap usGaap) ->
    (forall tagName value,
        ~ usableIn ParseFloat usGaap (Filing.ReportDate filing) tagName value) ->
    (exists m log,
        ParseCashFlowMetricsFromFacts ParseFloat Sprintf_f0 Sprintf_v rangeOrder facts filing
        = (Ok m, log)
        /\ CashFlowMetrics.NetCashFromOperatingActivities m = 0%float
        /\ CashFlowMetrics.CapitalExpenditures m = 0%float
        /\ CashFlowMetrics.FreeCashFlow m = 0%float)
    /\ (exists m log,
          ParseEBITDAMetricsFromFacts ParseFloat Sprintf_f0 Sprintf_v rangeOrder facts filing
          = (Ok m, log)
          /\ EBITDAMetrics.Revenue m = 0%float
          /\ EBITDAMetrics.NetIncome m = 0%float
          /\ EBITDAMetrics.InterestExpense m = 0%float
          /\ EBITDAMetrics.IncomeTaxExpense m = 0%float
          /\ EBITDAMetrics.DepreciationAndAmortization m = 0%float
          /\ EBITDAMetrics.EBITDA m = 0%float
          /\ EBITDAMetrics.EBITDAMargin m = 0%float).
Proof.
  intros facts factsMap usGaap filing Hf Hu Hnone.
  assert (Hno : forall tagNames,
             noUsable ParseFloat usGaap (Filing.ReportDate filing) tagNames).
  { intros tagNames t v _. apply Hnone. }
  split.
  - unfold ParseCashFlowMetricsFromFacts, extractCashFlowData. rewrite Hf, Hu.
    rewrite !(extractMetric_noUsable ParseFloat rangeOrder rangeOrder_perm _ _ _ _ (Hno _)).
    eexists _, _. split; [reflexivity|]. repeat split; reflexivity.
  - unfold ParseEBITDAMetricsFromFacts, extractEBITDAData. rewrite Hf, Hu.
    rewrite !(extractMetric_noUsable ParseFloat rangeOrder rangeOrder_perm _ _ _ _ (Hno _)).
    eexists _, _. split; [reflexivity|]. repeat split; reflexivity.
Qed.

End Fallback.

(** ** More on the filings *)

(** The [less] function given to [sort.Slice] is a strict weak order, as
    [sort.Slice] requires, and it leaves two filings unordered exactly when
    their filing dates are equal. *)
Theorem filing_date_order_is_strict_weak :
  strictWeakOrder byFilingDateDesc
  /\ forall a b : Filing.t,
       byFilingDateDesc a b = false /\ byFilingDateDesc b a = false
       <-> Filing.FilingDate a = Filing.FilingDate b.
Proof.
  split; [exact byFilingDateDesc_strictWeakOrder|].
  intros a b. unfold byFilingDateDesc. split.
  - intros [Hab Hba]. destruct (gtb_false_cases _ _ Hab) as [Heq | Hgt]; [exact Heq|].
    rewrite Hgt in Hba. discriminate.
  - intros ->. split; apply gtb_irrefl.
Qed.

(** Read [column recent k !! i] in a struct literal that evaluated to
    [Ok]: the index is in range. *)
Ltac read_column_ok recent i k H :=
  let v := fresh "v" in
  let Hk := fresh "Hk" in
  destruct (column recent k !! i) as [v|] eqn:Hk;
  [ rewrite (index_Ok _ _ _ Hk) in H; simpl in H
  | rewrite (index_Panic _ _ Hk) in H; discriminate H ].

Section Zip.

Local Open Scope nat_scope.
Local Open Scope list_scope.

Variable FormatFloat : float -> string.
Variable Sprintf_v : Value -> string.

Lemma filingAt_fields (recent : gmap string (list Value)) (i : nat) (f : Filing.t) :
  filingAt FormatFloat Sprintf_v recent i = Ok f ->
  let entry := fun key => toString FormatFloat Sprintf_v <$> column recent key !! i in
  entry "accessionNumber" = Some (Filing.AccessionNumber f)
  /\ entry "filingDate" = Some (Filing.FilingDate f)
  /\ entry "reportDate" = Some (Filing.ReportDate f)
  /\ entry "form" = Some (Filing.Form f)
  /\ entry "fileNumber" = Some (Filing.FileNumber f)
  /\ entry "filmNumber" = Some (Filing.FilmNumber f)
  /\ entry "items" = Some (Filing.Items f)
  /\ entry "size" = Some (Filing.Size f)
  /\ entry "isXBRL" = Some (Filing.IsXBRL f)
  /\ entry "isInlineXBRL" = Some (Filing.IsInlineXBRL f)
  /\ entry "primaryDocument" = Some (Filing.PrimaryDocument f)
  /\ entry "primaryDocDescription" = Some (Filing.PrimaryDocDesc f).
Proof.
  intros H. unfold filingAt in H.
  read_column_ok recent i "accessionNumber" H.
  read_column_ok recent i "filingDate" H.
  read_column_ok recent i "reportDate" H.
  read_column_ok recent i "form" H.
  read_column_ok recent i "fileNumber" H.
  read_column_ok recent i "filmNumber" H.
  read_column_ok recent i "items" H.
  read_column_ok recent i "size" H.
  read_column_ok recent i "isXBRL" H.
  read_column_ok recent i "isInlineXBRL" H.
  read_column_ok recent i "primaryDocument" H.
  read_column_ok recent i "primaryDocDescription" H.
  inversion H; subst. cbv zeta. simpl.
  repeat match goal with Hk : column recent _ !! i = Some _ |- _ => rewrite Hk; clear Hk end.
  repeat split; reflexivity.
Qed.

Lemma parseFilingsLoop_inv (recent : gmap string (list Value)) (steps i : nat)
    (filings result : list Filing.t) :
  parseFilingsLoop FormatFloat Sprintf_v recent i steps filings = Ok result ->
  exists more,
    result = filings ++ more
    /\ length more = steps
    /\ forall j f, more !! j = Some f -> filingAt FormatFloat Sprintf_v recent (i + j) = Ok f.
Proof.
  revert i filings. induction steps as [|steps IH]; intros i filings H; simpl in H.
  - inversion H; subst. exists []. rewrite app_nil_r. split; [reflexivity|].
    split; [reflexivity|]. intros j f Hj. inversion Hj.
  - destruct (filingAt FormatFloat Sprintf_v recent i) as [f0| |] eqn:Hf0;
      simpl in H; try discriminate H.
    destruct (IH _ _ H) as (more & -> & Hlen & Hat).
    exists (f0 :: more). rewrite <- app_assoc. split; [reflexivity|].
    split; [simpl; lia|].
    intros [|j] f Hj; simpl in Hj.
    + inversion Hj; subst. rewrite Nat.add_0_r. exact Hf0.
    + replace (i + S j) with (S i + j) by lia. apply Hat, Hj.
Qed.

(** [parseFilings] zips the parallel arrays: the filing at index [i] holds,
    field by field, the strings of the entries at index [i], and there are
    as many filings as accession numbers. *)
Theorem parseFilings_zips_columns :
  forall (recent : gmap string (list Value)) (filings : list Filing.t),
    parseFilings FormatFloat Sprintf_v recent = Ok filings ->
    length filings = length (column recent "accessionNumber")
    /\ forall i f,
         filings !! i = Some f ->
         let entry := fun key => toString FormatFloat Sprintf_v <$> column recent key !! i in
         entry "accessionNumber" = Some (Filing.AccessionNumber f)
         /\ entry "filingDate" = Some (Filing.FilingDate f)
         /\ entry "reportDate" = Some (Filing.ReportDate f)
         /\ entry "form" = Some (Filing.Form f)
         /\ entry "fileNumber" = Some (Filing.FileNumber f)
         /\ entry "filmNumber" = Some (Filing.FilmNumber f)
         /\ entry "items" = Some (Filing.Items f)
         /\ entry "size" = Some (Filing.Size f)
         /\ entry "isXBRL" = Some (Filing.IsXBRL f)
         /\ entry "isInlineXBRL" = Some (Filing.IsInlineXBRL f)
         /\ entry "primaryDocument" = Some (Filing.PrimaryDocument f)
         /\ entry "primaryDocDescription" = Some (Filing.PrimaryDocDesc f).
Proof.
  intros recent filings H. unfold parseFilings in H.
  destruct (Nat.eqb_spec (length (column recent "accessionNumber")) 0) as [H0 | Hpos].
  - inversion H; subst. split; [symmetry; exact H0|]. intros i f Hi. inversion Hi.
  - destruct (parseFilingsLoop_inv _ _ _ _ _ H) as (more & -> & Hlen & Hat).
    split; [exact Hlen|]. intros i f Hi. apply filingAt_fields.
    apply (Hat i f) in Hi. exact Hi.
Qed.

End Zip.

(** ** Quarterly analyses *)

Section Quarterly.

Local Open Scope nat_scope.
Local Open Scope list_scope.

Variable ParseFloat : string -> option float.
Variable FormatFloat : float -> string.
Variable Sprintf_f0 : float -> string.
Variable Sprintf_v : Value -> string.
Variable rangeOrder : gmap string Value -> list (string * Value).
Variable sort_Slice : (Filing.t -> Filing.t -> bool) -> list Filing.t -> list Filing.t.
Variable GetCompanyFacts : string -> outcome CompanyFacts.t.
Variable GetCompanySubmissions : string -> outcome (gmap string (list Value)).

Hypothesis sort_Slice_perm : forall less x, sort_Slice less x ≡ₚ x.

Lemma GetMostRecent4TenQs_length (cik : string) (filings : list Filing.t) :
  GetMostRecent4TenQs FormatFloat Sprintf_v sort_Slice GetCompanySubmissions cik = Ok filings ->
  1 <= length filings <= 4.
Proof.
  unfold GetMostRecent4TenQs.
  destruct (GetCompanySubmissions cik) as [recent| |]; try discriminate.
  destruct (parseFilings FormatFloat Sprintf_v recent) as [parsed| |]; simpl;
    try discriminate.
  destruct (Nat.eqb_spec (length (List.filter isTenQ parsed)) 0) as [|Hpos];
    [discriminate|].
  intros H. inversion H; subst. rewrite take_capped, length_take.
  rewrite (Permutation_length (sort_Slice_perm byFilingDateDesc (List.filter isTenQ parsed))).
  lia.
Qed.

Lemma cashFlowQuarters_all (facts : CompanyFacts.t) (filings : list Filing.t)
    (quarters : list CashFlowMetrics.t) (log : list LogLine) :
  hasUsGaap facts ->
  exists more log',
    cashFlowQuarters ParseFloat Sprintf_f0 Sprintf_v rangeOrder facts filings quarters log
    = (Ok (quarters ++ more), log')
    /\ Forall2 (fun filing q =>
                  exists parseLog,
                    ParseCashFlowMetricsFromFacts ParseFloat Sprintf_f0 Sprintf_v rangeOrder
                      facts filing = (Ok q, parseLog))
               filings more.
Proof.
  intros (fm & g & Hf & Hu). revert quarters log.
  induction filings as [|filing rest IH]; intros quarters log; simpl.
  - exists [], log. rewrite app_nil_r. split; [reflexivity | constructor].
  - destruct (ParseCashFlowMetricsFromFacts_Ok ParseFloat Sprintf_f0 Sprintf_v rangeOrder
                facts fm g filing Hf Hu) as (v1 & v2 & parseLog & Hparse).
    rewrite Hparse.
    destruct (IH (quarters ++ [CashFlowMetrics.Build (CompanyFacts.Entity facts)
                                 (GetCIKString Sprintf_f0 Sprintf_v facts)
                                 (Filing.FilingDate filing) (Filing.ReportDate filing)
                                 v1 v2 (v1 - v2)%float (Filing.Form filing)
                                 (Filing.AccessionNumber filing)])
                (log ++ parseLog)) as (more & log' & -> & Hall).
    eexists (_ :: more), log'. rewrite <- app_assoc. split; [reflexivity|].
    constructor; [eauto | exact Hall].
Qed.

Lemma cashFlowQuarters_none (facts : CompanyFacts.t) (filings : list Filing.t)
    (quarters : list CashFlowMetrics.t) (log : list LogLine) :
  ~ hasUsGaap facts ->
  exists warnings,
    cashFlowQuarters ParseFloat Sprintf_f0 Sprintf_v rangeOrder facts filings quarters log
    = (Ok quarters, log ++ warnings)
    /\ length warnings = length filings.
Proof.
  intros Hno. revert log.
  induction filings as [|filing rest IH]; intros log; simpl.
  - exists []. rewrite app_nil_r. split; reflexivity.
  - destruct (Parse_cases ParseFloat Sprintf_f0 Sprintf_v rangeOrder facts filing)
      as [(_ & e & Hc & _) | (Hyes & _)]; [|destruct (Hno Hyes)].
    rewrite Hc.
    match goal with
    | |- context [cashFlowQuarters _ _ _ _ _ _ _ ?l] => destruct (IH l) as (ws & -> & Hlen)
    end.
    eexists (_ :: ws). simpl. rewrite <- !app_assoc. simpl. split; [reflexivity|]. lia.
Qed.

(** The quarterly cash-flow analysis is all or nothing.  With the us-gaap
    taxonomy in the facts it holds one quarter for each selected filing, in
    the same order, between one and four of them, each with the filing's
    identity and with FreeCashFlow = operating cash flow - capital
    expenditures; without it the analysis fails, after one logged warning
    per filing. *)
Theorem quarterly_cash_flow_all_or_nothing :
  forall (cik : string) (filings : list Filing.t) (facts : CompanyFacts.t),
    GetMostRecent4TenQs FormatFloat Sprintf_v sort_Slice GetCompanySubmissions cik
    = Ok filings ->
    GetCompanyFacts cik = Ok facts ->
    let result :=
      GetQuarterlyCashFlowAnalysis ParseFloat FormatFloat Sprintf_f0 Sprintf_v rangeOrder
        sort_Slice GetCompanyFacts GetCompanySubmissions cik in
    (hasUsGaap facts ->
     exists analysis log,
       result = (Ok analysis, log)
       /\ QuarterlyCashFlowAnalysis.CompanyName analysis = CompanyFacts.Entity facts
       /\ QuarterlyCashFlowAnalysis.CIK analysis = GetCIKString Sprintf_f0 Sprintf_v facts
       /\ 1 <= length (QuarterlyCashFlowAnalysis.Quarters analysis) <= 4
       /\ Forall2 (fun filing q =>
                     CashFlowMetrics.AccessionNumber q = Filing.AccessionNumber filing
                     /\ CashFlowMetrics.FilingDate q = Filing.FilingDate filing
                     /\ CashFlowMetrics.ReportDate q = Filing.ReportDate filing
                     /\ CashFlowMetrics.FreeCashFlow q
                        = (CashFlowMetrics.NetCashFromOperatingActivities q
                           - CashFlowMetrics.CapitalExpenditures q)%float)
                  filings (QuarterlyCashFlowAnalysis.Quarters analysis))
    /\ (~ hasUsGaap facts ->
        exists log, result = (Err ErrNoQuarters, log) /\ length log = length filings).
Proof.
  intros cik filings facts Hfour Hfacts result.
  pose proof (GetMostRecent4TenQs_length cik filings Hfour) as Hlen.
  unfold result, GetQuarterlyCashFlowAnalysis. rewrite Hfour, Hfacts.
  split.
  - intros Hyes.
    destruct (cashFlowQuarters_all facts filings [] [] Hyes) as (more & log & -> & Hall).
    simpl app. pose proof (Forall2_length _ _ _ Hall) as Hsame.
    destruct (Nat.eqb_spec (length more) 0) as [H0 | Hpos]; [lia|].
    eexists _, log. split; [reflexivity|]. simpl.
    split; [reflexivity|]. split; [reflexivity|]. split; [lia|].
    eapply Forall2_impl; [exact Hall|].
    intros filing q [parseLog Hparse]. destruct Hyes as (fm & g & Hf & Hu).
    destruct (ParseCashFlowMetricsFromFacts_Ok ParseFloat Sprintf_f0 Sprintf_v rangeOrder
                facts fm g filing Hf Hu) as (v1 & v2 & l & Hshape).
    rewrite Hshape in Hparse. inversion Hparse; subst. simpl. auto.
  - intros Hno.
    destruct (cashFlowQuarters_none facts filings [] [] Hno) as (ws & -> & Hws).
    simpl. exists ws. split; [reflexivity | exact Hws].
Qed.


Lemma ebitdaQuarters_all (facts : CompanyFacts.t) (filings : list Filing.t)
    (quarters : list EBITDAMetrics.t) (log : list LogLine) :
  hasUsGaap facts ->
  exists more log',
    ebitdaQuarters ParseFloat Sprintf_f0 Sprintf_v rangeOrder facts filings quarters log
    = (Ok (quarters ++ more), log')
    /\ Forall2 (fun filing q =>
                  exists parseLog,
                    ParseEBITDAMetricsFromFacts ParseFloat Sprintf_f0 Sprintf_v rangeOrder
                      facts filing = (Ok q, parseLog))
               filings more.
Proof.
  intros (fm & g & Hf & Hu). revert quarters log.
  induction filings as [|filing rest IH]; intros quarters log; simpl.
  - exists [], log. rewrite app_nil_r. split; [reflexivity | constructor].
  - destruct (ParseEBITDAMetricsFromFacts_Ok ParseFloat Sprintf_f0 Sprintf_v rangeOrder
                facts fm g filing Hf Hu)
      as (v1 & v2 & v3 & v4 & v5 & v6 & parseLog & Hparse).
    rewrite Hparse.
    match goal with
    | |- context [ebitdaQuarters _ _ _ _ _ _ (_ ++ [?q]) ?l] =>
      destruct (IH (quarters ++ [q]) l) as (more & log' & -> & Hall)
    end.
    eexists (_ :: more), log'. rewrite <- app_assoc. split; [reflexivity|].
    constructor; [eauto | exact Hall].
Qed.

Lemma ebitdaQuarters_none (facts : CompanyFacts.t) (filings : list Filing.t)
    (quarters : list EBITDAMetrics.t) (log : list LogLine) :
  ~ hasUsGaap facts ->
  exists warnings,
    ebitdaQuarters ParseFloat Sprintf_f0 Sprintf_v rangeOrder facts filings quarters log
    = (Ok quarters, log ++ warnings)
    /\ length warnings = length filings.
Proof.
  intros Hno. revert log.
  induction filings as [|filing rest IH]; intros log; simpl.
  - exists []. rewrite app_nil_r. split; reflexivity.
  - destruct (Parse_cases ParseFloat Sprintf_f0 Sprintf_v rangeOrder facts filing)
      as [(_ & e & _ & He) | (Hyes & _)]; [|destruct (Hno Hyes)].
    rewrite He.
    match goal with
    | |- context [ebitdaQuarters _ _ _ _ _ _ _ ?l] => destruct (IH l) as (ws & -> & Hlen)
    end.
    eexists (_ :: ws). simpl. rewrite <- !app_assoc. simpl. split; [reflexivity|]. lia.
Qed.

(** The quarterly EBITDA analysis is all or nothing in the same way, each
    quarter having EBITDA = net income + interest + tax + depreciation and
    amortization. *)
Theorem quarterly_ebitda_all_or_nothing :
  forall (cik : string) (filings : list Filing.t) (facts : CompanyFacts.t),
    GetMostRecent4TenQs FormatFloat Sprintf_v sort_Slice GetCompanySubmissions cik
    = Ok filings ->
    GetCompanyFacts cik = Ok facts ->
    let result :=
      GetQuarterlyEBITDAAnalysis ParseFloat FormatFloat Sprintf_f0 Sprintf_v rangeOrder
        sort_Slice GetCompanyFacts GetCompanySubmissions cik in
    (hasUsGaap facts ->
     exists analysis log,
       result = (Ok analysis, log)
       /\ QuarterlyEBITDAAnalysis.CompanyName analysis = CompanyFacts.Entity facts
       /\ QuarterlyEBITDAAnalysis.CIK analysis = GetCIKString Sprintf_f0 Sprintf_v facts
       /\ 1 <= length (QuarterlyEBITDAAnalysis.Quarters analysis) <= 4
       /\ Forall2 (fun filing q =>
                     EBITDAMetrics.AccessionNumber q = Filing.AccessionNumber filing
                     /\ EBITDAMetrics.FilingDate q = Filing.FilingDate filing
                     /\ EBITDAMetrics.ReportDate q = Filing.ReportDate filing
                     /\ EBITDAMetrics.EBITDA q
                        = (EBITDAMetrics.NetIncome q + EBITDAMetrics.InterestExpense q
                           + EBITDAMetrics.IncomeTaxExpense q
                           + EBITDAMetrics.DepreciationAndAmortization q)%float)
                  filings (QuarterlyEBITDAAnalysis.Quarters analysis))
    /\ (~ hasUsGaap facts ->
        exists log, result = (Err ErrNoQuarters, log) /\ length log = length filings).
Proof.
  intros cik filings facts Hfour Hfacts result.
  pose proof (GetMostRecent4TenQs_length cik filings Hfour) as Hlen.
  unfold result, GetQuarterlyEBITDAAnalysis. rewrite Hfour, Hfacts.
  split.
  - intros Hyes.
    destruct (ebitdaQuarters_all facts filings [] [] Hyes) as (more & log & -> & Hall).
    simpl app. pose proof (Forall2_length _ _ _ Hall) as Hsame.
    destruct (Nat.eqb_spec (length more) 0) as [H0 | Hpos]; [lia|].
    eexists _, log. split; [reflexivity|]. simpl.
    split; [reflexivity|]. split; [reflexivity|]. split; [lia|].
    eapply Forall2_impl; [exact Hall|].
    intros filing q [parseLog Hparse]. destruct Hyes as (fm & g & Hf & Hu).
    destruct (ParseEBITDAMetricsFromFacts_Ok ParseFloat Sprintf_f0 Sprintf_v rangeOrder
                facts fm g filing Hf Hu) as (v1 & v2 & v3 & v4 & v5 & v6 & l & Hshape).
    rewrite Hshape in Hparse. inversion Hparse; subst. simpl. auto.
  - intros Hno.
    destruct (ebitdaQuarters_none facts filings [] [] Hno) as (ws & -> & Hws).
    simpl. exists ws. split; [reflexivity | exact Hws].
Qed.

End Quarterly.

(** * Examples *)

Lemma findValueForDate_prefers_exact_quarterly_witness :
  findValueForDate noParse repositoryTestSeries "2023-12-30" = 100%float.
Proof.
  destruct (findValueForDate_prefers_exact_quarterly noParse repositoryTestSeries
              "2023-12-30") as [(item & v & Hin & Ho & Hv) _].
  - exists (dataPoint "2023-12-30" "10-Q" (VFloat64 100)), 100%float.
    split; [left | vm_compute; reflexivity].
  - vm_compute. reflexivity.
Defined.

(** C2. The +25 is not given as stated, and the value returned depends on
    the order of the array.  Take a 10-Q quarter ending after the target
    date (value 100) and one ending before it (value 90).  With the later
    quarter first, the loop holds it with score 50; the earlier quarter is
    then the only, hence the latest, end date <= the target seen so far,
    and the stated rule gives it 50 + 25 = 75 and returns 90.  The loop
    tests its date against the date it holds, "2023-12-30", gives it 50,
    and returns 100.  With the earlier quarter first the loop returns 90.
    The stated rule returns 90 in both orders. *)
Theorem findValueForDate_depends_on_array_order :
  earlierQuarterFirst ≡ₚ laterQuarterFirst
  /\ omap (observation noParse) laterQuarterFirst
     = [("2023-12-30", "10-Q", 100%float); ("2023-03-31", "10-Q", 90%float)]
  /\ omap (observation noParse) earlierQuarterFirst
     = [("2023-03-31", "10-Q", 90%float); ("2023-12-30", "10-Q", 100%float)]
  /\ statedScore "2023-06-30" [("2023-12-30", "10-Q", 100%float)] "2023-03-31" "10-Q" = 75
  /\ scoreOf "2023-06-30" (bestDate (bestAfter noParse "2023-06-30" laterQuarterFirst 1))
       "2023-03-31" "10-Q" = 50
  /\ statedFindValue (omap (observation noParse) laterQuarterFirst) "2023-06-30" = 90%float
  /\ statedFindValue (omap (observation noParse) earlierQuarterFirst) "2023-06-30" = 90%float
  /\ findValueForDate noParse laterQuarterFirst "2023-06-30" = 100%float
  /\ findValueForDate noParse earlierQuarterFirst "2023-06-30" = 90%float.
Proof.
  split; [apply perm_swap|]. vm_compute. repeat split; reflexivity.
Qed.

Lemma findValueForDate_keeps_highest_score_witness :
  bonus (String.eqb "2023-03-31" "2023-06-30") 100
  + bonus (String.eqb "10-Q" "10-Q") 50
  + bonus (String.eqb "10-Q" "10-K") 10
  + bonus (String.leb "2023-03-31" "2023-06-30"
           && String.ltb (bestDate (bestAfter noParse "2023-06-30" laterQuarterFirst 1))
                "2023-03-31") 25
  < bestScore (bestAfter noParse "2023-06-30" laterQuarterFirst 2)
  \/ (bonus (String.eqb "2023-03-31" "2023-06-30") 100
      + bonus (String.eqb "10-Q" "10-Q") 50
      + bonus (String.eqb "10-Q" "10-K") 10
      + bonus (String.leb "2023-03-31" "2023-06-30"
               && String.ltb (bestDate (bestAfter noParse "2023-06-30" laterQuarterFirst 1))
                    "2023-03-31") 25
      = bestScore (bestAfter noParse "2023-06-30" laterQuarterFirst 2)
      /\ String.leb "2023-03-31"
           (bestDate (bestAfter noParse "2023-06-30" laterQuarterFirst 2)) = true).
Proof.
  apply (proj1 (proj2 (findValueForDate_keeps_highest_score noParse laterQuarterFirst
                         "2023-06-30"))
           1%nat (dataPoint "2023-03-31" "10-Q" (VFloat64 90)) "2023-03-31" "10-Q" 90%float).
  - reflexivity.
  - vm_compute. reflexivity.
Defined.

Lemma FreeCashFlow_is_operating_minus_capex_witness :
  exists m log,
    ParseCashFlowMetricsFromFacts noParse noFormat noSprintf map_to_list
      cashFlowFacts filingQ1 = (Ok m, log)
    /\ CashFlowMetrics.FreeCashFlow m = 380%float.
Proof.
  eexists _, _. split; [vm_compute; reflexivity|].
  rewrite (FreeCashFlow_is_operating_minus_capex noParse noFormat noSprintf map_to_list
             (fun _ => Err (ErrTransport "offline")) cashFlowFacts "0000320193" filingQ1 _ []).
  - vm_compute. reflexivity.
  - left. vm_compute. reflexivity.
Defined.

Lemma map_to_list_perm (m : gmap string Value) : map_to_list m ≡ₚ map_to_list m.
Proof. reflexivity. Defined.

Lemma reverseOrder_perm (m : gmap string Value) : reverseOrder m ≡ₚ map_to_list m.
Proof. apply reverse_Permutation. Qed.

(** C6. Two runs of [extractMetric] on the same taxonomy, tags and date
    need not return the same value: a [range] loop may visit the units of a
    concept in either order, and with two units whose names contain "usd"
    the first one visited wins. *)
Theorem extractMetric_depends_on_range_order :
  (forall m, reverseOrder m ≡ₚ map_to_list m)
  /\ extractMetric noParse map_to_list twoUsdUnits ["NetIncomeLoss"] 0%float "2023-12-30"
     = (2%float, None)
  /\ extractMetric noParse reverseOrder twoUsdUnits ["NetIncomeLoss"] 0%float "2023-12-30"
     = (1%float, None).
Proof.
  split; [exact reverseOrder_perm|]. split; vm_compute; reflexivity.
Qed.

Lemma extractMetric_not_found_differs_from_score :
  bestScore (bestAfter noParse "2023-12-30" afterTargetSeries 1) = 0
  /\ extractMetric noParse map_to_list (usGaapWith "Revenues" afterTargetSeries)
       ["Revenues"] 0%float "2023-12-30" = (5%float, None)
  /\ bestScore (bestAfter noParse "2023-12-30" zeroValueSeries 1) = 175
  /\ extractMetric noParse map_to_list (usGaapWith "Revenues" zeroValueSeries)
       ["Revenues"] 0%float "2023-12-30" = (0%float, Some (ErrMetricNotFound ["Revenues"])).
Proof. vm_compute. repeat split; reflexivity. Qed.

Lemma extractMetric_not_found_iff_witness :
  is_Some (snd (extractMetric noParse map_to_list (usGaapWith "Revenues" zeroValueSeries)
                  ["Revenues"] 0%float "2023-12-30"))
  /\ noUsable noParse (usGaapWith "Revenues" zeroValueSeries) "2023-12-30" ["Revenues"].
Proof.
  assert (H : is_Some (snd (extractMetric noParse map_to_list
                              (usGaapWith "Revenues" zeroValueSeries)
                              ["Revenues"] 0%float "2023-12-30"))).
  { vm_compute. eexists. reflexivity. }
  split; [exact H|].
  apply (proj1 (extractMetric_not_found_iff noParse map_to_list map_to_list_perm
                  (usGaapWith "Revenues" zeroValueSeries) ["Revenues"] 0%float
                  "2023-12-30")).
  exact H.
Defined.

Lemma extractMetric_later_tag_decides :
  zeroThenValue !! "Revenues" = Some (conceptOf [("USD", VSlice zeroValueSeries)])
  /\ extractMetric noParse map_to_list zeroThenValue ["Revenues"; "SalesRevenueNet"]
       0%float "2023-12-30" = (7%float, None)
  /\ extractMetric noParse map_to_list zeroThenValue ["Revenues"]
       0%float "2023-12-30" = (0%float, Some (ErrMetricNotFound ["Revenues"])).
Proof. vm_compute. repeat split; reflexivity. Qed.

Lemma extractMetric_first_usable_tag_witness :
  exists value,
    usableIn noParse zeroThenValue "2023-12-30" "SalesRevenueNet" value
    /\ forall post result,
         extractMetric noParse map_to_list zeroThenValue
           (["Revenues"] ++ "SalesRevenueNet" :: post) result "2023-12-30" = (value, None).
Proof.
  apply (extractMetric_first_usable_tag noParse map_to_list map_to_list_perm).
  - apply (tryTags_None noParse map_to_list map_to_list_perm). vm_compute. reflexivity.
  - exists 7%float.
    exists {[ "units" :=
               VMap (list_to_map
                       [("USD", VSlice [dataPoint "2023-12-30" "10-Q" (VFloat64 7)])]) ]},
           (list_to_map [("USD", VSlice [dataPoint "2023-12-30" "10-Q" (VFloat64 7)])]),
           "USD", [dataPoint "2023-12-30" "10-Q" (VFloat64 7)].
    vm_compute. repeat split; reflexivity.
Defined.

Lemma missing_facts_are_tolerated_witness :
  exists m log,
    ParseCashFlowMetricsFromFacts noParse noFormat noSprintf map_to_list
      operatingOnlyFacts filingQ1 = (Ok m, log)
    /\ CashFlowMetrics.CapitalExpenditures m = 0%float
    /\ missed "Could not extract capital expenditures" capitalExpendituresTags ∈ log.
Proof.
  destruct (missing_facts_are_tolerated noParse noFormat noSprintf map_to_list
              map_to_list_perm operatingOnlyFacts
              {[ "us-gaap" :=
                   VMap (usGaapWith "NetCashProvidedByUsedInOperatingActivities"
                           [dataPoint "2023-12-30" "10-Q" (VFloat64 500)]) ]}
              (usGaapWith "NetCashProvidedByUsedInOperatingActivities"
                 [dataPoint "2023-12-30" "10-Q" (VFloat64 500)])
              filingQ1)
    as (_ & _ & (m & log & Hparse & _ & Hcapex) & _).
  - reflexivity.
  - vm_compute. reflexivity.
  - exists m, log. split; [exact Hparse|]. apply Hcapex.
    apply (tryTags_None noParse map_to_list map_to_list_perm). vm_compute. reflexivity.
Defined.

Lemma EBITDA_and_margin_witness :
  exists m log,
    ParseEBITDAMetricsFromFacts noParse noFormat noSprintf map_to_list
      (factsOf ebitdaUsGaap) filingQ1 = (Ok m, log)
    /\ EBITDAMetrics.EBITDA m = 31%float
    /\ EBITDAMetrics.EBITDAMargin m = 15.5%float.
Proof.
  eexists _, _. split; [vm_compute; reflexivity|].
  match goal with
  | |- EBITDAMetrics.EBITDA ?m = _ /\ _ =>
    destruct (EBITDA_and_margin noParse noFormat noSprintf map_to_list
                (factsOf ebitdaUsGaap) filingQ1 m []) as (Hsum & Hmargin & _)
  end.
  - vm_compute. reflexivity.
  - split.
    + rewrite Hsum. vm_compute. reflexivity.
    + rewrite Hmargin; vm_compute; reflexivity.
Defined.

Lemma parseFilings_total_iff_witness :
  exists filings,
    parseFilings noFormat noSprintf recentExample = Ok filings
    /\ length filings = 3%nat.
Proof.
  destruct (parseFilings_total_iff noFormat noSprintf recentExample) as (_ & Hok & _).
  destruct Hok as (filings & Hparse & Hlen & _).
  - intros key Hin. unfold parallelColumns in Hin.
    repeat (apply elem_of_cons in Hin; destruct Hin as [-> | Hin];
            [vm_compute; lia|]).
    inversion Hin.
  - exists filings. split; [exact Hparse | exact Hlen].
Defined.

Lemma most_recent_TenQ_selection_witness :
  exists first,
    GetMostRecent10Q noFormat noSprintf mergeSortSlice (fun _ => Ok recentExample)
      "0000320193" = Ok first
    /\ Filing.FilingDate first = "2024-02-01".
Proof.
  assert (Hparse : parseFilings noFormat noSprintf recentExample
                   = Ok (match parseFilings noFormat noSprintf recentExample with
                         | Ok filings => filings
                         | _ => []
                         end)) by (vm_compute; reflexivity).
  pose proof (most_recent_TenQ_selection noFormat noSprintf mergeSortSlice
                (fun _ => Ok recentExample) mergeSortSlice_perm mergeSortSlice_sorted
                "0000320193" recentExample _ eq_refl Hparse) as H.
  cbv zeta in H. destruct H as [_ Hsome].
  destruct Hsome as (sorted & _ & _ & _ & (first & Hone & _) & _).
  - eexists. split; [vm_compute; left | vm_compute; reflexivity].
  - exists first. split; [exact Hone|].
    vm_compute in Hone. inversion Hone. reflexivity.
Defined.

(** ** Examples of the further properties *)

Lemma findValueForDate_skips_non_observations_witness :
  findValueForDate noParse
    ([dataPoint "2023-09-30" "10-Q" (VFloat64 90)] ++ VString "n/a"
     :: [dataPoint "2023-12-30" "10-K" (VFloat64 110)])%list "2023-12-30"
  = findValueForDate noParse
      ([dataPoint "2023-09-30" "10-Q" (VFloat64 90)]
       ++ [dataPoint "2023-12-30" "10-K" (VFloat64 110)])%list "2023-12-30".
Proof.
  apply (proj1 (findValueForDate_skips_non_observations noParse)). reflexivity.
Defined.

Lemma findValueForDate_prefers_exact_date_witness :
  exists item form val,
    item ∈ exactAnnualSeries
    /\ observation noParse item = Some ("2023-12-30", form, val)
    /\ findValueForDate noParse exactAnnualSeries "2023-12-30" = val.
Proof.
  apply (findValueForDate_prefers_exact_date noParse exactAnnualSeries "2023-12-30").
  exists (dataPoint "2023-12-30" "10-K" (VFloat64 110)), "10-K", 110%float.
  split; [unfold exactAnnualSeries; in_list | vm_compute; reflexivity].
Defined.

(** Each of the observations of a concrete series, one case per item. *)
Ltac each_observation Hin Ho :=
  repeat (apply elem_of_cons in Hin; destruct Hin as [-> | Hin];
          [vm_compute in Ho; inversion Ho; subst|]);
  [..|inversion Hin].

Lemma findValueForDate_prefers_quarterly_form_witness :
  exists item date val,
    item ∈ noExactSeries
    /\ observation noParse item = Some (date, "10-Q", val)
    /\ findValueForDate noParse noExactSeries "2023-12-30" = val.
Proof.
  apply (findValueForDate_prefers_quarterly_form noParse noExactSeries "2023-12-30").
  - intros item date form val Hin Ho. unfold noExactSeries in Hin.
    each_observation Hin Ho; discriminate.
  - exists (dataPoint "2023-06-30" "10-Q" (VFloat64 70)), "2023-06-30", 70%float.
    split; [unfold noExactSeries; in_list | vm_compute; reflexivity].
Defined.

Lemma findValueForDate_latest_earlier_quarter_witness :
  exists item date val,
    item ∈ earlierQuartersSeries
    /\ observation noParse item = Some (date, "10-Q", val)
    /\ findValueForDate noParse earlierQuartersSeries "2023-12-30" = val
    /\ forall item' date' form' val',
         item' ∈ earlierQuartersSeries ->
         observation noParse item' = Some (date', form', val') ->
         String.leb date' date = true.
Proof.
  apply (findValueForDate_latest_earlier_quarter noParse earlierQuartersSeries "2023-12-30").
  - intros item date form val Hin Ho. unfold earlierQuartersSeries in Hin.
    each_observation Hin Ho; split; reflexivity.
  - exists (dataPoint "2023-03-31" "10-Q" (VFloat64 1)).
    split; [unfold earlierQuartersSeries; in_list | vm_compute; eexists; reflexivity].
Defined.

Lemma kept_score_never_decreases_witness :
  notAbove (bestScore (bestAfter noParse "2023-06-30" repositoryTestSeries 1))
           (bestDate (bestAfter noParse "2023-06-30" repositoryTestSeries 1))
           (bestAfter noParse "2023-06-30" repositoryTestSeries 3)
  /\ 0 <= bestScore (bestAfter noParse "2023-06-30" repositoryTestSeries 3) <= 175.
Proof.
  apply (kept_score_never_decreases noParse repositoryTestSeries "2023-06-30" 1 3). lia.
Defined.

Lemma extractMetric_outcome_any_order_witness :
  snd (extractMetric noParse map_to_list twoUsdUnits ["NetIncomeLoss"] 0%float "2023-12-30")
  = snd (extractMetric noParse reverseOrder twoUsdUnits ["NetIncomeLoss"] 0%float
           "2023-12-30").
Proof.
  apply (extractMetric_outcome_any_order noParse map_to_list reverseOrder
           map_to_list_perm reverseOrder_perm).
Defined.

Lemma usGaapWith_oneUsdUnit (tagName : string) (series : list Value) (t : string) :
  oneUsdUnit (usGaapWith tagName series) t.
Proof.
  intros concept units k1 k2 x1 x2 Hc Hu H1 H2 _ _.
  unfold usGaapWith in Hc. apply lookup_singleton_Some in Hc. destruct Hc as [_ Hc].
  unfold conceptOf in Hc. inversion Hc; subst concept.
  apply lookup_singleton_Some in Hu. destruct Hu as [_ Hu]. inversion Hu; subst units.
  simpl in H1, H2.
  apply lookup_insert_Some in H1. apply lookup_insert_Some in H2.
  destruct H1 as [[<- _] | [_ H1]]; [|rewrite lookup_empty in H1; discriminate].
  destruct H2 as [[<- _] | [_ H2]]; [|rewrite lookup_empty in H2; discriminate].
  reflexivity.
Qed.


Lemma extractMetric_skips_unusable_tag_witness :
  fst (extractMetric noParse map_to_list zeroThenValue
         ([] ++ "Revenues" :: ["SalesRevenueNet"])%list 0%float "2023-12-30")
  = fst (extractMetric noParse map_to_list zeroThenValue
           ([] ++ ["SalesRevenueNet"])%list 0%float "2023-12-30").
Proof.
  apply (extractMetric_skips_unusable_tag noParse map_to_list map_to_list_perm).
  apply (tryTag_None noParse map_to_list map_to_list_perm). vm_compute. reflexivity.
Defined.

Lemma cashFlowFacts_hasUsGaap : hasUsGaap cashFlowFacts.
Proof. eexists _, _. split; [reflexivity | apply lookup_singleton_eq]. Qed.

Lemma parse_fails_only_without_us_gaap_witness :
  exists m,
    fst (ParseCashFlowMetricsFromFacts noParse noFormat noSprintf map_to_list
           cashFlowFacts filingQ1) = Ok m.
Proof.
  apply (proj1 (parse_fails_only_without_us_gaap noParse noFormat noSprintf map_to_list
                  cashFlowFacts filingQ1)).
  exact cashFlowFacts_hasUsGaap.
Defined.


Lemma parse_keeps_filing_identity_witness :
  exists m log,
    ParseCashFlowMetricsFromFacts noParse noFormat noSprintf map_to_list
      cashFlowFacts filingQ1 = (Ok m, log)
    /\ CashFlowMetrics.AccessionNumber m = "0000320193-24-000007".
Proof.
  eexists _, _. split; [vm_compute; reflexivity|].
  eapply (proj1 (parse_keeps_filing_identity noParse noFormat noSprintf map_to_list
                   cashFlowFacts filingQ1)).
  vm_compute. reflexivity.
Defined.
Lemma cash_flow_warnings_iff_missing_witness :
  exists m log,
    ParseCashFlowMetricsFromFacts noParse noFormat noSprintf map_to_list
      operatingOnlyFacts filingQ1 = (Ok m, log)
    /\ (missed "Could not extract capital expenditures" capitalExpendituresTags ∈ log
        <-> noUsable noParse
              (usGaapWith "NetCashProvidedByUsedInOperatingActivities"
                 [dataPoint "2023-12-30" "10-Q" (VFloat64 500)])
              (Filing.ReportDate filingQ1) capitalExpendituresTags).
Proof.
  eexists _, _. split; [vm_compute; reflexivity|].
  eapply (cash_flow_warnings_iff_missing noParse noFormat noSprintf map_to_list
            map_to_list_perm operatingOnlyFacts).
  - reflexivity.
  - apply lookup_singleton_eq.
  - vm_compute. reflexivity.
Defined.

Lemma ebitda_warnings_iff_missing_witness :
  exists m log,
    ParseEBITDAMetricsFromFacts noParse noFormat noSprintf map_to_list
      (factsOf ebitdaUsGaap) filingQ1 = (Ok m, log)
    /\ (Warning "Revenue is zero, cannot calculate EBITDA margin" None ∈ log
        <-> PrimFloat.eqb (EBITDAMetrics.Revenue m) 0 = true).
Proof.
  destruct (ParseEBITDAMetricsFromFacts noParse noFormat noSprintf map_to_list
              (factsOf ebitdaUsGaap) filingQ1) as [[m|e|] log] eqn:Hparse;
    [|vm_compute in Hparse; discriminate Hparse..].
  exists m, log. split; [reflexivity|].
  destruct (ebitda_warnings_iff_missing noParse noFormat noSprintf map_to_list
              map_to_list_perm (factsOf ebitdaUsGaap) {[ "us-gaap" := VMap ebitdaUsGaap ]}
              ebitdaUsGaap filingQ1 m log eq_refl (lookup_singleton_eq _ _) Hparse)
    as (_ & _ & _ & _ & _ & Hzero).
  exact Hzero.
Defined.

Lemma depreciation_and_amortization_fallback_witness :
  exists m log,
    ParseEBITDAMetricsFromFacts noParse noFormat noSprintf map_to_list
      (factsOf fallbackUsGaap) filingQ1 = (Ok m, log)
    /\ EBITDAMetrics.DepreciationAndAmortization m = 5%float.
Proof.
  destruct (depreciation_and_amortization_fallback noParse noFormat noSprintf map_to_list
              map_to_list_perm (factsOf fallbackUsGaap)
              {[ "us-gaap" := VMap fallbackUsGaap ]} fallbackUsGaap filingQ1)
    as (m & log & Hparse & Hda).
  - reflexivity.
  - apply lookup_singleton_eq.
  - apply (tryTags_None noParse map_to_list map_to_list_perm). vm_compute. reflexivity.
  - exists m, log. split; [exact Hparse|]. rewrite Hda. vm_compute. reflexivity.
Defined.

Lemma empty_taxonomy_gives_zero_reports_witness :
  exists m log,
    ParseEBITDAMetricsFromFacts noParse noFormat noSprintf map_to_list
      (factsOf ∅) filingQ1 = (Ok m, log)
    /\ EBITDAMetrics.EBITDA m = 0%float
    /\ EBITDAMetrics.EBITDAMargin m = 0%float.
Proof.
  destruct (empty_taxonomy_gives_zero_reports noParse noFormat noSprintf map_to_list
              map_to_list_perm (factsOf ∅) {[ "us-gaap" := VMap ∅ ]} ∅ filingQ1)
    as (_ & m & log & Hparse & _ & _ & _ & _ & _ & He & Hm).
  - reflexivity.
  - apply lookup_singleton_eq.
  - intros tagName value (concept & units & k & a & Hc & _).
    rewrite lookup_empty in Hc. discriminate.
  - exists m, log. auto.
Defined.

Lemma parseFilings_zips_columns_witness :
  exists filings f,
    parseFilings noFormat noSprintf recentExample = Ok filings
    /\ filings !! 1%nat = Some f
    /\ toString noFormat noSprintf <$> column recentExample "filingDate" !! 1%nat
       = Some (Filing.FilingDate f).
Proof.
  destruct (parseFilings noFormat noSprintf recentExample) as [filings|e|] eqn:Hparse;
    [|vm_compute in Hparse; discriminate Hparse..].
  destruct (parseFilings_zips_columns noFormat noSprintf recentExample filings Hparse)
    as [Hlen Hat].
  destruct (lookup_lt_is_Some_2 filings 1) as [f Hf].
  { rewrite Hlen. vm_compute. lia. }
  exists filings, f. split; [reflexivity|]. split; [exact Hf|].
  destruct (Hat 1%nat f Hf) as (_ & Hdate & _). exact Hdate.
Defined.

Lemma recentExample_four :
  GetMostRecent4TenQs noFormat noSprintf mergeSortSlice (fun _ => Ok recentExample)
    "0000320193"
  = Ok (match GetMostRecent4TenQs noFormat noSprintf mergeSortSlice
                (fun _ => Ok recentExample) "0000320193" with
        | Ok filings => filings
        | _ => []
        end).
Proof. vm_compute. reflexivity. Qed.

Lemma quarterly_cash_flow_all_or_nothing_witness :
  exists analysis log,
    GetQuarterlyCashFlowAnalysis noParse noFormat noFormat noSprintf map_to_list
      mergeSortSlice (fun _ => Ok cashFlowFacts) (fun _ => Ok recentExample) "0000320193"
    = (Ok analysis, log)
    /\ (1 <= length (QuarterlyCashFlowAnalysis.Quarters analysis) <= 4)%nat.
Proof.
  destruct (quarterly_cash_flow_all_or_nothing noParse noFormat noFormat noSprintf
              map_to_list mergeSortSlice (fun _ => Ok cashFlowFacts)
              (fun _ => Ok recentExample) mergeSortSlice_perm "0000320193" _ cashFlowFacts
              recentExample_four eq_refl) as [Hall _].
  destruct (Hall cashFlowFacts_hasUsGaap) as (analysis & log & Hres & _ & _ & Hlen & _).
  exists analysis, log. split; [exact Hres | exact Hlen].
Defined.

Lemma quarterly_ebitda_all_or_nothing_witness :
  exists log,
    GetQuarterlyEBITDAAnalysis noParse noFormat noFormat noSprintf map_to_list
      mergeSortSlice (fun _ => Ok (CompanyFacts.Build (VInt 320193) "Apple Inc." None))
      (fun _ => Ok recentExample) "0000320193"
    = (Err ErrNoQuarters, log)
    /\ length log = 2%nat.
Proof.
  destruct (quarterly_ebitda_all_or_nothing noParse noFormat noFormat noSprintf
              map_to_list mergeSortSlice
              (fun _ => Ok (CompanyFacts.Build (VInt 320193) "Apple Inc." None))
              (fun _ => Ok recentExample) mergeSortSlice_perm "0000320193" _
              (CompanyFacts.Build (VInt 320193) "Apple Inc." None)
              recentExample_four eq_refl) as [_ Hnone].
  destruct Hnone as (log & Hres & Hlen).
  - intros (fm & g & Hf & _). discriminate.
  - exists log. split; [exact Hres|]. rewrite Hlen. vm_compute. reflexivity.
Defined.
